(** * Rocky Mountain Power: extraction, normalisation and statistics merge

    A shallow embedding of
    [custom_components/rocky_mountain_power/rocky_mountain_power.py] and
    [custom_components/rocky_mountain_power/coordinator.py].

    Conventions of the embedding.
    - A Python [float] is a rational ([Q]): arithmetic is exact, and NaN,
      infinities and rounding are outside the model.  The integer [0] that
      [read["amount"] or 0] produces is the same number as [0.0].
    - A raised exception is the [Err] branch of [result]; the exception
      classes are the constructors of [exn].
    - The browser (selenium) is an oracle: a record that says what each
      wait, click and capture of the portal yields.
    - Library functions whose text is not part of the repository
      ([json.loads], [float], [int], [locale.atof],
      [datetime.fromisoformat]) are the fields of a record [pylib]. *)

From Stdlib Require Import ZArith QArith List String Ascii Bool Lia Lqa.
From stdpp Require Import base option gmap strings.
From Equations Require Import Equations.
Import ListNotations.

Local Open Scope string_scope.
Local Open Scope Z_scope.

(** ** Exceptions and results *)

Inductive exn : Type :=
| KeyError
| IndexError
| ValueError
| TypeError
| AttributeError
| OverflowError
| CannotConnect
| InvalidAuth
| TimeoutException
| ElementClickInterceptedException
| WebDriverException
| AssertionError.

Inductive result (A : Type) : Type :=
| Ok (a : A)
| Err (e : exn).

Arguments Ok {A} a.
Arguments Err {A} e.

#[global] Instance result_ret : MRet result := fun _ a => Ok a.

#[global] Instance result_bind : MBind result := fun _ _ k r =>
  match r with
  | Ok a => k a
  | Err e => Err e
  end.

Definition of_option {A : Type} (e : exn) (o : option A) : result A :=
  match o with
  | Some a => Ok a
  | None => Err e
  end.

(** [for x in xs: acc.append(f(x))], stopping at the first exception. *)
Fixpoint map_result {A B : Type} (f : A -> result B) (xs : list A)
  : result (list B) :=
  match xs with
  | [] => Ok []
  | x :: rest =>
      y ← f x;
      ys ← map_result f rest;
      Ok (y :: ys)
  end.

(** ** Strings *)

Module Str.

Fixpoint starts_with (p s : string) : bool :=
  match p, s with
  | EmptyString, _ => true
  | String a p', String b s' => Ascii.eqb a b && starts_with p' s'
  | String _ _, EmptyString => false
  end.

(** [s.replace(old, new)] for a non-empty [old]: occurrences are replaced
    from the left and do not overlap.  [skip] counts the characters of a
    match that are still to be passed over. *)
Fixpoint replace_from (old new : string) (skip : nat) (s : string) : string :=
  match s with
  | EmptyString => EmptyString
  | String c s' =>
      match skip with
      | S k => replace_from old new k s'
      | O =>
          if starts_with old s
          then new ++ replace_from old new (String.length old - 1) s'
          else String c (replace_from old new 0 s')
      end
  end.

Definition replace (old new s : string) : string :=
  replace_from old new 0 s.

Fixpoint lstrip (c : ascii) (s : string) : string :=
  match s with
  | String a s' => if Ascii.eqb a c then lstrip c s' else s
  | EmptyString => EmptyString
  end.

Fixpoint rev_onto (s acc : string) : string :=
  match s with
  | EmptyString => acc
  | String a s' => rev_onto s' (String a acc)
  end.

Definition rev (s : string) : string := rev_onto s EmptyString.

(** [s.strip(c)] for a one-character set. *)
Definition strip (c : ascii) (s : string) : string :=
  rev (lstrip c (rev (lstrip c s))).

Fixpoint join (sep : string) (parts : list string) : string :=
  match parts with
  | [] => EmptyString
  | [p] => p
  | p :: rest => p ++ sep ++ join sep rest
  end.

End Str.

(** ** Naive datetimes

    Python's [datetime] arithmetic goes through the pair (proleptic
    Gregorian ordinal of the day, time within the day); a [datetime] is
    kept in that form, to the second.  Two datetimes compare as their
    positions on the time line, which is the order of the calendar
    fields. *)

Module Datetime.

Record datetime : Type := mk_datetime {
  ordinal : Z;        (* date.toordinal(): 0001-01-01 is day 1 *)
  second_of_day : Z   (* hour * 3600 + minute * 60 + second *)
}.

Definition MINYEAR : Z := 1.
Definition MAXYEAR : Z := 9999.
Definition MAXORDINAL : Z := 3652059.   (* date(9999, 12, 31).toordinal() *)

Definition is_leap (year : Z) : bool :=
  (year mod 4 =? 0) && (negb (year mod 100 =? 0) || (year mod 400 =? 0)).

Definition days_before_year (year : Z) : Z :=
  let y := year - 1 in
  y * 365 + y / 4 - y / 100 + y / 400.

Definition days_in_month (year month : Z) : Z :=
  if month =? 2 then (if is_leap year then 29 else 28)
  else if (month =? 4) || (month =? 6) || (month =? 9) || (month =? 11)
       then 30 else 31.

Definition days_before_month_table : list Z :=
  [0; 31; 59; 90; 120; 151; 181; 212; 243; 273; 304; 334].

Definition days_before_month (year month : Z) : Z :=
  nth (Z.to_nat (month - 1)) days_before_month_table 0
  + (if (2 <? month) && is_leap year then 1 else 0).

Definition ymd2ord (year month day : Z) : Z :=
  days_before_year year + days_before_month year month + day.

Definition valid_date (year month day : Z) : bool :=
  (MINYEAR <=? year) && (year <=? MAXYEAR)
  && (1 <=? month) && (month <=? 12)
  && (1 <=? day) && (day <=? days_in_month year month).

Definition valid_time (hour minute second : Z) : bool :=
  (0 <=? hour) && (hour <=? 23)
  && (0 <=? minute) && (minute <=? 59)
  && (0 <=? second) && (second <=? 59).

(** [datetime(year, month, day, hour, minute, second)] *)
Definition make (year month day hour minute second : Z) : result datetime :=
  if valid_date year month day && valid_time hour minute second
  then Ok (mk_datetime (ymd2ord year month day)
                       (hour * 3600 + minute * 60 + second))
  else Err ValueError.

(** [timedelta(days=d, hours=h)], in seconds; the day count of a
    [timedelta] is bounded by 999999999. *)
Definition timedelta (days hours : Z) : result Z :=
  let total := days * 86400 + hours * 3600 in
  if (-999999999 * 86400 <=? total) && (total <? 1000000000 * 86400)
  then Ok total
  else Err OverflowError.

(** Seconds from the start of day 0. *)
Definition total_seconds (dt : datetime) : Z :=
  ordinal dt * 86400 + second_of_day dt.

(** [dt - delta]: the result must fall on a day of years 1..9999. *)
Definition sub (dt : datetime) (delta : Z) : result datetime :=
  let total := total_seconds dt - delta in
  let day := total / 86400 in
  if (0 <? day) && (day <=? MAXORDINAL)
  then Ok (mk_datetime day (total mod 86400))
  else Err OverflowError.

Definition ltb (a b : datetime) : bool :=
  total_seconds a <? total_seconds b.

(** Calendar fields of an ordinal, as [datetime._ord2ymd] computes them. *)
Definition ord2ymd (n0 : Z) : Z * Z * Z :=
  let n := n0 - 1 in
  let n400 := n / 146097 in
  let n := n mod 146097 in
  let n100 := n / 36524 in
  let n := n mod 36524 in
  let n4 := n / 1461 in
  let n := n mod 1461 in
  let n1 := n / 365 in
  let n := n mod 365 in
  let year := n400 * 400 + 1 + n100 * 100 + n4 * 4 + n1 in
  if (n1 =? 4) || (n100 =? 4) then (year - 1, 12, 31)
  else
    let leapyear := (n1 =? 3) && (negb (n4 =? 24) || (n100 =? 3)) in
    let month := Z.shiftr (n + 50) 5 in
    let preceding :=
      nth (Z.to_nat (month - 1)) days_before_month_table 0
      + (if (2 <? month) && leapyear then 1 else 0) in
    if n <? preceding
    then
      let month' := month - 1 in
      let dim :=
        if month' =? 2 then (if leapyear then 29 else 28)
        else if (month' =? 4) || (month' =? 6) || (month' =? 9) || (month' =? 11)
             then 30 else 31 in
      (year, month', n - (preceding - dim) + 1)
    else (year, month, n - preceding + 1).

Definition digit (d : Z) : ascii := ascii_of_nat (48 + Z.to_nat (d mod 10)).

Definition two_digits (n : Z) : string :=
  String (digit (n / 10)) (String (digit n) EmptyString).

Definition four_digits (n : Z) : string :=
  String (digit (n / 1000)) (String (digit (n / 100)) (two_digits n)).

(** [dt.isoformat()] *)
Definition isoformat (dt : datetime) : string :=
  let '(y, m, d) := ord2ymd (ordinal dt) in
  let s := second_of_day dt in
  four_digits y ++ "-" ++ two_digits m ++ "-" ++ two_digits d ++ "T"
  ++ two_digits (s / 3600) ++ ":" ++ two_digits (s / 60 mod 60) ++ ":"
  ++ two_digits (s mod 60).

(** Decimal digits of a string, most significant first. *)
Definition digit_value (c : ascii) : option Z :=
  let n := Z.of_nat (nat_of_ascii c) in
  if (48 <=? n) && (n <=? 57) then Some (n - 48) else None.

Fixpoint digits_from (acc : Z) (s : string) : option Z :=
  match s with
  | EmptyString => Some acc
  | String c s' =>
      match digit_value c with
      | Some d => digits_from (acc * 10 + d) s'
      | None => None
      end
  end.

Definition number (s : string) : option Z :=
  match s with
  | EmptyString => None
  | _ => digits_from 0 s
  end.

(** The ISO 8601 shapes the portal sends: [YYYY-MM-DD], alone or followed
    by one separator character and [HH:MM:SS].  Any other text is a
    [ValueError] here. *)
Definition parse_iso (s : string) : result datetime :=
  let field (i n : nat) := number (String.substring i n s) in
  let dashes :=
    String.eqb (String.substring 4 1 s) "-"
    && String.eqb (String.substring 7 1 s) "-" in
  let colons :=
    String.eqb (String.substring 13 1 s) ":"
    && String.eqb (String.substring 16 1 s) ":" in
  match field 0%nat 4%nat, field 5%nat 2%nat, field 8%nat 2%nat with
  | Some y, Some m, Some d =>
      if dashes && (String.length s =? 10)%nat then make y m d 0 0 0
      else if dashes && colons && (String.length s =? 19)%nat then
        match field 11%nat 2%nat, field 14%nat 2%nat, field 17%nat 2%nat with
        | Some h, Some mi, Some sec => make y m d h mi sec
        | _, _, _ => Err ValueError
        end
      else Err ValueError
  | _, _, _ => Err ValueError
  end.

(** Seconds since 1970-01-01T00:00:00 of a naive datetime read in UTC. *)
Definition utc_timestamp (dt : datetime) : Q :=
  inject_Z (total_seconds dt - 719163 * 86400).

End Datetime.

Import Datetime.

(** ** Decoded JSON values *)

#[warnings="-register-all"]
Inductive json : Type :=
| JNull
| JBool (b : bool)
| JInt (n : Z)
| JFloat (q : Q)
| JStr (s : string)
| JArr (items : list json)
| JObj (fields : list (string * json)).

Fixpoint assoc (key : string) (fields : list (string * json)) : option json :=
  match fields with
  | [] => None
  | (k, v) :: rest => if String.eqb k key then Some v else assoc key rest
  end.

(** [d[key]] *)
Definition getitem (d : json) (key : string) : result json :=
  match d with
  | JObj fields => of_option KeyError (assoc key fields)
  | _ => Err TypeError
  end.

(** [d.get(key, default)] *)
Definition dict_get (d : json) (key : string) (dflt : json) : result json :=
  match d with
  | JObj fields => Ok (match assoc key fields with Some v => v | None => dflt end)
  | _ => Err AttributeError
  end.

(** [for d in v]: a list yields its items, a dict its keys, a string
    its characters; anything else is not iterable. *)
Definition py_iter (v : json) : result (list json) :=
  match v with
  | JArr items => Ok items
  | JObj fields => Ok (map (fun kv => JStr (fst kv)) fields)
  | JStr s => Ok (map (fun c => JStr (String c EmptyString)) (list_ascii_of_string s))
  | _ => Err TypeError
  end.

(** [v[0]] *)
Definition first_item (v : json) : result json :=
  match v with
  | JArr (x :: _) => Ok x
  | JArr [] => Err IndexError
  | JStr (String c _) => Ok (JStr (String c EmptyString))
  | JStr EmptyString => Err IndexError
  | JObj _ => Err KeyError
  | _ => Err TypeError
  end.

(** Truth value of a decoded value ([if not x], [x or y]). *)
Definition truthy (v : json) : bool :=
  match v with
  | JNull => false
  | JBool b => b
  | JInt n => negb (n =? 0)
  | JFloat q => negb (Qeq_bool q 0)
  | JStr s => negb (String.eqb s "")
  | JArr items => match items with [] => false | _ => true end
  | JObj fields => match fields with [] => false | _ => true end
  end.

(** ** Library functions

    [None] stands for the [ValueError] the function raises on text it
    cannot read. *)

Record pylib : Type := {
  json_loads : string -> option json;          (* json.loads *)
  float_of_str : string -> option Q;           (* float(s) *)
  int_of_str : string -> option Z;             (* int(s) *)
  locale_atof : string -> option Q;            (* locale.atof, en_US *)
  fromisoformat : string -> option datetime;   (* datetime.fromisoformat *)
  date_fromisoformat : string -> option Z;     (* date.fromisoformat, as an ordinal *)
  py_repr : json -> string                     (* str(v) of a value that is not a str *)
}.

Section Library.

Context (lib : pylib).

Definition loads (body : string) : result json :=
  of_option ValueError (json_loads lib body).

(** [float(v)] *)
Definition py_float (v : json) : result Q :=
  match v with
  | JInt n => Ok (inject_Z n)
  | JFloat q => Ok q
  | JBool b => Ok (if b then 1%Q else 0%Q)
  | JStr s => of_option ValueError (float_of_str lib s)
  | _ => Err TypeError
  end.

(** [int(v)]: a float is truncated towards zero. *)
Definition py_int (v : json) : result Z :=
  match v with
  | JInt n => Ok n
  | JFloat q => Ok (Z.quot (Qnum q) (Zpos (Qden q)))
  | JBool b => Ok (if b then 1 else 0)
  | JStr s => of_option ValueError (int_of_str lib s)
  | _ => Err TypeError
  end.

(** [datetime.fromisoformat(v)] *)
Definition py_fromisoformat (v : json) : result datetime :=
  match v with
  | JStr s => of_option ValueError (fromisoformat lib s)
  | _ => Err TypeError
  end.

(** [date.fromisoformat(v)] *)
Definition py_date_fromisoformat (v : json) : result Z :=
  match v with
  | JStr s => of_option ValueError (date_fromisoformat lib s)
  | _ => Err TypeError
  end.

(** [f"{v}"] *)
Definition py_format (v : json) : string :=
  match v with
  | JStr s => s
  | _ => py_repr lib v
  end.

(** ** RockyMountainPowerUtility: raw usage entries *)

(** The dict appended to [usage] by the three [get_usage_by_*]. *)
Record usage_entry : Type := {
  startTime : datetime;
  endTime : datetime;
  usage : Q;
  amount : option Q   (* None is Python's None *)
}.

(** [
      amount = None
      try:
          amount = locale.atof(d.get(key, "").strip("$")) or None
      except ValueError:
          pass
    ] *)
Definition parse_amount (d : json) (key : string) : result (option Q) :=
  v ← dict_get d key (JStr "");
  match v with
  | JStr s =>
      match locale_atof lib (Str.strip "$" s) with
      | Some q => Ok (if Qeq_bool q 0 then None else Some q)
      | None => Ok None
      end
  | _ => Err AttributeError
  end.

(** [details.get(k1, {}).get(k2, {}).get(k3, [])] *)
Definition line_items (details : json) (k1 k2 k3 : string) : result (list json) :=
  a ← dict_get details k1 (JObj []);
  b ← dict_get a k2 (JObj []);
  c ← dict_get b k3 (JArr []);
  py_iter c.

(** Body of the loop of [get_usage_by_month]. *)
Definition month_entry (d : json) : result usage_entry :=
  e ← getitem d "usagePeriodEndDate";
  end_time ← py_fromisoformat e;
  n ← getitem d "elapsedDays";
  days ← py_int n;
  delta ← timedelta days 0;
  start_time ← sub end_time delta;
  amt ← parse_amount d "invoiceAmount";
  q ← dict_get d "kwhUsageQuantity" (JInt 0);
  u ← py_float q;
  Ok {| startTime := start_time; endTime := end_time; usage := u; amount := amt |}.

(** Body of the inner loop of [get_usage_by_day]. *)
Definition day_entry (d : json) : result usage_entry :=
  e ← getitem d "usagePeriodEndDate";
  end_time ← py_fromisoformat e;
  delta ← timedelta 1 0;
  start_time ← sub end_time delta;
  amt ← parse_amount d "dollerAmount";
  q ← dict_get d "kwhUsageQuantity" (JInt 0);
  u ← py_float q;
  Ok {| startTime := start_time; endTime := end_time; usage := u; amount := amt |}.

(** [d['readTime'].replace('24', '00')] *)
Definition read_time (v : json) : result string :=
  match v with
  | JStr s => Ok (Str.replace "24" "00" s)
  | _ => Err AttributeError
  end.

(** Body of the inner loop of [get_usage_by_hour]. *)
Definition hour_entry (d : json) : result usage_entry :=
  rd ← getitem d "readDate";
  rt ← getitem d "readTime";
  t ← read_time rt;
  end_time ← py_fromisoformat (JStr (py_format rd +:+ "T" +:+ t +:+ ":00"));
  delta ← timedelta 0 1;
  start_time ← sub end_time delta;
  q ← dict_get d "usage" (JInt 0);
  u ← py_float q;
  Ok {| startTime := start_time; endTime := end_time; usage := u; amount := None |}.

Definition month_entries (details : json) : result (list usage_entry) :=
  items ← line_items details "getUsageHistoryAndGraphDataV1ResponseBody"
                     "usageHistory" "usageHistoryLineItem";
  map_result month_entry items.

Definition day_entries (details : json) : result (list usage_entry) :=
  items ← line_items details "getUsageForDateRangeResponseBody"
                     "dailyUsageList" "usgHistoryLineItem";
  map_result day_entry items.

Definition hour_entries (details : json) : result (list usage_entry) :=
  items ← line_items details "getIntervalUsageForDateResponseBody"
                     "response" "intervalDataResponse";
  map_result hour_entry items.

End Library.

(** ** The portal as the browser shows it

    What the site does is an input of the model.  [opened] is what
    selecting a view gives once [wait.until(lambda _: xhr_url in
    self.get_xhrs())] returns: the captured body, or the exception of a
    step on the way ([CannotConnect] for a wrong page title, a timeout, a
    missing element).  [previous k] is what happens when PREVIOUS is used
    after [k] pages have been read. *)

Inductive previous_outcome : Type :=
| PrevMissing                 (* no "button.link" with text PREVIOUS: get_el raises *)
| PrevIntercepted             (* click raises ElementClickInterceptedException *)
| PrevClickFailed             (* click raises another selenium exception *)
| PrevTimeout                 (* clicked, no new capture within the wait *)
| PrevLoaded (body : string). (* clicked, a new capture of xhr_url arrived *)

Record view : Type := {
  opened : result string;
  previous : nat -> previous_outcome
}.

Record portal : Type := {
  (* login *)
  browser_started : bool;      (* webdriver.Remote(...) and br.get(LOGIN_URL) return *)
  sign_in_reached : bool;      (* title is "Sign in" within the wait *)
  login_frame_found : bool;    (* iframe#loginframe available within the wait *)
  login_form_found : bool;     (* input#signInName, input#password, button#next *)
  my_account_reached : bool;   (* title is "My account" within the wait *)
  login_captures : gmap string string;
  (* energy usage page *)
  energy_usage_reached : result unit;
  energy_usage_captures : gmap string string;
  (* usage views *)
  monthly : result string;
  daily : view;
  hourly : view
}.

Inductive AggregateType : Type := MONTH | DAY | HOUR.

(** [CostRead] *)
Record CostRead : Type := {
  start_time : datetime;
  end_time : datetime;
  consumption : Q;
  provided_cost : Q
}.

(** [result.pop()] on a non-empty list: the list without its last item,
    and that item. *)
Fixpoint pop {A : Type} (l : list A) : option (list A * A) :=
  match l with
  | [] => None
  | x :: rest =>
      match pop rest with
      | None => Some ([], x)
      | Some (init, last) => Some (x :: init, last)
      end
  end.

(** [last.provided_cost != 0 or last.consumption != 0] *)
Definition has_value (r : CostRead) : bool :=
  negb (Qeq_bool (provided_cost r) 0) || negb (Qeq_bool (consumption r) 0).

(** The list [result] of [get_cost_reads] is [results] here.
    [
      # Remove last entries with 0 values
      while result:
          last = result.pop()
          if last.provided_cost != 0 or last.consumption != 0:
              result.append(last)
              break
    ] *)
Equations? remove_last_zero_entries (results : list CostRead) : list CostRead
  by wf (length results) lt :=
remove_last_zero_entries results with Equations.Prop.Logic.inspect (pop results) := {
  | exist _ None _ => results
  | exist _ (Some (rest, item)) H =>
      if has_value item then (rest ++ [item])%list
      else remove_last_zero_entries rest }.
Proof.
  clear remove_last_zero_entries.
  revert rest item H.
  induction results as [|x l IH]; intros rest item; simpl; [discriminate|].
  destruct (pop l) as [[i y]|] eqn:E.
  - intros [= <- <-]. simpl. specialize (IH i y eq_refl). lia.
  - intros [= <- <-]. simpl. lia.
Qed.

Section Utility.

Context (lib : pylib).

(** [get_usage_by_month] *)
Definition get_usage_by_month (site : portal) : result (list usage_entry) :=
  body ← monthly site;
  details ← loads lib body;
  month_entries lib details.

(** The [while months > 0] loop of [get_usage_by_day] and the
    [while days > 0] loop of [get_usage_by_hour]: [remaining] is the
    counter, [k] the number of pages already read, [body] the capture
    that [xhrs[xhr_url]] holds on entry. *)
Fixpoint page_loop (entries : json -> result (list usage_entry))
    (prev : nat -> previous_outcome) (remaining k : nat) (body : string)
    (usage : list usage_entry) : result (list usage_entry) :=
  match remaining with
  | O => Ok usage
  | S togo =>
      details ← loads lib body;
      items ← entries details;
      let usage := (usage ++ items)%list in
      match togo with
      | O => Ok usage
      | S _ =>
          match prev k with
          | PrevMissing => Err IndexError
          | PrevIntercepted => Ok usage            (* break *)
          | PrevClickFailed => Err WebDriverException
          | PrevTimeout => Ok usage                (* break *)
          | PrevLoaded body' => page_loop entries prev togo (S k) body' usage
          end
      end
  end.

(** [get_usage_by_day(months)] *)
Definition get_usage_by_day (site : portal) (months : Z) : result (list usage_entry) :=
  body ← opened (daily site);
  page_loop (day_entries lib) (previous (daily site)) (Z.to_nat months) 0 body [].

(** [get_usage_by_hour(days)] *)
Definition get_usage_by_hour (site : portal) (days : Z) : result (list usage_entry) :=
  body ← opened (hourly site);
  page_loop (hour_entries lib) (previous (hourly site)) (Z.to_nat days) 0 body [].

(** ** RockyMountainPower *)

Definition _get_dated_data (site : portal) (aggregate_type : AggregateType)
    (period : Z) : result (list usage_entry) :=
  match aggregate_type with
  | MONTH => get_usage_by_month site
  | DAY => get_usage_by_day site period
  | HOUR => get_usage_by_hour site period
  end.

(** [read["amount"] or 0] *)
Definition amount_or_zero (a : option Q) : Q :=
  match a with
  | Some q => if Qeq_bool q 0 then 0%Q else q
  | None => 0%Q
  end.

Definition cost_read_of (read : usage_entry) : CostRead :=
  {| start_time := startTime read;
     end_time := endTime read;
     consumption := usage read;
     provided_cost := amount_or_zero (amount read) |}.

(** [get_cost_reads(aggregate_type, period)] *)
Definition get_cost_reads (site : portal) (aggregate_type : AggregateType)
    (period : Z) : result (list CostRead) :=
  reads ← _get_dated_data site aggregate_type period;
  Ok (remove_last_zero_entries (map cost_read_of reads)).

(** *** Session state *)

Record utility_state : Type := {
  u_user_id : json;                (* self.user_id *)
  u_account : json;                (* self.account *)
  u_forecast : json;               (* self.forecast *)
  u_xhrs : gmap string string      (* self.xhrs *)
}.

Definition new_utility : utility_state :=
  {| u_user_id := JNull; u_account := JObj []; u_forecast := JObj [];
     u_xhrs := ∅ |}.

Definition URL_ME : string :=
  "https://csapps.rockymountainpower.net/api/user/me".
Definition URL_ACCOUNT_LIST : string :=
  "https://csapps.rockymountainpower.net/api/self-service/getAccountList".
Definition URL_METER_TYPE : string :=
  "https://csapps.rockymountainpower.net/api/energy-usage/getMeterType".

(** [get_xhrs]: [self.xhrs = {**self.xhrs, **xhrs}] where [xhrs] are
    the JSON responses found in the performance log. *)
Definition get_xhrs (captured : gmap string string) (u : utility_state)
  : utility_state :=
  {| u_user_id := u_user_id u; u_account := u_account u;
     u_forecast := u_forecast u; u_xhrs := captured ∪ u_xhrs u |}.

(** [xhrs[url]] followed by [json.loads] *)
Definition captured_json (xhrs : gmap string string) (url : string) : result json :=
  body ← of_option KeyError (xhrs !! url);
  loads lib body.

(** [json.loads(xhrs[".../api/user/me"])["id"]] *)
Definition captured_user_id (xhrs : gmap string string) : result json :=
  me ← captured_json xhrs URL_ME;
  getitem me "id".

(** [json.loads(xhrs[".../getAccountList"])["getAccountListResponseBody"]
    ["accountList"]["webAccount"][0]] *)
Definition captured_first_account (xhrs : gmap string string) : result json :=
  accounts ← captured_json xhrs URL_ACCOUNT_LIST;
  a ← getitem accounts "getAccountListResponseBody";
  b ← getitem a "accountList";
  c ← getitem b "webAccount";
  first_item c.

(** [RockyMountainPowerUtility.login]: the state after the call and
    what the call returns or raises.  The wait for the title "Sign in" is
    wrapped into [CannotConnect] and the wait for "My account" into
    [InvalidAuth]; the wait for the frame, the element lookups and the
    reads of the capture buffer are not wrapped. *)
Definition utility_login (site : portal) (u : utility_state)
  : utility_state * result (gmap string string) :=
  if negb (browser_started site) then (u, Err WebDriverException)
  else if negb (sign_in_reached site) then (u, Err CannotConnect)
  else if negb (login_frame_found site) then (u, Err TimeoutException)
  else if negb (login_form_found site) then (u, Err WebDriverException)
  else if negb (my_account_reached site) then (u, Err InvalidAuth)
  else
    let u1 := get_xhrs (login_captures site) u in
    let xhrs := u_xhrs u1 in
    match captured_user_id xhrs with
    | Err e => (u1, Err e)
    | Ok uid =>
        let u2 := {| u_user_id := uid; u_account := u_account u1;
                     u_forecast := u_forecast u1; u_xhrs := xhrs |} in
        match captured_first_account xhrs with
        | Err e => (u2, Err e)
        | Ok acct =>
            ({| u_user_id := uid; u_account := acct;
                u_forecast := u_forecast u1; u_xhrs := xhrs |}, Ok xhrs)
        end
    end.

(** [RockyMountainPowerUtility.get_forecast], [goto_energy_usage]
    included. *)
Definition utility_get_forecast (site : portal) (u : utility_state)
  : utility_state * result json :=
  match energy_usage_reached site with
  | Err e => (u, Err e)
  | Ok _ =>
      let u1 := get_xhrs (energy_usage_captures site) u in
      match (details ← captured_json (u_xhrs u1) URL_METER_TYPE;
             dict_get details "getMeterTypeResponseBody" (JObj [])) with
      | Err e => (u1, Err e)
      | Ok f =>
          ({| u_user_id := u_user_id u1; u_account := u_account u1;
              u_forecast := f; u_xhrs := u_xhrs u1 |}, Ok f)
      end
  end.

(** *** RockyMountainPower *)

Record Customer : Type := { customer_uuid : json }.

Record Account : Type := {
  customer : Customer;
  uuid : json;
  utility_account_id : json
}.

Record Forecast : Type := {
  forecast_account : Account;
  start_date : Z;
  end_date : Z;
  current_date : Z;
  forecasted_cost : Q;
  forecasted_cost_low : Q;
  forecasted_cost_high : Q
}.

Record api_state : Type := {
  account : json;         (* self.account *)
  customer_id : json;     (* self.customer_id *)
  utility : utility_state
}.

Definition new_api : api_state :=
  {| account := JObj []; customer_id := JNull; utility := new_utility |}.

(** [RockyMountainPower.login] *)
Definition login (site : portal) (api : api_state) : api_state * result unit :=
  let '(u, r) := utility_login site (utility api) in
  match r with
  | Err e =>
      ({| account := account api; customer_id := customer_id api;
          utility := u |}, Err e)
  | Ok _ =>
      ({| account := if truthy (account api) then account api else u_account u;
          customer_id :=
            if truthy (customer_id api) then customer_id api else u_user_id u;
          utility := u |}, Ok tt)
  end.

(** [_get_account] *)
Definition _get_account (site : portal) (api : api_state)
  : api_state * result json :=
  if truthy (account api) then (api, Ok (account api))
  else
    let '(api1, r) := login site api in
    match r with
    | Err e => (api1, Err e)
    | Ok _ =>
        let api2 := {| account := u_account (utility api1);
                       customer_id := customer_id api1;
                       utility := utility api1 |} in
        if truthy (account api2) then (api2, Ok (account api2))
        else (api2, Err AssertionError)
    end.

(** [s.replace(" ", "_")] on an account number *)
Definition replace_spaces (v : json) : result json :=
  match v with
  | JStr s => Ok (JStr (Str.replace " " "_" s))
  | _ => Err AttributeError
  end.

(** [get_account] *)
Definition get_account (site : portal) (api : api_state)
  : api_state * result Account :=
  let '(api1, r) := _get_account site api in
  (api1,
   acct ← r;
   number ← getitem acct "accountNumber";
   number' ← getitem acct "accountNumber";
   key ← replace_spaces number';
   Ok {| customer := {| customer_uuid := customer_id api1 |};
         uuid := number;
         utility_account_id := key |}).

(** [get_forecast]; [today] is [date.today()]. *)
Definition get_forecast (site : portal) (today : Z) (api : api_state)
  : api_state * result (list Forecast) :=
  let '(u, r) := utility_get_forecast site (utility api) in
  let api1 := {| account := account api; customer_id := customer_id api;
                 utility := u |} in
  (api1,
   _ ← r;
   let forecast := u_forecast u in
   if truthy forecast then
     number ← getitem (account api1) "accountNumber";
     number' ← getitem (account api1) "accountNumber";
     sd ← getitem forecast "startDateForAMIAcctView";
     sd ← py_date_fromisoformat lib sd;
     ed ← getitem forecast "endDateForAMIAcctView";
     ed ← py_date_fromisoformat lib ed;
     c ← dict_get forecast "projectedCost" (JInt 0);
     c ← py_float lib c;
     lo ← dict_get forecast "projectedCostLow" (JInt 0);
     lo ← py_float lib lo;
     hi ← dict_get forecast "projectedCostHigh" (JInt 0);
     hi ← py_float lib hi;
     Ok [ {| forecast_account :=
               {| customer := {| customer_uuid := customer_id api1 |};
                  uuid := number;
                  utility_account_id := number' |};
             start_date := sd; end_date := ed; current_date := today;
             forecasted_cost := c; forecasted_cost_low := lo;
             forecasted_cost_high := hi |} ]
   else Ok []).

End Utility.

(** ** RockyMountainPowerCoordinator *)

(** [StatisticData] *)
Record StatisticData : Type := {
  start : datetime;
  state : Q;
  sum : Q
}.

(** [StatisticMetaData] *)
Record StatisticMetaData : Type := {
  has_mean : bool;
  has_sum : bool;
  name : string;
  source : string;
  statistic_id : string;
  unit_of_measurement : option string
}.

(** A row read back from the recorder: its [start] (a POSIX timestamp)
    and its [sum]. *)
Record StatisticsRow : Type := {
  row_start : Q;
  row_sum : Q
}.

(** The recorder, as the coordinator reads it.
    - [last_statistics id] are the rows of
      [get_last_statistics(hass, 1, id, True, set())] ([[]] when the
      reply is empty);
    - [statistics_during_period t] is the reply of
      [statistics_during_period(hass, t, None, {cost id, consumption
      id}, "hour", None, {"sum"})]. *)
Record recorder : Type := {
  last_statistics : string -> list StatisticsRow;
  statistics_during_period : datetime -> gmap string (list StatisticsRow)
}.

(** One call of [async_add_external_statistics(hass, metadata, statistics)]. *)
Definition store_call : Type := (StatisticMetaData * list StatisticData)%type.

Section Coordinator.

Context (lib : pylib).
(** [const.DOMAIN] and [UnitOfEnergy.KILO_WATT_HOUR], defined outside
    these files. *)
Context (DOMAIN KILO_WATT_HOUR : string).
(** [datetime.timestamp()] of a naive datetime: depends on the time
    zone of the host. *)
Context (timestamp : datetime -> Q).

(** [_async_get_all_cost_reads] *)
Definition _async_get_all_cost_reads (site : portal) : result (list CostRead) :=
  months ← get_cost_reads lib site MONTH 1;
  days ← get_cost_reads lib site DAY 24;
  hours ← get_cost_reads lib site HOUR 60;
  Ok ((months ++ days) ++ hours)%list.

(** [_async_get_recent_cost_reads] *)
Definition _async_get_recent_cost_reads (site : portal) : result (list CostRead) :=
  days ← get_cost_reads lib site DAY 1;
  hours ← get_cost_reads lib site HOUR 1;
  Ok (days ++ hours)%list.

(** [last_stats_time is not None and start.timestamp() <= last_stats_time] *)
Definition already_stored (last_stats_time : option Q) (start : datetime) : bool :=
  match last_stats_time with
  | None => false
  | Some t => Qle_bool (timestamp start) t
  end.

(** The [for cost_read in cost_reads] loop of [_insert_statistics]. *)
Fixpoint statistics_loop (last_stats_time : option Q) (cost_reads : list CostRead)
    (cost_sum consumption_sum : Q)
    (cost_statistics consumption_statistics : list StatisticData)
  : list StatisticData * list StatisticData :=
  match cost_reads with
  | [] => (cost_statistics, consumption_statistics)
  | cost_read :: rest =>
      let start := start_time cost_read in
      if already_stored last_stats_time start
      then statistics_loop last_stats_time rest cost_sum consumption_sum
             cost_statistics consumption_statistics
      else
        let cost_sum := (cost_sum + provided_cost cost_read)%Q in
        let consumption_sum := (consumption_sum + consumption cost_read)%Q in
        statistics_loop last_stats_time rest cost_sum consumption_sum
          (cost_statistics
           ++ [ {| start := start; state := provided_cost cost_read;
                   sum := cost_sum |} ])%list
          (consumption_statistics
           ++ [ {| start := start; state := consumption cost_read;
                   sum := consumption_sum |} ])%list
  end.

(** [stats[statistic_id][0]] *)
Definition first_row (stats : gmap string (list StatisticsRow)) (id : string)
  : result StatisticsRow :=
  rows ← of_option KeyError (stats !! id);
  of_option IndexError (head rows).

(** ["_".join(("elec", v))] and the like need a [str]. *)
Definition as_str (v : json) : result string :=
  match v with
  | JStr s => Ok s
  | _ => Err TypeError
  end.

Definition cost_statistic_id_of (account_id : string) : string :=
  DOMAIN +:+ ":" +:+ Str.join "_" ["elec"; account_id] +:+ "_energy_cost".

Definition consumption_statistic_id_of (account_id : string) : string :=
  DOMAIN +:+ ":" +:+ Str.join "_" ["elec"; account_id] +:+ "_energy_consumption".

(** The prior state of the merge: the reads to walk, both running sums
    and [last_stats_time]; [None] is the early [return] on an empty
    recent fetch. *)
Definition prior_state (site : portal) (store : recorder)
    (cost_statistic_id consumption_statistic_id : string)
  : result (option (list CostRead * Q * Q * option Q)) :=
  match last_statistics store consumption_statistic_id with
  | [] =>
      cost_reads ← _async_get_all_cost_reads site;
      Ok (Some (cost_reads, 0%Q, 0%Q, None))
  | _ :: _ =>
      cost_reads ← _async_get_recent_cost_reads site;
      match cost_reads with
      | [] => Ok None
      | first :: _ =>
          let stats := statistics_during_period store (start_time first) in
          c ← first_row stats cost_statistic_id;
          n ← first_row stats consumption_statistic_id;
          t ← first_row stats cost_statistic_id;
          Ok (Some (cost_reads, row_sum c, row_sum n, Some (row_start t)))
      end
  end.

(** [_insert_statistics]: the calls made to the statistics store. *)
Definition _insert_statistics (site : portal) (store : recorder) (api : api_state)
  : result (list store_call) :=
  account ← snd (get_account lib site api);
  account_id ← as_str (utility_account_id account);
  let cost_statistic_id := cost_statistic_id_of account_id in
  let consumption_statistic_id := consumption_statistic_id_of account_id in
  prior ← prior_state site store cost_statistic_id consumption_statistic_id;
  match prior with
  | None => Ok []
  | Some (cost_reads, cost_sum, consumption_sum, last_stats_time) =>
      let '(cost_statistics, consumption_statistics) :=
        statistics_loop last_stats_time cost_reads cost_sum consumption_sum [] [] in
      let name_prefix :=
        Str.join " " ["Rocky Mountain Power"; "elec"; account_id] in
      let cost_metadata :=
        {| has_mean := false; has_sum := true;
           name := name_prefix +:+ " cost"; source := DOMAIN;
           statistic_id := cost_statistic_id;
           unit_of_measurement := None |} in
      let consumption_metadata :=
        {| has_mean := false; has_sum := true;
           name := name_prefix +:+ " consumption"; source := DOMAIN;
           statistic_id := consumption_statistic_id;
           unit_of_measurement := Some KILO_WATT_HOUR |} in
      Ok [ (cost_metadata, cost_statistics);
           (consumption_metadata, consumption_statistics) ]
  end.

End Coordinator.

(** ** The performance log

    What [self.br.get_log("performance")] returns, one record for each
    message; the fields of the response are read only for a
    [Network.responseReceived] message. *)

Record response_log : Type := {
  log_method : string;      (* log["method"] *)
  log_mimeType : string;    (* log["params"]["response"]["mimeType"] *)
  log_url : string;         (* log["params"]["response"]["url"] *)
  log_requestId : string    (* log["params"]["requestId"] *)
}.

(** [needle in s] *)
Fixpoint contains (needle s : string) : bool :=
  Str.starts_with needle s
  || match s with
     | EmptyString => false
     | String _ s' => contains needle s'
     end.

(** [log_filter] *)
Definition log_filter (log : response_log) : bool :=
  String.eqb (log_method log) "Network.responseReceived"
  && contains "json" (log_mimeType log).

(** The loop of [get_xhrs] over the filtered log.  [response_body id] is
    [self.send("Network.getResponseBody", {"requestId": id})["body"]],
    [None] when that raises (the [except: pass]). *)
Fixpoint collect_xhrs (response_body : string -> option string)
    (logs : list response_log) (xhrs : gmap string string) : gmap string string :=
  match logs with
  | [] => xhrs
  | log :: rest =>
      if log_filter log then
        match response_body (log_requestId log) with
        | Some body => collect_xhrs response_body rest (<[log_url log := body]> xhrs)
        | None => collect_xhrs response_body rest xhrs
        end
      else collect_xhrs response_body rest xhrs
  end.

(** [get_xhrs] on a given performance log. *)
Definition get_xhrs_of_log (response_body : string -> option string)
    (logs : list response_log) (u : utility_state) : utility_state :=
  get_xhrs (collect_xhrs response_body logs ∅) u.

(** ** The update cycle and the config flow *)

(** What [_async_update_data] raises: [ConfigEntryAuthFailed] for an
    [InvalidAuth], any other exception as it is. *)
Inductive update_error : Type :=
| ConfigEntryAuthFailed
| Propagated (e : exn).

Inductive update_result : Type :=
| UpdateFailed (e : update_error)
| UpdateData (data : list (json * Forecast)).

(** One run of [_async_update_data]: the API object afterwards, the
    calls made to the statistics store, how often [end_session] ran and
    what the run returns or raises.  Of the API object, the cached
    account and customer are followed to the end of the run; its capture
    buffer is followed up to the fetches of the usage views only, which
    clear it and fill it again and are modelled by their results. *)
Record update_cycle : Type := {
  cycle_api : api_state;
  cycle_store_calls : list store_call;
  cycle_sessions_ended : nat;
  cycle_result : update_result
}.

(** A value that can be the key of a dict. *)
Definition hashable (v : json) : bool :=
  match v with
  | JArr _ | JObj _ => false
  | _ => true
  end.

(** [{forecast.account.utility_account_id: forecast for forecast in
    forecasts}], as the pairs in the order inserted. *)
Definition forecasts_by_account (forecasts : list Forecast)
  : result (list (json * Forecast)) :=
  map_result
    (fun f =>
       let key := utility_account_id (forecast_account f) in
       if hashable key then Ok (key, f) else Err TypeError)
    forecasts.

Section UpdateCycle.

Context (lib : pylib).
Context (DOMAIN KILO_WATT_HOUR : string).
Context (timestamp : datetime -> Q).

(** [_async_update_data]; [today] is [date.today()]. *)
Definition _async_update_data (site : portal) (store : recorder) (today : Z)
    (api : api_state) : update_cycle :=
  let '(api1, logged) := login lib site api in
  match logged with
  | Err InvalidAuth =>
      {| cycle_api := api1; cycle_store_calls := [];
         cycle_sessions_ended := 1; cycle_result := UpdateFailed ConfigEntryAuthFailed |}
  | Err e =>
      {| cycle_api := api1; cycle_store_calls := [];
         cycle_sessions_ended := 1; cycle_result := UpdateFailed (Propagated e) |}
  | Ok _ =>
      let '(api2, fetched) := get_forecast lib site today api1 in
      match fetched with
      | Err e =>
          {| cycle_api := api2; cycle_store_calls := [];
             cycle_sessions_ended := 1;
             cycle_result := UpdateFailed (Propagated e) |}
      | Ok forecasts =>
          let api3 := fst (get_account lib site api2) in
          match _insert_statistics lib DOMAIN KILO_WATT_HOUR timestamp
                                   site store api2 with
          | Err e =>
              {| cycle_api := api3; cycle_store_calls := [];
                 cycle_sessions_ended := 1;
                 cycle_result := UpdateFailed (Propagated e) |}
          | Ok calls =>
              {| cycle_api := api3; cycle_store_calls := calls;
                 cycle_sessions_ended := 1;
                 cycle_result :=
                   match forecasts_by_account forecasts with
                   | Ok data => UpdateData data
                   | Err e => UpdateFailed (Propagated e)
                   end |}
          end
      end
  end.

(** [config_flow._validate_login]: the [errors] dict. *)
Definition _validate_login (site : portal) : result (gmap string string) :=
  match snd (login lib site new_api) with
  | Ok _ => Ok ∅
  | Err InvalidAuth => Ok {[ "base" := "invalid_auth" ]}
  | Err CannotConnect => Ok {[ "base" := "cannot_connect" ]}
  | Err e => Err e
  end.

End UpdateCycle.

(** ** A concrete library

    Readers for the texts the examples use: plain decimal numbers, the
    ISO shapes of [parse_iso], and captured bodies named in a table. *)

Module Sample.

Fixpoint fraction (num den : Z) (s : string) : option (Z * Z) :=
  match s with
  | EmptyString => Some (num, den)
  | String c s' =>
      match digit_value c with
      | Some d => fraction (num * 10 + d) (den * 10) s'
      | None => None
      end
  end.

(** Digits up to the first ".", and what follows it. *)
Fixpoint split_point (s : string) : string * option string :=
  match s with
  | EmptyString => (EmptyString, None)
  | String c s' =>
      if Ascii.eqb c "." then (EmptyString, Some s')
      else let '(a, b) := split_point s' in (String c a, b)
  end.

Definition unsigned_decimal (s : string) : option Q :=
  let '(whole, frac) := split_point s in
  match number whole, frac with
  | Some w, None => Some (inject_Z w)
  | Some w, Some f =>
      match fraction 0 1 f with
      | Some (n, d) => Some (Qred (inject_Z w + Qmake n (Z.to_pos d)))
      | None => None
      end
  | None, _ => None
  end.

Definition decimal (s : string) : option Q :=
  match s with
  | String "-" s' => option_map Qopp (unsigned_decimal s')
  | _ => unsigned_decimal s
  end.

Definition integer (s : string) : option Z :=
  match s with
  | String "-" s' => option_map Z.opp (number s')
  | _ => number s
  end.

Definition to_option {A : Type} (r : result A) : option A :=
  match r with
  | Ok a => Some a
  | Err _ => None
  end.

Definition iso_date (s : string) : option Z :=
  if (String.length s =? 10)%nat
  then option_map ordinal (to_option (parse_iso s))
  else None.

Definition repr (v : json) : string :=
  match v with
  | JNull => "None"
  | JBool true => "True"
  | JBool false => "False"
  | _ => "<object>"
  end.

Fixpoint body_named (table : list (string * json)) (body : string) : option json :=
  match table with
  | [] => None
  | (k, v) :: rest => if String.eqb k body then Some v else body_named rest body
  end.

(** The library over a table of captured bodies. *)
Definition lib (table : list (string * json)) : pylib :=
  {| json_loads := body_named table;
     float_of_str := decimal;
     int_of_str := integer;
     locale_atof := fun s => decimal (Str.replace "," "" s);
     fromisoformat := fun s => to_option (parse_iso s);
     date_fromisoformat := iso_date;
     py_repr := repr |}.

End Sample.

(** ** Vocabulary of the statements *)

(** Both values of a read are exactly zero. *)
Definition zero_entry (r : CostRead) : Prop :=
  (provided_cost r == 0)%Q /\ (consumption r == 0)%Q.

(** A list that is empty or ends in a read with a value. *)
Definition ends_with_value (kept : list CostRead) : Prop :=
  kept = [] \/
  exists init item, kept = (init ++ [item])%list /\ ~ zero_entry item.

(** The points that a walk over [reads] sends to one series, in the
    words of the specification: each read adds its value to the running
    sum and emits one point with the value and the updated sum. *)
Fixpoint spec_running_points (value : CostRead -> Q) (running : Q)
    (reads : list CostRead) : list StatisticData :=
  match reads with
  | [] => []
  | r :: rest =>
      {| start := start_time r; state := value r;
         sum := (running + value r)%Q |}
      :: spec_running_points value (running + value r)%Q rest
  end.

(** The reads that the walk does not skip. *)
Definition not_stored (timestamp : datetime -> Q) (last_stats_time : option Q)
    (reads : list CostRead) : list CostRead :=
  List.filter
    (fun r => negb (already_stored timestamp last_stats_time (start_time r)))
    reads.

(** How the cost of a read follows from the currency field [key] of the
    line item [d]: text that [locale.atof] rejects and an amount of zero
    both give 0, any other amount gives itself; a missing field is read
    as the empty text. *)
Definition cost_rule (lib : pylib) (d : json) (key : string) (r : CostRead) : Prop :=
  exists s,
    dict_get d key (JStr "") = Ok (JStr s) /\
    (locale_atof lib (Str.strip "$" s) = None -> provided_cost r = 0%Q) /\
    (forall q, locale_atof lib (Str.strip "$" s) = Some q ->
               (q == 0)%Q -> provided_cost r = 0%Q) /\
    (forall q, locale_atof lib (Str.strip "$" s) = Some q ->
               ~ (q == 0)%Q -> provided_cost r = q) /\
    (forall fields, d = JObj fields -> assoc key fields = None ->
                    locale_atof lib "" = None -> provided_cost r = 0%Q).

(** Pages that load one after the other: [body] is the capture read
    when [k] pages are behind and holds the entries [items]; each list of
    [more] is the page that the next use of PREVIOUS brings. *)
Fixpoint pages_follow (lib : pylib) (entries : json -> result (list usage_entry))
    (prev : nat -> previous_outcome) (k : nat) (body : string)
    (items : list usage_entry) (more : list (list usage_entry)) : Prop :=
  loads lib body ≫= entries = Ok items /\
  match more with
  | [] => True
  | next :: more' =>
      exists body', prev k = PrevLoaded body' /\
                    pages_follow lib entries prev (S k) body' next more'
  end.

(** PREVIOUS does not bring a page: its click is intercepted or no new
    capture arrives within the wait. *)
Definition stalls (o : previous_outcome) : Prop :=
  o = PrevIntercepted \/ o = PrevTimeout.


(** ** Sample portals *)

Module Site.

Definition month_payload (items : list json) : json :=
  JObj [("getUsageHistoryAndGraphDataV1ResponseBody",
         JObj [("usageHistory", JObj [("usageHistoryLineItem", JArr items)])])].

Definition day_payload (items : list json) : json :=
  JObj [("getUsageForDateRangeResponseBody",
         JObj [("dailyUsageList", JObj [("usgHistoryLineItem", JArr items)])])].

Definition hour_payload (items : list json) : json :=
  JObj [("getIntervalUsageForDateResponseBody",
         JObj [("response", JObj [("intervalDataResponse", JArr items)])])].

Definition month_item (end_date invoice : string) (elapsed : Z) (kwh : json) : json :=
  JObj [("usagePeriod", JStr "period"); ("usagePeriodEndDate", JStr end_date);
        ("invoiceAmount", JStr invoice); ("elapsedDays", JInt elapsed);
        ("kwhUsageQuantity", kwh)].

Definition day_item (end_date amount kwh : string) : json :=
  JObj [("usagePeriodEndDate", JStr end_date); ("dollerAmount", JStr amount);
        ("numberOfDays", JInt 1); ("kwhUsageQuantity", JStr kwh)].

Definition hour_item (read_date read_time kwh : string) : json :=
  JObj [("readDate", JStr read_date); ("readTime", JStr read_time);
        ("usage", JStr kwh)].

(** A view of one page: PREVIOUS never brings a new capture. *)
Definition single_page (body : string) : view :=
  {| opened := Ok body; previous := fun _ => PrevTimeout |}.

(** A portal whose login and navigation succeed. *)
Definition reachable (at_login : gmap string string) (months : result string)
    (days hours : view) : portal :=
  {| browser_started := true; sign_in_reached := true;
     login_frame_found := true; login_form_found := true;
     my_account_reached := true; login_captures := at_login;
     energy_usage_reached := Ok tt; energy_usage_captures := ∅;
     monthly := months; daily := days; hourly := hours |}.

(** The day that ends on 2023-11-22 and the first hour of 2023-11-21
    start at the same instant. *)
Definition overlap_bodies : list (string * json) :=
  [ ("days", day_payload [day_item "2023-11-22" "$4" "30.5"]);
    ("hours", hour_payload [hour_item "2023-11-21" "01:00" "1.5"]) ].

Definition overlap : portal :=
  reachable ∅ (Err TimeoutException) (single_page "days") (single_page "hours").

(** 2023-11-20T00:00:00 as a timestamp. *)
Definition nov_20 : Q := utc_timestamp (mk_datetime (ymd2ord 2023 11 20) 0).

(** A read of one day of November 2023. *)
Definition day_read (day : Z) (kwh cost : Q) : CostRead :=
  {| start_time := mk_datetime (ymd2ord 2023 11 day) 0;
     end_time := mk_datetime (ymd2ord 2023 11 (day + 1)) 0;
     consumption := kwh; provided_cost := cost |}.

(** Reads of the 19th, 20th, 21st and 22nd. *)
Definition four_days : list CostRead :=
  [ day_read 19 30 4; day_read 20 31 5; day_read 21 (61 # 2) 4;
    day_read 22 28 3 ].

End Site.

Module Cases.

(** The last two hours of 2023-11-22 as the portal sends them. *)
Definition end_of_day_bodies : list (string * json) :=
  [ ("hours", Site.hour_payload [ Site.hour_item "2023-11-22" "23:00" "0.4";
                                  Site.hour_item "2023-11-22" "24:00" "0.5" ]) ].

Definition end_of_day : portal :=
  Site.reachable ∅ (Err TimeoutException) (Site.single_page "days")
                 (Site.single_page "hours").

(** Three bills without consumption: $5, then $0, then no amount. *)
Definition settling_bodies : list (string * json) :=
  [ ("months", Site.month_payload
                 [ Site.month_item "2023-09-13" "$5" 30 (JInt 0);
                   Site.month_item "2023-10-13" "$0" 30 (JInt 0);
                   Site.month_item "2023-11-14" "" 32 (JInt 0) ]) ].

Definition settling : portal :=
  Site.reachable ∅ (Ok "months") (Site.single_page "days")
                 (Site.single_page "hours").

Definition settling_reads : list CostRead :=
  Eval vm_compute in
    match get_cost_reads (Sample.lib settling_bodies) settling MONTH 1 with
    | Ok reads => reads
    | Err _ => []
    end.

(** A billing period of no elapsed days. *)
Definition empty_period_bodies : list (string * json) :=
  [ ("months", Site.month_payload
                 [ Site.month_item "2023-11-14" "$143" 0 (JFloat 1124) ]) ].

Definition empty_period : portal :=
  Site.reachable ∅ (Ok "months") (Site.single_page "days")
                 (Site.single_page "hours").

(** Four bills: an amount, a zero amount, an empty amount and no amount
    field. *)
Definition bills_bodies : list (string * json) :=
  [ ("months", Site.month_payload
       [ Site.month_item "2023-08-14" "$143" 30 (JFloat 1124);
         Site.month_item "2023-09-13" "$0" 30 (JFloat 980);
         Site.month_item "2023-10-13" "" 30 (JFloat 1011);
         JObj [ ("usagePeriodEndDate", JStr "2023-11-14");
                ("elapsedDays", JInt 32); ("kwhUsageQuantity", JFloat 1050) ] ]) ].

Definition bills : portal :=
  Site.reachable ∅ (Ok "months") (Site.single_page "days")
                 (Site.single_page "hours").

(** Two months of days and two days of hours, where PREVIOUS is
    covered by an overlay once the older page is shown. *)
Definition covered_bodies : list (string * json) :=
  [ ("november", Site.day_payload [ Site.day_item "2023-11-21" "$4" "30.5";
                                    Site.day_item "2023-11-22" "$5" "37.85" ]);
    ("october", Site.day_payload [ Site.day_item "2023-10-24" "$5" "36.1" ]);
    ("today", Site.hour_payload [ Site.hour_item "2023-11-22" "01:00" "1.682" ]);
    ("yesterday", Site.hour_payload [ Site.hour_item "2023-11-21" "01:00" "1.5" ]) ].

(** The entries of a page of days. *)
Definition days_of (body : string) : list usage_entry :=
  match loads (Sample.lib covered_bodies) body
        ≫= day_entries (Sample.lib covered_bodies) with
  | Ok es => es
  | Err _ => []
  end.

Definition november : list usage_entry := Eval vm_compute in days_of "november".
Definition october : list usage_entry := Eval vm_compute in days_of "october".

Definition covered_after_one : portal :=
  Site.reachable ∅ (Err TimeoutException)
    {| opened := Ok "november"; previous := fun _ => PrevIntercepted |}
    {| opened := Ok "today"; previous := fun _ => PrevTimeout |}.

Definition covered_after_two : portal :=
  Site.reachable ∅ (Err TimeoutException)
    {| opened := Ok "november";
       previous := fun k => match k with
                            | O => PrevLoaded "october"
                            | _ => PrevIntercepted
                            end |}
    {| opened := Ok "today";
       previous := fun k => match k with
                            | O => PrevLoaded "yesterday"
                            | _ => PrevTimeout
                            end |}.

(** A household whose account number has a space in it. *)
Definition household_bodies : list (string * json) :=
  [ ("me", JObj [("id", JInt 7)]);
    ("accounts",
     JObj [("getAccountListResponseBody",
            JObj [("accountList",
                   JObj [("webAccount",
                          JArr [JObj [("accountNumber", JStr "12345678-001 5")]])])])]);
    ("meter",
     JObj [("getMeterTypeResponseBody",
            JObj [("startDateForAMIAcctView", JStr "2023-11-14");
                  ("endDateForAMIAcctView", JStr "2023-11-22");
                  ("projectedCost", JStr "170");
                  ("projectedCostHigh", JStr "195");
                  ("projectedCostLow", JStr "144")])]);
    ("days", Site.day_payload [ Site.day_item "2023-11-21" "$4" "30.5";
                                Site.day_item "2023-11-22" "$5" "37.85" ]);
    ("hours", Site.hour_payload []) ].

Definition household : portal :=
  {| browser_started := true; sign_in_reached := true;
     login_frame_found := true; login_form_found := true;
     my_account_reached := true;
     login_captures := {[ URL_ME := "me"; URL_ACCOUNT_LIST := "accounts" ]};
     energy_usage_reached := Ok tt;
     energy_usage_captures := {[ URL_METER_TYPE := "meter" ]};
     monthly := Err TimeoutException;
     daily := Site.single_page "days";
     hourly := Site.single_page "hours" |}.

(** The same portal when the page did not call the identity endpoint. *)
Definition no_identity : portal :=
  Site.reachable {[ URL_ACCOUNT_LIST := "accounts" ]} (Err TimeoutException)
                 (Site.single_page "days") (Site.single_page "hours").

(** 2023-11-22 as [date.today()]. *)
Definition today : Z := ymd2ord 2023 11 22.

Definition DOMAIN : string := "rocky_mountain_power".


(** A recorder whose two series of the household hold one row, of
    2023-11-22T00:00:00. *)
Definition nov_22 : Q := utc_timestamp (mk_datetime (ymd2ord 2023 11 22) 0).

Definition household_store : recorder :=
  {| last_statistics := fun _ => [ {| row_start := nov_22; row_sum := 900 |} ];
     statistics_during_period := fun _ =>
       {[ cost_statistic_id_of DOMAIN "12345678-001_5" :=
            [ {| row_start := nov_22; row_sum := 120 |} ];
          consumption_statistic_id_of DOMAIN "12345678-001_5" :=
            [ {| row_start := nov_22; row_sum := 900 |} ] ]} |}.

(** The API object of the household after [login]. *)
Definition logged_in : api_state :=
  Eval vm_compute in fst (login (Sample.lib household_bodies) household new_api).



(** The household when the energy usage link leads to a page with
    another title. *)
Definition wrong_title : portal :=
  {| browser_started := true; sign_in_reached := true;
     login_frame_found := true; login_form_found := true;
     my_account_reached := true;
     login_captures := {[ URL_ME := "me"; URL_ACCOUNT_LIST := "accounts" ]};
     energy_usage_reached := Err CannotConnect;
     energy_usage_captures := ∅;
     monthly := Err CannotConnect;
     daily := {| opened := Err CannotConnect; previous := fun _ => PrevTimeout |};
     hourly := {| opened := Err CannotConnect; previous := fun _ => PrevTimeout |} |}.

(** The household when the site rejects the password: the title never
    becomes "My account". *)
Definition rejected : portal :=
  {| browser_started := true; sign_in_reached := true;
     login_frame_found := true; login_form_found := true;
     my_account_reached := false;
     login_captures := ∅;
     energy_usage_reached := Err CannotConnect;
     energy_usage_captures := ∅;
     monthly := Err CannotConnect;
     daily := {| opened := Err CannotConnect; previous := fun _ => PrevTimeout |};
     hourly := {| opened := Err CannotConnect; previous := fun _ => PrevTimeout |} |}.

(** A performance log: a page load, two JSON responses for the day
    view (the body of the first can no longer be fetched), an image and a
    request that is not a response. *)
Definition day_url : string :=
  "https://csapps.rockymountainpower.net/api/energy-usage/getUsageForDateRange".

Definition performance_log : list response_log :=
  [ {| log_method := "Page.loadEventFired"; log_mimeType := "";
       log_url := ""; log_requestId := "" |};
    {| log_method := "Network.responseReceived";
       log_mimeType := "application/json; charset=utf-8";
       log_url := day_url; log_requestId := "41.1" |};
    {| log_method := "Network.responseReceived";
       log_mimeType := "application/json";
       log_url := day_url; log_requestId := "41.7" |};
    {| log_method := "Network.responseReceived"; log_mimeType := "image/png";
       log_url := "https://csapps.rockymountainpower.net/logo.png";
       log_requestId := "41.8" |};
    {| log_method := "Network.requestWillBeSent";
       log_mimeType := "application/json";
       log_url := day_url; log_requestId := "41.9" |} ].

Definition bodies_by_request (request_id : string) : option string :=
  if String.eqb request_id "41.7" then Some "october"
  else if String.eqb request_id "41.8" then Some "png"
  else None.

(** A session that already holds the identity response. *)
Definition session_with_identity : utility_state :=
  {| u_user_id := JInt 7; u_account := JObj []; u_forecast := JObj [];
     u_xhrs := {[ URL_ME := "me" ]} |}.

(** Answers without line items, and answers whose line items are one
    object instead of a list. *)
Definition odd_bodies : list (string * json) :=
  [ ("nothing", JObj [("operationResult", JObj [("returnStatus", JInt 1)])]);
    ("one-month",
     JObj [("getUsageHistoryAndGraphDataV1ResponseBody",
            JObj [("usageHistory",
                   JObj [("usageHistoryLineItem",
                          Site.month_item "2023-11-14" "$143" 30 (JFloat 1124))])])]);
    ("number-amount",
     Site.month_payload
       [JObj [("usagePeriodEndDate", JStr "2023-11-14"); ("elapsedDays", JInt 30);
              ("invoiceAmount", JInt 143)]]);
    ("no-quantity",
     Site.month_payload
       [JObj [("usagePeriodEndDate", JStr "2023-11-14"); ("elapsedDays", JInt 30);
              ("invoiceAmount", JStr "$143")]]) ].

Definition answers (body : string) : portal :=
  Site.reachable ∅ (Ok body) (Site.single_page body) (Site.single_page body).

(** Two months of days: the older page loads and PREVIOUS is gone from
    it; and the same where the older page cannot be decoded. *)
Definition two_months : portal :=
  Site.reachable ∅ (Err TimeoutException)
    {| opened := Ok "november";
       previous := fun k => match k with
                            | O => PrevLoaded "october"
                            | _ => PrevMissing
                            end |}
    (Site.single_page "today").

Definition broken_second_page : portal :=
  Site.reachable ∅ (Err TimeoutException)
    {| opened := Ok "november"; previous := fun _ => PrevLoaded "garbled" |}
    (Site.single_page "today").

(** A recorder that has rows for the household but answers the period
    query with nothing. *)
Definition silent_store : recorder :=
  {| last_statistics := fun _ => [ {| row_start := nov_22; row_sum := 900 |} ];
     statistics_during_period := fun _ => ∅ |}.





(** Two pages of days that each end in a day without usage or cost,
    for the portal [two_months]. *)
Definition unsettled_bodies : list (string * json) :=
  [ ("november", Site.day_payload [ Site.day_item "2023-11-21" "$4" "30.5";
                                    Site.day_item "2023-11-22" "$0" "0" ]);
    ("october", Site.day_payload [ Site.day_item "2023-10-24" "$5" "36.1";
                                   Site.day_item "2023-10-25" "$0" "0" ]);
    ("today", Site.hour_payload []) ].

Definition unsettled_november : list usage_entry :=
  Eval vm_compute in
    match loads (Sample.lib unsettled_bodies) "november"
          ≫= day_entries (Sample.lib unsettled_bodies) with
    | Ok es => es
    | Err _ => []
    end.

Definition unsettled_october : list usage_entry :=
  Eval vm_compute in
    match loads (Sample.lib unsettled_bodies) "october"
          ≫= day_entries (Sample.lib unsettled_bodies) with
    | Ok es => es
    | Err _ => []
    end.

(** A recorder that holds the rows of [series], oldest first: it
    answers [get_last_statistics] with the last row of a series, and
    [statistics_during_period] with the rows that start at the given
    time or later, a series without such a row being left out of the
    reply. *)
Definition rows_from (t : Q) (rows : list StatisticsRow) : list StatisticsRow :=
  List.filter (fun r => Qle_bool t (row_start r)) rows.

Definition rows_of (series : list (string * list StatisticsRow)) (id : string)
  : list StatisticsRow :=
  match List.find (fun kv => String.eqb (fst kv) id) series with
  | Some kv => snd kv
  | None => []
  end.

Definition holding (series : list (string * list StatisticsRow)) : recorder :=
  {| last_statistics := fun id =>
       match pop (rows_of series id) with
       | Some (_, row) => [row]
       | None => []
       end;
     statistics_during_period := fun t =>
       list_to_map
         (List.filter (fun kv => match snd kv with [] => false | _ => true end)
            (map (fun kv => (fst kv, rows_from (utc_timestamp t) (snd kv)))
                 series)) |}.

(** The rows of a series once [points] are stored after them. *)
Definition persist (rows : list StatisticsRow) (points : list StatisticData)
  : list StatisticsRow :=
  (rows ++ map (fun p => {| row_start := utc_timestamp (start p);
                            row_sum := sum p |}) points)%list.

(** Midnight of a day of November 2023 as a timestamp. *)
Definition nov (day : Z) : Q := utc_timestamp (mk_datetime (ymd2ord 2023 11 day) 0).

Definition household_cost_id : string :=
  cost_statistic_id_of DOMAIN "12345678-001_5".

Definition household_consumption_id : string :=
  consumption_statistic_id_of DOMAIN "12345678-001_5".

Definition household_series (cost_rows consumption_rows : list StatisticsRow)
  : list (string * list StatisticsRow) :=
  [ (household_cost_id, cost_rows); (household_consumption_id, consumption_rows) ].

(** The two series of the household with rows of the 19th and the
    20th. *)
Definition cost_rows_before : list StatisticsRow :=
  [ {| row_start := nov 19; row_sum := 100 |};
    {| row_start := nov 20; row_sum := 104 |} ].

Definition consumption_rows_before : list StatisticsRow :=
  [ {| row_start := nov 19; row_sum := 200 |};
    {| row_start := nov 20; row_sum := 461 # 2 |} ].

Definition before_cycle : recorder :=
  holding (household_series cost_rows_before consumption_rows_before).

(** The points that a cycle of the household sends to the store. *)
Definition cycle_points (store : recorder)
  : list StatisticData * list StatisticData :=
  match _insert_statistics (Sample.lib household_bodies) DOMAIN "kWh"
                           utc_timestamp household store logged_in with
  | Ok [ (_, cost_statistics); (_, consumption_statistics) ] =>
      (cost_statistics, consumption_statistics)
  | _ => ([], [])
  end.

(** The recorder once the points of a cycle over [before_cycle] are
    stored. *)
Definition after_cycle : recorder :=
  holding (household_series
             (persist cost_rows_before (fst (cycle_points before_cycle)))
             (persist consumption_rows_before (snd (cycle_points before_cycle)))).

(** A recorder whose only rows are of the 22nd. *)
Definition only_the_22nd : recorder :=
  holding (household_series [ {| row_start := nov 22; row_sum := 120 |} ]
                            [ {| row_start := nov 22; row_sum := 900 |} ]).

(** The household a day later: one day, which ends on 2023-11-23. *)
Definition later_bodies : list (string * json) :=
  [ ("days", Site.day_payload [ Site.day_item "2023-11-23" "$6" "31" ]);
    ("hours", Site.hour_payload []) ].

End Cases.

(** Points whose sums are cumulative from [prior]: each sum is the sum
    before it plus the state of the point. *)
Fixpoint cumulative (prior : Q) (points : list StatisticData) : Prop :=
  match points with
  | [] => True
  | p :: rest => sum p = (prior + state p)%Q /\ cumulative (sum p) rest
  end.

(** The running sum after [reads], each added in turn. *)
Definition sum_after (value : CostRead -> Q) (running : Q)
    (reads : list CostRead) : Q :=
  fold_left (fun s r => (s + value r)%Q) reads running.

(** The metadata that [_insert_statistics] sends with the cost series
    and with the consumption series of an account. *)
Definition cost_metadata_of (DOMAIN account_id : string) : StatisticMetaData :=
  {| has_mean := false; has_sum := true;
     name := Str.join " " ["Rocky Mountain Power"; "elec"; account_id] +:+ " cost";
     source := DOMAIN;
     statistic_id := cost_statistic_id_of DOMAIN account_id;
     unit_of_measurement := None |}.

Definition consumption_metadata_of (DOMAIN KILO_WATT_HOUR account_id : string)
  : StatisticMetaData :=
  {| has_mean := false; has_sum := true;
     name := Str.join " " ["Rocky Mountain Power"; "elec"; account_id]
             +:+ " consumption";
     source := DOMAIN;
     statistic_id := consumption_statistic_id_of DOMAIN account_id;
     unit_of_measurement := Some KILO_WATT_HOUR |}.

(** A message of the log that puts a body under [url]: a JSON response
    for [url] whose body can be fetched. *)
Definition captures (response_body : string -> option string) (url : string)
    (log : response_log) : bool :=
  log_filter log && String.eqb (log_url log) url
  && match response_body (log_requestId log) with
     | Some _ => true
     | None => false
     end.

(** A value that is not a list of line items: neither a list nor
    something empty to iterate over. *)
Definition not_a_list (c : json) : bool :=
  match c with
  | JArr _ => false
  | JObj [] => false
  | JStr EmptyString => false
  | _ => true
  end.

(** A value that is not a string. *)
Definition not_a_string (v : json) : bool :=
  match v with
  | JStr _ => false
  | _ => true
  end.

(** An entry of a fetch without usage and without a cost. *)
Definition zero_usage_entry (e : usage_entry) : Prop :=
  (usage e == 0)%Q /\
  match amount e with
  | Some q => (q == 0)%Q
  | None => True
  end.

(** The read made of an entry: the same times, the usage as
    consumption and the amount as cost, no amount and an amount of zero
    both being a cost of 0. *)
Definition read_of_entry (e : usage_entry) (r : CostRead) : Prop :=
  start_time r = startTime e /\
  end_time r = endTime e /\
  consumption r = usage e /\
  match amount e with
  | Some q => ((q == 0)%Q -> provided_cost r = 0%Q) /\
              (~ (q == 0)%Q -> provided_cost r = q)
  | None => provided_cost r = 0%Q
  end.

(** [key] is [number] with each space turned into an underscore. *)
Definition spaces_replaced (number key : string) : Prop :=
  forall i,
    String.get i key
    = match String.get i number with
      | Some c => Some (if Ascii.eqb c " " then "_"%char else c)
      | None => None
      end.

(** A list of entries that is empty or ends in an entry with usage or
    a cost. *)
Definition ends_with_usage (kept : list usage_entry) : Prop :=
  kept = [] \/
  exists init e, kept = (init ++ [e])%list /\ ~ zero_usage_entry e.

(** * Properties *)

(** ** Trailing zero entries *)

Lemma pop_snoc {A : Type} (l : list A) (x : A) : pop (l ++ [x]) = Some (l, x).
Proof.
  induction l as [|y l IH]; simpl; [reflexivity|].
  rewrite IH. reflexivity.
Qed.

Lemma pop_Some {A : Type} (l init : list A) (x : A) :
  pop l = Some (init, x) -> l = (init ++ [x])%list.
Proof.
  revert init x. induction l as [|y l IH]; intros init x; simpl; [discriminate|].
  destruct (pop l) as [[i z]|] eqn:E.
  - intros [= <- <-]. simpl. f_equal. apply IH. reflexivity.
  - intros [= <- <-]. destruct l as [|w l]; [reflexivity|].
    simpl in E. destruct (pop l) as [[? ?]|]; discriminate.
Qed.

Lemma remove_last_zero_entries_nil : remove_last_zero_entries [] = [].
Proof. reflexivity. Qed.

Lemma remove_last_zero_entries_snoc (l : list CostRead) (x : CostRead) :
  remove_last_zero_entries (l ++ [x]) =
  if has_value x then (l ++ [x])%list else remove_last_zero_entries l.
Proof.
  funelim (remove_last_zero_entries (l ++ [x]));
    match goal with E : pop _ = _ |- _ =>
      pose proof E as E'; rewrite pop_snoc in E' end.
  - injection E' as <- <-. reflexivity.
  - discriminate.
Qed.

Lemma has_value_false (r : CostRead) : has_value r = false <-> zero_entry r.
Proof.
  unfold has_value, zero_entry.
  rewrite orb_false_iff, !negb_false_iff, !Qeq_bool_iff. reflexivity.
Qed.

Lemma has_value_true (r : CostRead) : has_value r = true <-> ~ zero_entry r.
Proof.
  rewrite <- has_value_false. destruct (has_value r); split; congruence.
Qed.

(** What the trimming loop keeps: a prefix that is empty or ends in a
    read with a value, the rest being zero entries. *)
Lemma remove_last_zero_entries_split (l : list CostRead) :
  exists zeros,
    l = (remove_last_zero_entries l ++ zeros)%list /\
    Forall zero_entry zeros /\
    ends_with_value (remove_last_zero_entries l).
Proof.
  unfold ends_with_value.
  induction l as [|x l IH] using rev_ind.
  - exists []. rewrite remove_last_zero_entries_nil. auto.
  - rewrite remove_last_zero_entries_snoc.
    destruct (has_value x) eqn:E.
    + exists []. rewrite app_nil_r. split; [reflexivity|]. split; [constructor|].
      right. exists l, x. split; [reflexivity|]. apply has_value_true, E.
    + destruct IH as (zeros & Hl & Hz & Hk).
      exists (zeros ++ [x])%list. split; [|split].
      * rewrite app_assoc, <- Hl. reflexivity.
      * apply Forall_app. split; [exact Hz|].
        constructor; [apply has_value_false, E | constructor].
      * exact Hk.
Qed.

(** The split is the only one: no other prefix of the list is followed
    by zero entries only and is empty or ends in a read with a value. *)
Lemma trailing_split_unique (kept kept' zeros zeros' : list CostRead) :
  (kept ++ zeros = kept' ++ zeros')%list ->
  Forall zero_entry zeros -> Forall zero_entry zeros' ->
  ends_with_value kept -> ends_with_value kept' ->
  kept = kept'.
Proof.
  unfold ends_with_value.
  revert kept' zeros'.
  induction zeros as [|z zeros IH] using rev_ind; intros kept' zeros' E Hz Hz' Hk Hk'.
  - rewrite app_nil_r in E. subst kept.
    destruct zeros' as [|z' zeros' _] using rev_ind; [rewrite app_nil_r; reflexivity|].
    exfalso. apply Forall_app in Hz' as [_ Hz']. inversion Hz'; subst.
    destruct Hk as [Hk | (init & item & Hk & Hv)].
    + apply app_eq_nil in Hk as [_ Hk]. apply app_eq_nil in Hk as [_ Hk].
      discriminate.
    + rewrite app_assoc in Hk. apply app_inj_tail in Hk as [_ ->]. contradiction.
  - apply Forall_app in Hz as [Hz Hz1]. inversion Hz1; subst.
    destruct zeros' as [|z' zeros' _] using rev_ind.
    + exfalso. rewrite app_nil_r in E. subst kept'.
      destruct Hk' as [Hk' | (init & item & Hk' & Hv)].
      * apply app_eq_nil in Hk' as [_ Hk']. apply app_eq_nil in Hk' as [_ Hk'].
        discriminate.
      * rewrite app_assoc in Hk'. apply app_inj_tail in Hk' as [_ ->]. contradiction.
    + rewrite !app_assoc in E. apply app_inj_tail in E as [E _].
      apply Forall_app in Hz' as [Hz' _].
      eapply IH; eassumption.
Qed.

(** ** The statistics walk *)

Section Walk.

Context (timestamp : datetime -> Q).

Lemma statistics_loop_points (last_stats_time : option Q) (reads : list CostRead) :
  forall cost_sum consumption_sum cost_statistics consumption_statistics,
    statistics_loop timestamp last_stats_time reads cost_sum consumption_sum
      cost_statistics consumption_statistics
    = ((cost_statistics
        ++ spec_running_points provided_cost cost_sum
             (not_stored timestamp last_stats_time reads))%list,
       (consumption_statistics
        ++ spec_running_points consumption consumption_sum
             (not_stored timestamp last_stats_time reads))%list).
Proof.
  unfold not_stored.
  induction reads as [|r rest IH]; intros c n cs ns; simpl.
  - rewrite !app_nil_r. reflexivity.
  - destruct (already_stored timestamp last_stats_time (start_time r)); simpl.
    + apply IH.
    + rewrite IH, <- !app_assoc. reflexivity.
Qed.

Lemma spec_running_points_start (value : CostRead -> Q) (reads : list CostRead) :
  forall running,
    map start (spec_running_points value running reads) = map start_time reads.
Proof.
  induction reads as [|r rest IH]; intros running; simpl; [reflexivity|].
  rewrite IH. reflexivity.
Qed.


Lemma spec_running_points_length (value : CostRead -> Q) (reads : list CostRead) :
  forall running, length (spec_running_points value running reads) = length reads.
Proof.
  induction reads as [|r rest IH]; intros running; simpl; [reflexivity|].
  rewrite IH. reflexivity.
Qed.

Lemma not_stored_In (T : Q) (reads : list CostRead) (r : CostRead) :
  In r (not_stored timestamp (Some T) reads) <->
  In r reads /\ (T < timestamp (start_time r))%Q.
Proof.
  unfold not_stored. rewrite filter_In. simpl.
  rewrite negb_true_iff, <- not_true_iff_false, Qle_bool_iff.
  split; intros [Hin H]; (split; [exact Hin|]).
  - apply Qnot_le_lt, H.
  - apply Qlt_not_le, H.
Qed.


Lemma not_stored_all_stored (T : Q) (reads : list CostRead) :
  Forall (fun r => (timestamp (start_time r) <= T)%Q) reads ->
  not_stored timestamp (Some T) reads = [].
Proof.
  unfold not_stored. induction 1 as [|r rest Hr _ IH]; simpl; [reflexivity|].
  apply Qle_bool_iff in Hr. rewrite Hr. simpl. exact IH.
Qed.

Lemma NoDup_map_filter {A B : Type} (f : A -> B) (p : A -> bool) (l : list A) :
  List.NoDup (map f l) -> List.NoDup (map f (List.filter p l)).
Proof.
  induction l as [|x l IH]; simpl; [auto|].
  intros H. apply List.NoDup_cons_iff in H as [Hx Hl].
  destruct (p x); simpl; [|auto].
  apply List.NoDup_cons_iff. split; [|auto].
  intros Hin. apply Hx. apply in_map_iff in Hin as (y & Hy & Hin).
  apply filter_In in Hin as [Hin _]. apply in_map_iff. eauto.
Qed.

End Walk.

(** The walk with a last timestamp [T] and prior sums [S_cost] and
    [S_consumption], whatever they are: the reads that emit are those
    that start strictly after [T], each emits one point per series in
    the order of the input, and the sums run from the prior ones. *)
Lemma statistics_loop_walk
    (timestamp : datetime -> Q) (S_cost S_consumption T : Q)
    (reads : list CostRead) :
  let included := not_stored timestamp (Some T) reads in
  let out := statistics_loop timestamp (Some T) reads S_cost S_consumption [] [] in
  (forall r, In r included <-> In r reads /\ (T < timestamp (start_time r))%Q) /\
  (forall r, In r reads -> (timestamp (start_time r) <= T)%Q -> ~ In r included) /\
  fst out = spec_running_points provided_cost S_cost included /\
  snd out = spec_running_points consumption S_consumption included /\
  Forall (fun p => (T < timestamp (start p))%Q) (fst out) /\
  Forall (fun p => (T < timestamp (start p))%Q) (snd out) /\
  (forall r rest, included = r :: rest ->
     head (fst out) = Some {| start := start_time r; state := provided_cost r;
                              sum := (S_cost + provided_cost r)%Q |} /\
     head (snd out) = Some {| start := start_time r; state := consumption r;
                              sum := (S_consumption + consumption r)%Q |}) /\
  map start (fst out) = map start_time included /\
  map start (snd out) = map start_time included /\
  (List.NoDup (map start_time reads) ->
   List.NoDup (map start (fst out)) /\ List.NoDup (map start (snd out))).
Proof.
  intros included out.
  assert (Hout : out = (spec_running_points provided_cost S_cost included,
                        spec_running_points consumption S_consumption included)).
  { unfold out. rewrite statistics_loop_points. reflexivity. }
  rewrite Hout. simpl.
  assert (Hafter : forall value running,
             Forall (fun p => (T < timestamp (start p))%Q)
                    (spec_running_points value running included)).
  { intros value running. apply List.Forall_forall. intros p Hp.
    apply (in_map start) in Hp. rewrite spec_running_points_start in Hp.
    apply in_map_iff in Hp as (r & <- & Hr).
    apply not_stored_In in Hr. apply Hr. }
  split. { intros r. apply not_stored_In. }
  split.
  { intros r Hin Hle Hinc. apply not_stored_In in Hinc as [_ Hlt].
    exact (Qlt_not_le _ _ Hlt Hle). }
  split; [reflexivity|]. split; [reflexivity|].
  split; [apply Hafter|]. split; [apply Hafter|].
  split. { intros r rest E. rewrite E. split; reflexivity. }
  rewrite !spec_running_points_start.
  split; [reflexivity|]. split; [reflexivity|].
  intros Hnd. split; apply NoDup_map_filter, Hnd.
Qed.

(** ** Results *)

Lemma bind_Ok {A B : Type} (r : result A) (k : A -> result B) (b : B) :
  r ≫= k = Ok b -> exists a, r = Ok a /\ k a = Ok b.
Proof. destruct r as [a|e]; simpl; [eauto | discriminate]. Qed.

Ltac bind_inv H :=
  repeat (let a := fresh "a" in
          let E := fresh "E" in
          apply bind_Ok in H as (a & E & H)).

Lemma map_result_In {A B : Type} (f : A -> result B) (xs : list A) :
  forall ys, map_result f xs = Ok ys ->
  forall y, In y ys -> exists x, In x xs /\ f x = Ok y.
Proof.
  induction xs as [|x xs IH]; intros ys H y Hy; simpl in H.
  - injection H as <-. destruct Hy.
  - bind_inv H. injection H as <-.
    destruct Hy as [<- | Hy].
    + exists x. split; [left; reflexivity | assumption].
    + destruct (IH _ E0 y Hy) as (x' & Hin & Hf).
      exists x'. split; [right; assumption | assumption].
Qed.

(** ** Intervals *)

Lemma sub_total_seconds (dt dt' : datetime) (delta : Z) :
  sub dt delta = Ok dt' -> total_seconds dt' = total_seconds dt - delta.
Proof.
  unfold sub.
  destruct ((0 <? (total_seconds dt - delta) / 86400)
            && ((total_seconds dt - delta) / 86400 <=? MAXORDINAL));
    [|discriminate].
  intros [= <-]. unfold total_seconds at 1. simpl.
  pose proof (Z.div_mod (total_seconds dt - delta) 86400). lia.
Qed.

Lemma sub_ltb (dt dt' : datetime) (delta : Z) :
  sub dt delta = Ok dt' -> (ltb dt' dt = true <-> 0 < delta).
Proof.
  intros H. apply sub_total_seconds in H. unfold ltb.
  rewrite Z.ltb_lt. lia.
Qed.

Lemma timedelta_days (n delta : Z) :
  timedelta n 0 = Ok delta -> delta = n * 86400.
Proof.
  unfold timedelta.
  destruct ((-999999999 * 86400 <=? n * 86400 + 0 * 3600)
            && (n * 86400 + 0 * 3600 <? 1000000000 * 86400)); [|discriminate].
  intros [= <-]. lia.
Qed.

Section Entries.

Context (lib : pylib).

(** What a monthly entry is made of. *)
Lemma month_entry_Ok (d : json) (e : usage_entry) :
  month_entry lib d = Ok e ->
  exists n,
    getitem d "elapsedDays" ≫= py_int lib = Ok n /\
    sub (endTime e) (n * 86400) = Ok (startTime e) /\
    parse_amount lib d "invoiceAmount" = Ok (amount e).
Proof.
  unfold month_entry. intros H. bind_inv H. injection H as <-. simpl.
  exists a2. apply timedelta_days in E3. subst a3.
  rewrite E1. simpl. auto.
Qed.

(** What a daily entry is made of. *)
Lemma day_entry_Ok (d : json) (e : usage_entry) :
  day_entry lib d = Ok e ->
  sub (endTime e) 86400 = Ok (startTime e) /\
  parse_amount lib d "dollerAmount" = Ok (amount e).
Proof.
  unfold day_entry. intros H. bind_inv H. injection H as <-. simpl.
  injection E1 as <-. auto.
Qed.

(** What an hourly entry is made of. *)
Lemma hour_entry_Ok (d : json) (e : usage_entry) :
  hour_entry lib d = Ok e ->
  sub (endTime e) 3600 = Ok (startTime e) /\ amount e = None.
Proof.
  unfold hour_entry. intros H. bind_inv H. injection H as <-. simpl.
  injection E3 as <-. auto.
Qed.

Lemma entries_from (entry : json -> result usage_entry) (items : list json)
    (es : list usage_entry) :
  map_result entry items = Ok es ->
  Forall (fun e => exists d, entry d = Ok e) es.
Proof.
  intros H. apply List.Forall_forall. intros e He.
  destruct (map_result_In _ _ _ H e He) as (d & _ & Hd). eauto.
Qed.

(** The pages read by the loop only add entries made by [entries]. *)
Lemma page_loop_Forall (P : usage_entry -> Prop)
    (entries : json -> result (list usage_entry)) (prev : nat -> previous_outcome) :
  (forall details items, entries details = Ok items -> Forall P items) ->
  forall remaining k body usage es,
    Forall P usage ->
    page_loop lib entries prev remaining k body usage = Ok es ->
    Forall P es.
Proof.
  intros Hentries.
  induction remaining as [|togo IH]; intros k body usage es Hu H; simpl in H.
  - injection H as <-. exact Hu.
  - bind_inv H.
    assert (Hu' : Forall P (usage ++ a0)).
    { apply Forall_app. split; [exact Hu | eapply Hentries; eassumption]. }
    destruct togo as [|togo'].
    + injection H as <-. exact Hu'.
    + destruct (prev k); try discriminate.
      * injection H as <-. exact Hu'.
      * injection H as <-. exact Hu'.
      * eapply IH; eassumption.
Qed.

Lemma get_usage_by_month_entries (site : portal) (es : list usage_entry) :
  get_usage_by_month lib site = Ok es ->
  Forall (fun e => exists d, month_entry lib d = Ok e) es.
Proof.
  unfold get_usage_by_month, month_entries. intros H. bind_inv H.
  eapply entries_from, H.
Qed.

Lemma get_usage_by_day_entries (site : portal) (months : Z) (es : list usage_entry) :
  get_usage_by_day lib site months = Ok es ->
  Forall (fun e => exists d, day_entry lib d = Ok e) es.
Proof.
  unfold get_usage_by_day. intros H. bind_inv H.
  eapply page_loop_Forall; [|constructor|exact H].
  intros details items Hd. unfold day_entries in Hd. bind_inv Hd.
  eapply entries_from, Hd.
Qed.

Lemma get_usage_by_hour_entries (site : portal) (days : Z) (es : list usage_entry) :
  get_usage_by_hour lib site days = Ok es ->
  Forall (fun e => exists d, hour_entry lib d = Ok e) es.
Proof.
  unfold get_usage_by_hour. intros H. bind_inv H.
  eapply page_loop_Forall; [|constructor|exact H].
  intros details items Hd. unfold hour_entries in Hd. bind_inv Hd.
  eapply entries_from, Hd.
Qed.

End Entries.

(** C3.  The code at the end-of-day entry: read time "24:00" of
    2023-11-22 is rewritten to "00:00" and parsed with the same date, so
    the entry ends at 2023-11-22T00:00:00 and starts at
    2023-11-21T23:00:00, a day before the hour it stands for; its end is
    not 2023-11-23T00:00:00. *)
Theorem end_of_day_hour_keeps_its_date :
  exists e23 e24,
    get_usage_by_hour (Sample.lib Cases.end_of_day_bodies) Cases.end_of_day 1
      = Ok [e23; e24] /\
    hour_entry (Sample.lib Cases.end_of_day_bodies)
               (Site.hour_item "2023-11-22" "24:00" "0.5") = Ok e24 /\
    isoformat (endTime e23) = "2023-11-22T23:00:00" /\
    isoformat (endTime e24) = "2023-11-22T00:00:00" /\
    isoformat (startTime e24) = "2023-11-21T23:00:00" /\
    parse_iso "2023-11-23T00:00:00" <> Ok (endTime e24) /\
    ltb (endTime e24) (endTime e23) = true.
Proof.
  eexists _, _. split; [vm_compute; reflexivity|].
  split; [vm_compute; reflexivity|].
  repeat split; try (vm_compute; reflexivity).
  vm_compute. discriminate.
Qed.

(** C4, as stated, fails: a monthly line item whose [elapsedDays] is 0
    gives a record that starts when it ends. *)
Lemma empty_period_has_no_length :
  exists e,
    get_usage_by_month (Sample.lib Cases.empty_period_bodies) Cases.empty_period
      = Ok [e] /\
    startTime e = endTime e /\
    ltb (startTime e) (endTime e) = false /\
    get_cost_reads (Sample.lib Cases.empty_period_bodies) Cases.empty_period MONTH 1
      = Ok [cost_read_of e].
Proof.
  eexists. split; [vm_compute; reflexivity|].
  repeat split; vm_compute; reflexivity.
Qed.

(** C4, as amended.  Every record returned at day resolution starts one
    day before its end and every record returned at hour resolution one
    hour before its end, so their end is after their start.  A record
    returned at month resolution starts [elapsedDays] days before its
    end: its end is after its start exactly when [elapsedDays] is
    positive. *)
Theorem normalized_intervals (lib : pylib) (site : portal) (period : Z)
    (es : list usage_entry) :
  (_get_dated_data lib site DAY period = Ok es ->
   Forall (fun e => sub (endTime e) 86400 = Ok (startTime e) /\
                    ltb (startTime e) (endTime e) = true) es) /\
  (_get_dated_data lib site HOUR period = Ok es ->
   Forall (fun e => sub (endTime e) 3600 = Ok (startTime e) /\
                    ltb (startTime e) (endTime e) = true) es) /\
  (_get_dated_data lib site MONTH period = Ok es ->
   Forall (fun e => exists d n,
               month_entry lib d = Ok e /\
               getitem d "elapsedDays" ≫= py_int lib = Ok n /\
               sub (endTime e) (n * 86400) = Ok (startTime e) /\
               (ltb (startTime e) (endTime e) = true <-> 0 < n)) es).
Proof.
  simpl. split; [|split]; intros H.
  - apply get_usage_by_day_entries in H.
    eapply List.Forall_impl; [|exact H]. intros e (d & Hd).
    apply day_entry_Ok in Hd as [Hs _]. split; [exact Hs|].
    apply (sub_ltb _ _ _ Hs). lia.
  - apply get_usage_by_hour_entries in H.
    eapply List.Forall_impl; [|exact H]. intros e (d & Hd).
    apply hour_entry_Ok in Hd as [Hs _]. split; [exact Hs|].
    apply (sub_ltb _ _ _ Hs). lia.
  - apply get_usage_by_month_entries in H.
    eapply List.Forall_impl; [|exact H]. intros e (d & Hd).
    destruct (month_entry_Ok _ _ _ Hd) as (n & Hn & Hs & _).
    exists d, n. split; [exact Hd|]. split; [exact Hn|]. split; [exact Hs|].
    rewrite (sub_ltb _ _ _ Hs). lia.
Qed.

(** The amended statement at the two hours of [Cases.end_of_day]. *)
Lemma normalized_intervals_witness :
  exists es,
    _get_dated_data (Sample.lib Cases.end_of_day_bodies) Cases.end_of_day HOUR 1
      = Ok es /\
    length es = 2%nat /\
    Forall (fun e => sub (endTime e) 3600 = Ok (startTime e) /\
                     ltb (startTime e) (endTime e) = true) es.
Proof.
  eexists. split; [vm_compute; reflexivity|]. split; [reflexivity|].
  apply (normalized_intervals (Sample.lib Cases.end_of_day_bodies)
           Cases.end_of_day 1).
  vm_compute. reflexivity.
Defined.

(** ** Provided cost *)

Lemma parse_amount_rule (lib : pylib) (d : json) (key : string) (e : usage_entry) :
  parse_amount lib d key = Ok (amount e) -> cost_rule lib d key (cost_read_of e).
Proof.
  unfold parse_amount, cost_rule. intros H. bind_inv H.
  destruct a as [| | | |s| |]; try discriminate.
  exists s. split; [exact E|]. simpl.
  destruct (locale_atof lib (Str.strip "$" s)) as [q|] eqn:Eq.
  - destruct (Qeq_bool q 0) eqn:Ez; injection H as <-; simpl.
    + split; [discriminate|]. split; [reflexivity|]. split.
      * intros q' [= <-] Hq. apply Qeq_bool_iff in Ez. contradiction.
      * intros fields -> Hk. simpl in E. rewrite Hk in E.
        injection E as <-. change (Str.strip "$" "") with "" in Eq. congruence.
    + rewrite Ez. split; [discriminate|]. split.
      * intros q' [= <-] Hq. apply Qeq_bool_iff in Hq. congruence.
      * split; [intros q' [= <-] _; reflexivity|].
        intros fields -> Hk. simpl in E. rewrite Hk in E.
        injection E as <-. change (Str.strip "$" "") with "" in Eq. congruence.
  - injection H as <-. simpl. split; [reflexivity|].
    split; [discriminate|]. split; [discriminate|]. reflexivity.
Qed.

Lemma remove_last_zero_entries_Forall (P : CostRead -> Prop) (l : list CostRead) :
  Forall P l -> Forall P (remove_last_zero_entries l).
Proof.
  intros H. destruct (remove_last_zero_entries_split l) as (zeros & E & _).
  rewrite E in H. apply Forall_app in H. apply H.
Qed.

(** C10.  Every read that [get_cost_reads] returns is [cost_read_of] an
    entry of the fetch, and its cost is a number: at month and day
    resolution, 0 when the currency field is missing, is text that
    [locale.atof] rejects or is an amount of zero (so "$0" and no cost
    give the same read), and the amount otherwise; at hour resolution the
    entry has no amount and the cost is 0. *)
Theorem provided_cost_is_a_number (lib : pylib) (site : portal)
    (aggregate_type : AggregateType) (period : Z) (reads : list CostRead) :
  get_cost_reads lib site aggregate_type period = Ok reads ->
  Forall (fun r =>
            exists e,
              r = cost_read_of e /\
              provided_cost r = amount_or_zero (amount e) /\
              match aggregate_type with
              | MONTH => exists d, month_entry lib d = Ok e /\
                                   cost_rule lib d "invoiceAmount" r
              | DAY => exists d, day_entry lib d = Ok e /\
                                 cost_rule lib d "dollerAmount" r
              | HOUR => amount e = None /\ provided_cost r = 0%Q
              end) reads.
Proof.
  unfold get_cost_reads. intros H. bind_inv H. injection H as <-.
  apply remove_last_zero_entries_Forall.
  apply Forall_map.
  destruct aggregate_type; simpl in E.
  - apply get_usage_by_month_entries in E.
    eapply List.Forall_impl; [|exact E]. intros e (d & Hd).
    exists e. split; [reflexivity|]. split; [reflexivity|].
    exists d. split; [exact Hd|].
    apply month_entry_Ok in Hd as (n & _ & _ & Ha).
    apply parse_amount_rule, Ha.
  - apply get_usage_by_day_entries in E.
    eapply List.Forall_impl; [|exact E]. intros e (d & Hd).
    exists e. split; [reflexivity|]. split; [reflexivity|].
    exists d. split; [exact Hd|].
    apply day_entry_Ok in Hd as (_ & Ha).
    apply parse_amount_rule, Ha.
  - apply get_usage_by_hour_entries in E.
    eapply List.Forall_impl; [|exact E]. intros e (d & Hd).
    exists e. split; [reflexivity|]. split; [reflexivity|].
    apply hour_entry_Ok in Hd as (_ & Ha).
    split; [exact Ha|]. simpl. rewrite Ha. reflexivity.
Qed.

(** The statement at the four bills of [Cases.bills]. *)
Lemma provided_cost_witness :
  exists reads,
    get_cost_reads (Sample.lib Cases.bills_bodies) Cases.bills MONTH 1 = Ok reads /\
    map provided_cost reads = [143%Q; 0%Q; 0%Q; 0%Q] /\
    Forall (fun r => exists e,
                r = cost_read_of e /\
                provided_cost r = amount_or_zero (amount e) /\
                exists d, month_entry (Sample.lib Cases.bills_bodies) d = Ok e /\
                          cost_rule (Sample.lib Cases.bills_bodies) d
                                    "invoiceAmount" r) reads.
Proof.
  eexists. split; [vm_compute; reflexivity|]. split; [reflexivity|].
  apply (provided_cost_is_a_number (Sample.lib Cases.bills_bodies)
           Cases.bills MONTH 1).
  vm_compute. reflexivity.
Defined.

(** ** Pagination *)

(** The loop after the pages that load: [extra] is what is left of the
    counter once the last of them is read. *)
Lemma page_loop_after_pages (lib : pylib)
    (entries : json -> result (list usage_entry)) (prev : nat -> previous_outcome)
    (extra : nat) (more : list (list usage_entry)) :
  forall first k body usage,
    pages_follow lib entries prev k body first more ->
    page_loop lib entries prev (length more + S extra) k body usage
    = let read := (usage ++ first ++ concat more)%list in
      match extra with
      | O => Ok read
      | S _ =>
          match prev (k + length more)%nat with
          | PrevMissing => Err IndexError
          | PrevIntercepted => Ok read
          | PrevClickFailed => Err WebDriverException
          | PrevTimeout => Ok read
          | PrevLoaded body' =>
              page_loop lib entries prev extra (S (k + length more)) body' read
          end
      end.
Proof.
  induction more as [|next more' IH]; intros first k body usage [Hfirst Hmore].
  - apply bind_Ok in Hfirst as (details & Hload & Hfirst).
    cbn [length Nat.add concat page_loop]. rewrite Hload.
    cbn [mbind result_bind]. rewrite Hfirst. cbn [mbind result_bind].
    rewrite Nat.add_0_r, app_nil_r. reflexivity.
  - destruct Hmore as (body' & Hprev & Hnext).
    apply bind_Ok in Hfirst as (details & Hload & Hfirst).
    cbn [length Nat.add concat].
    change (page_loop lib entries prev (S (length more' + S extra)) k body usage)
      with (details' ← loads lib body;
            items ← entries details';
            match (length more' + S extra)%nat with
            | O => Ok (usage ++ items)%list
            | S _ =>
                match prev k with
                | PrevMissing => Err IndexError
                | PrevIntercepted => Ok (usage ++ items)%list
                | PrevClickFailed => Err WebDriverException
                | PrevTimeout => Ok (usage ++ items)%list
                | PrevLoaded b =>
                    page_loop lib entries prev (length more' + S extra) (S k) b
                              (usage ++ items)%list
                end
            end).
    rewrite Hload. cbn [mbind result_bind]. rewrite Hfirst.
    cbn [mbind result_bind]. rewrite Hprev.
    replace (length more' + S extra)%nat with (S (length more' + extra)) at 1 by lia.
    rewrite (IH next (S k) body' (usage ++ first)%list Hnext).
    cbn zeta. rewrite <- !app_assoc.
    replace (S k + length more')%nat with (k + S (length more'))%nat by lia.
    reflexivity.
Qed.

Lemma page_loop_stalls (lib : pylib) (entries : json -> result (list usage_entry))
    (prev : nat -> previous_outcome) (more : list (list usage_entry)) :
  forall first k body usage remaining,
    (S (length more) < remaining)%nat ->
    pages_follow lib entries prev k body first more ->
    stalls (prev (k + length more)%nat) ->
    page_loop lib entries prev remaining k body usage
    = Ok (usage ++ first ++ concat more)%list.
Proof.
  induction more as [|next more' IH];
    intros first k body usage remaining Hlen [Hfirst Hmore] Hstall;
    (destruct remaining as [|[|togo]]; [simpl in Hlen; lia ..|]).
  - simpl in *. apply bind_Ok in Hfirst as (details & -> & Hfirst). simpl.
    rewrite Hfirst. simpl. rewrite Nat.add_0_r in Hstall.
    rewrite app_nil_r. destruct Hstall as [-> | ->]; reflexivity.
  - destruct Hmore as (body' & Hprev & Hnext).
    cbn [page_loop]. apply bind_Ok in Hfirst as (details & -> & Hfirst).
    simpl. rewrite Hfirst. simpl. rewrite Hprev.
    transitivity (page_loop lib entries prev (S togo) (S k) body'
                            (usage ++ first)%list); [reflexivity|].
    rewrite (IH next (S k) body' (usage ++ first)%list (S togo)).
    + simpl. rewrite <- !app_assoc. reflexivity.
    + simpl in Hlen |- *. lia.
    + exact Hnext.
    + simpl in Hstall. rewrite Nat.add_succ_r in Hstall. exact Hstall.
Qed.

(** C8.  When more periods are asked for than the portal has pages: if
    the first page and the pages [more] load one after the other and the
    next use of PREVIOUS stalls (its click is intercepted, or no new
    capture arrives within the wait), [get_usage_by_day] and
    [get_usage_by_hour] return the entries of the pages read so far, in
    the order read, and raise nothing.  With 3 periods asked for and
    PREVIOUS intercepted after the first page, the entries of that one
    page are returned. *)
Theorem pagination_stops_without_raising (lib : pylib) (site : portal)
    (period : Z) (body : string) (first : list usage_entry)
    (more : list (list usage_entry)) :
  1 <= period ->
  Z.of_nat (S (length more)) < period ->
  (opened (daily site) = Ok body ->
   pages_follow lib (day_entries lib) (previous (daily site)) 0 body first more ->
   stalls (previous (daily site) (length more)) ->
   get_usage_by_day lib site period = Ok (first ++ concat more)%list) /\
  (opened (hourly site) = Ok body ->
   pages_follow lib (hour_entries lib) (previous (hourly site)) 0 body first more ->
   stalls (previous (hourly site) (length more)) ->
   get_usage_by_hour lib site period = Ok (first ++ concat more)%list) /\
  (opened (daily site) = Ok body ->
   loads lib body ≫= day_entries lib = Ok first ->
   previous (daily site) 0 = PrevIntercepted ->
   get_usage_by_day lib site 3 = Ok first) /\
  (opened (hourly site) = Ok body ->
   loads lib body ≫= hour_entries lib = Ok first ->
   previous (hourly site) 0 = PrevIntercepted ->
   get_usage_by_hour lib site 3 = Ok first).
Proof.
  intros Hpos Hlen.
  assert (Hnat : (S (length more) < Z.to_nat period)%nat) by lia.
  split; [|split; [|split]].
  - intros Ho Hp Hs. unfold get_usage_by_day. rewrite Ho. simpl.
    rewrite (page_loop_stalls lib _ _ more first 0%nat body [] _ Hnat Hp Hs).
    reflexivity.
  - intros Ho Hp Hs. unfold get_usage_by_hour. rewrite Ho. simpl.
    rewrite (page_loop_stalls lib _ _ more first 0%nat body [] _ Hnat Hp Hs).
    reflexivity.
  - intros Ho Hp Hs. unfold get_usage_by_day. rewrite Ho.
    change (page_loop lib (day_entries lib) (previous (daily site)) 3 0 body []
            = Ok first).
    rewrite (page_loop_stalls lib _ _ [] first 0%nat body [] 3%nat).
    + simpl. rewrite app_nil_r. reflexivity.
    + simpl. lia.
    + simpl. auto.
    + left. exact Hs.
  - intros Ho Hp Hs. unfold get_usage_by_hour. rewrite Ho.
    change (page_loop lib (hour_entries lib) (previous (hourly site)) 3 0 body []
            = Ok first).
    rewrite (page_loop_stalls lib _ _ [] first 0%nat body [] 3%nat).
    + simpl. rewrite app_nil_r. reflexivity.
    + simpl. lia.
    + simpl. auto.
    + left. exact Hs.
Qed.

(** The statement at [Cases.covered_after_two] (three months asked for,
    PREVIOUS intercepted on the second page: the days of two pages) and
    at [Cases.covered_after_one] (intercepted on the first page: the
    days of one page). *)
Lemma pagination_witness :
  length Cases.november = 2%nat /\ length Cases.october = 1%nat /\
  get_usage_by_day (Sample.lib Cases.covered_bodies) Cases.covered_after_two 3
    = Ok (Cases.november ++ concat [Cases.october])%list /\
  get_usage_by_day (Sample.lib Cases.covered_bodies) Cases.covered_after_one 3
    = Ok Cases.november.
Proof.
  split; [reflexivity|]. split; [reflexivity|]. split.
  - apply (pagination_stops_without_raising (Sample.lib Cases.covered_bodies)
             Cases.covered_after_two 3 "november" Cases.november [Cases.october]).
    + lia.
    + simpl. lia.
    + reflexivity.
    + split; [vm_compute; reflexivity|].
      exists "october". split; [reflexivity|].
      split; [vm_compute; reflexivity | exact I].
    + left. reflexivity.
  - apply (pagination_stops_without_raising (Sample.lib Cases.covered_bodies)
             Cases.covered_after_one 3 "november" Cases.november []).
    + lia.
    + simpl. lia.
    + reflexivity.
    + vm_compute. reflexivity.
    + reflexivity.
Defined.

(** ** Trailing zero entries of a fetch *)

Lemma zero_usage_entry_read (e : usage_entry) :
  zero_entry (cost_read_of e) <-> zero_usage_entry e.
Proof.
  unfold zero_entry, zero_usage_entry, cost_read_of, amount_or_zero. simpl.
  destruct (amount e) as [q|].
  - destruct (Qeq_bool q 0) eqn:Eq.
    + apply Qeq_bool_iff in Eq. split; intros [H1 H2]; split;
        [exact H2 | exact Eq | reflexivity | exact H1].
    + split; intros [H1 H2]; split; assumption.
  - split; intros [H1 H2]; split; [exact H2 | exact I | reflexivity | exact H1].
Qed.

Lemma read_of_entry_cost_read_of (e : usage_entry) :
  read_of_entry e (cost_read_of e).
Proof.
  unfold read_of_entry, cost_read_of, amount_or_zero. simpl.
  split; [reflexivity|]. split; [reflexivity|]. split; [reflexivity|].
  destruct (amount e) as [q|]; [|reflexivity].
  destruct (Qeq_bool q 0) eqn:Eq.
  - split; [reflexivity|]. intros H. apply Qeq_bool_iff in Eq. contradiction.
  - split; [|reflexivity]. intros H. apply Qeq_bool_iff in H. congruence.
Qed.

Lemma Forall2_read_of_entry (es : list usage_entry) :
  Forall2 read_of_entry es (map cost_read_of es).
Proof.
  induction es as [|e es IH]; simpl; constructor;
    [apply read_of_entry_cost_read_of | exact IH].
Qed.

(** The trimming loop on the reads of a list of entries, in terms of the
    entries. *)
Lemma remove_last_zero_entries_of_entries (entries : list usage_entry) :
  exists kept_entries dropped,
    entries = (kept_entries ++ dropped)%list /\
    remove_last_zero_entries (map cost_read_of entries)
    = map cost_read_of kept_entries /\
    Forall zero_usage_entry dropped /\
    ends_with_usage kept_entries.
Proof.
  unfold ends_with_usage.
  induction entries as [|e entries IH] using rev_ind.
  - exists [], []. simpl. rewrite remove_last_zero_entries_nil. auto.
  - rewrite map_app. cbn [map]. rewrite remove_last_zero_entries_snoc.
    destruct (has_value (cost_read_of e)) eqn:Ev.
    + exists (entries ++ [e])%list, []. rewrite app_nil_r, map_app.
      split; [reflexivity|]. split; [reflexivity|]. split; [constructor|].
      right. exists entries, e. split; [reflexivity|].
      rewrite <- zero_usage_entry_read. apply has_value_true, Ev.
    + destruct IH as (kept & dropped & Hsplit & Hkept & Hz & Hends).
      exists kept, (dropped ++ [e])%list. split; [|split; [|split]].
      * rewrite app_assoc, <- Hsplit. reflexivity.
      * exact Hkept.
      * apply Forall_app. split; [exact Hz|].
        constructor; [|constructor].
        apply zero_usage_entry_read, has_value_false, Ev.
      * exact Hends.
Qed.

Lemma ends_with_usage_reads (kept : list usage_entry) :
  ends_with_usage kept -> ends_with_value (map cost_read_of kept).
Proof.
  intros [-> | (init & e & -> & He)]; [left; reflexivity|].
  right. exists (map cost_read_of init), (cost_read_of e).
  rewrite map_app. split; [reflexivity|].
  rewrite zero_usage_entry_read. exact He.
Qed.

Lemma trailing_entries_unique (kept kept' dropped dropped' : list usage_entry) :
  (kept ++ dropped = kept' ++ dropped')%list ->
  Forall zero_usage_entry dropped -> Forall zero_usage_entry dropped' ->
  ends_with_usage kept -> ends_with_usage kept' ->
  kept = kept'.
Proof.
  intros E Hz Hz' Hk Hk'.
  assert (Hmap : map cost_read_of kept = map cost_read_of kept').
  { apply (trailing_split_unique _ _ (map cost_read_of dropped)
                                 (map cost_read_of dropped')).
    - rewrite <- !map_app, E. reflexivity.
    - apply List.Forall_forall. intros r Hr.
      apply in_map_iff in Hr as (e & <- & He).
      apply zero_usage_entry_read. revert e He. apply List.Forall_forall, Hz.
    - apply List.Forall_forall. intros r Hr.
      apply in_map_iff in Hr as (e & <- & He).
      apply zero_usage_entry_read. revert e He. apply List.Forall_forall, Hz'.
    - apply ends_with_usage_reads, Hk.
    - apply ends_with_usage_reads, Hk'. }
  apply (f_equal (@length CostRead)) in Hmap. rewrite !length_map in Hmap.
  apply (f_equal (firstn (length kept))) in E.
  rewrite firstn_app, firstn_all, Nat.sub_diag, firstn_O, app_nil_r in E.
  rewrite Hmap, firstn_app, firstn_all, Nat.sub_diag, firstn_O, app_nil_r in E.
  exact E.
Qed.

Lemma get_dated_data_pages (lib : pylib) (site : portal) (period : Z)
    (body : string) (first : list usage_entry) (more : list (list usage_entry)) :
  period = Z.of_nat (S (length more)) ->
  (opened (daily site) = Ok body ->
   pages_follow lib (day_entries lib) (previous (daily site)) 0 body first more ->
   _get_dated_data lib site DAY period = Ok (first ++ concat more)%list) /\
  (opened (hourly site) = Ok body ->
   pages_follow lib (hour_entries lib) (previous (hourly site)) 0 body first more ->
   _get_dated_data lib site HOUR period = Ok (first ++ concat more)%list).
Proof.
  intros Hperiod.
  assert (Hnat : Z.to_nat period = (length more + 1)%nat) by lia.
  split; intros Ho Hp; unfold _get_dated_data.
  - unfold get_usage_by_day. rewrite Ho, Hnat. cbn [mbind result_bind].
    rewrite (page_loop_after_pages lib _ _ 0 more first 0%nat body [] Hp).
    reflexivity.
  - unfold get_usage_by_hour. rewrite Ho, Hnat. cbn [mbind result_bind].
    rewrite (page_loop_after_pages lib _ _ 0 more first 0%nat body [] Hp).
    reflexivity.
Qed.

(** C2, as amended.  [get_cost_reads] returns the reads of the fetched
    entries without the maximal run of entries at the end of the fetched
    list whose usage and cost are both exactly zero: the entries split in
    one way only into a prefix that is empty or ends in an entry with a
    value and a rest of zero entries, and the result holds one read for
    each entry of the prefix, in that order, with the times and usage of
    the entry and its amount as cost (0 without an amount).  When the
    fetch raises, so does [get_cost_reads].  The end of the list is the
    end of the last page fetched: a fetch of several pages of days or
    hours lists the page opened first, the newest, before the pages that
    PREVIOUS brings, so that when the older pages end in an entry with a
    value nothing is dropped, whatever the newest page ends in.  Costs
    5, 0, 0 (no consumption) give the single read of cost 5, and a list
    of zero entries gives the empty list. *)
Theorem get_cost_reads_drops_trailing_zeros :
  (forall lib site aggregate_type period,
     match _get_dated_data lib site aggregate_type period with
     | Err e => get_cost_reads lib site aggregate_type period = Err e
     | Ok entries =>
         exists kept_entries dropped kept,
           entries = (kept_entries ++ dropped)%list /\
           get_cost_reads lib site aggregate_type period = Ok kept /\
           Forall2 read_of_entry kept_entries kept /\
           Forall zero_usage_entry dropped /\
           ends_with_usage kept_entries /\
           (forall kept' dropped',
              entries = (kept' ++ dropped')%list ->
              Forall zero_usage_entry dropped' -> ends_with_usage kept' ->
              kept' = kept_entries)
     end) /\
  (forall lib site period body first more,
     period = Z.of_nat (S (length more)) ->
     (opened (daily site) = Ok body ->
      pages_follow lib (day_entries lib) (previous (daily site)) 0 body first more ->
      _get_dated_data lib site DAY period = Ok (first ++ concat more)%list) /\
     (opened (hourly site) = Ok body ->
      pages_follow lib (hour_entries lib) (previous (hourly site)) 0 body first more ->
      _get_dated_data lib site HOUR period = Ok (first ++ concat more)%list)) /\
  (forall lib site period body first more init e,
     period = Z.of_nat (S (length more)) ->
     opened (daily site) = Ok body ->
     pages_follow lib (day_entries lib) (previous (daily site)) 0 body first more ->
     concat more = (init ++ [e])%list -> ~ zero_usage_entry e ->
     exists kept,
       get_cost_reads lib site DAY period = Ok kept /\
       Forall2 read_of_entry (first ++ concat more)%list kept) /\
  (forall s1 e1 s2 e2 s3 e3,
     remove_last_zero_entries
       [ {| start_time := s1; end_time := e1; consumption := 0; provided_cost := 5 |};
         {| start_time := s2; end_time := e2; consumption := 0; provided_cost := 0 |};
         {| start_time := s3; end_time := e3; consumption := 0; provided_cost := 0 |} ]
     = [ {| start_time := s1; end_time := e1; consumption := 0; provided_cost := 5 |} ]) /\
  (forall zeros, Forall zero_entry zeros -> remove_last_zero_entries zeros = []).
Proof.
  split; [|split; [|split; [|split]]].
  - intros lib site aggregate_type period. unfold get_cost_reads.
    destruct (_get_dated_data lib site aggregate_type period) as [entries|e];
      [|reflexivity].
    destruct (remove_last_zero_entries_of_entries entries)
      as (kept & dropped & Hsplit & Hkept & Hz & Hends).
    exists kept, dropped, (map cost_read_of kept).
    split; [exact Hsplit|]. split; [cbn [mbind result_bind]; rewrite Hkept; reflexivity|].
    split; [apply Forall2_read_of_entry|]. split; [exact Hz|].
    split; [exact Hends|].
    intros kept' dropped' E Hz' Hends'.
    apply (trailing_entries_unique kept' kept dropped' dropped); try assumption.
    rewrite <- E. exact Hsplit.
  - intros lib site period body first more. apply get_dated_data_pages.
  - intros lib site period body first more init e Hperiod Ho Hp Hlast He.
    destruct (get_dated_data_pages lib site period body first more Hperiod)
      as [Hdays _].
    specialize (Hdays Ho Hp).
    exists (map cost_read_of (first ++ concat more)%list).
    split; [|apply Forall2_read_of_entry].
    unfold get_cost_reads. rewrite Hdays. cbn [mbind result_bind].
    f_equal. rewrite Hlast, app_assoc, map_app. cbn [map].
    rewrite remove_last_zero_entries_snoc.
    assert (Hv : has_value (cost_read_of e) = true).
    { apply has_value_true. rewrite zero_usage_entry_read. exact He. }
    rewrite Hv. reflexivity.
  - intros. reflexivity.
  - intros zeros Hz.
    destruct (remove_last_zero_entries_split zeros) as (zs & Hsplit & Hzs & Hk).
    apply (trailing_split_unique _ [] zs zeros); try assumption.
    + rewrite <- Hsplit. reflexivity.
    + left. reflexivity.
Qed.

(** C2, as stated, fails on a fetch of two pages of days.  The newest
    page holds the days that end on 2023-11-21 and 2023-11-22, the page
    that PREVIOUS brings those that end on 2023-10-24 and 2023-10-25, and
    the second day of each page has neither usage nor cost.  The day that
    ends on 2023-11-22, the last in time, is kept although it has no
    value; the day dropped is the one that ends on 2023-10-25. *)
Lemma newest_zero_day_is_kept :
  exists entries kept,
    _get_dated_data (Sample.lib Cases.unsettled_bodies) Cases.two_months DAY 2
      = Ok entries /\
    map (fun e => isoformat (endTime e)) entries
      = [ "2023-11-21T00:00:00"; "2023-11-22T00:00:00";
          "2023-10-24T00:00:00"; "2023-10-25T00:00:00" ] /\
    get_cost_reads (Sample.lib Cases.unsettled_bodies) Cases.two_months DAY 2
      = Ok kept /\
    map (fun r => (isoformat (end_time r), has_value r)) kept
      = [ ("2023-11-21T00:00:00", true); ("2023-11-22T00:00:00", false);
          ("2023-10-24T00:00:00", true) ].
Proof.
  eexists _, _. split; [vm_compute; reflexivity|].
  split; [vm_compute; reflexivity|]. split; [vm_compute; reflexivity|].
  vm_compute. reflexivity.
Qed.

(** The amended statement at three bills of $5, $0 and no amount,
    without consumption (the first is kept), and at the two pages of
    days of [Cases.unsettled_bodies] (the last entry of the older page is
    dropped and nothing else). *)
Lemma trailing_zeros_witness :
  (exists kept,
     get_cost_reads (Sample.lib Cases.settling_bodies) Cases.settling MONTH 1
       = Ok kept /\
     map provided_cost kept = [5%Q]) /\
  (exists kept_entries dropped kept,
     (Cases.unsettled_november ++ Cases.unsettled_october
      = kept_entries ++ dropped)%list /\
     get_cost_reads (Sample.lib Cases.unsettled_bodies) Cases.two_months DAY 2
       = Ok kept /\
     Forall2 read_of_entry kept_entries kept /\
     length dropped = 1%nat /\ Forall zero_usage_entry dropped /\
     ends_with_usage kept_entries).
Proof.
  split.
  - pose proof (proj1 get_cost_reads_drops_trailing_zeros
                  (Sample.lib Cases.settling_bodies) Cases.settling MONTH 1) as H.
    destruct (_get_dated_data (Sample.lib Cases.settling_bodies) Cases.settling
                              MONTH 1) as [entries|e] eqn:E;
      [|vm_compute in E; discriminate E].
    destruct H as (kept_entries & dropped & kept & _ & Hget & _).
    exists kept. split; [exact Hget|].
    assert (Hkept : get_cost_reads (Sample.lib Cases.settling_bodies)
                      Cases.settling MONTH 1
                    = Ok Cases.settling_reads)
      by (vm_compute; reflexivity).
    rewrite Hkept in Hget. injection Hget as <-. reflexivity.
  - destruct get_cost_reads_drops_trailing_zeros as (Hsplit & Hpages & _).
    destruct (Hpages (Sample.lib Cases.unsettled_bodies) Cases.two_months 2
                "november" Cases.unsettled_november [Cases.unsettled_october]
                eq_refl) as [Hdays _].
    specialize (Hsplit (Sample.lib Cases.unsettled_bodies) Cases.two_months DAY 2).
    rewrite Hdays in Hsplit.
    + destruct Hsplit as (kept_entries & dropped & kept & Hs & Hget & Hr & Hz & He & _).
      exists kept_entries, dropped, kept.
      cbn [concat] in Hs. rewrite app_nil_r in Hs.
      split; [exact Hs|]. split; [exact Hget|]. split; [exact Hr|].
      split; [|split; assumption].
      assert (Hkept : exists kept3, get_cost_reads (Sample.lib Cases.unsettled_bodies)
                        Cases.two_months DAY 2 = Ok kept3 /\ length kept3 = 3%nat)
        by (eexists; split; [vm_compute; reflexivity | reflexivity]).
      destruct Hkept as (kept3 & Hk3 & Hlen). rewrite Hk3 in Hget.
      injection Hget as <-.
      apply Forall2_length in Hr.
      apply (f_equal (@length usage_entry)) in Hs.
      rewrite !length_app in Hs. simpl in Hs. lia.
    + reflexivity.
    + split; [vm_compute; reflexivity|].
      exists "october". split; [reflexivity|].
      split; [vm_compute; reflexivity | exact I].
Defined.

(** ** Login *)

(** C5, as stated, fails: navigation succeeds and the identity response
    is not in the capture buffer; the lookup raises [KeyError], which is
    not [CannotConnect]. *)
Lemma missing_identity_is_a_key_error :
  my_account_reached Cases.no_identity = true /\
  (login_captures Cases.no_identity ∪ u_xhrs new_utility) !! URL_ME = None /\
  snd (utility_login (Sample.lib Cases.household_bodies) Cases.no_identity
                     new_utility) = Err KeyError /\
  snd (login (Sample.lib Cases.household_bodies) Cases.no_identity new_api)
    = Err KeyError /\
  snd (login (Sample.lib Cases.household_bodies) Cases.no_identity new_api)
    <> Err CannotConnect.
Proof.
  split; [reflexivity|]. split; [vm_compute; reflexivity|].
  split; [vm_compute; reflexivity|]. split; [vm_compute; reflexivity|].
  vm_compute. discriminate.
Qed.

(** C5, as amended.  After a login whose navigation succeeds, with
    [xhrs] the capture buffer: if the identity response is missing,
    login raises [KeyError]; if the identity response gives a user id and
    the account-list response is missing, login raises [KeyError]; if
    both are present and give a user id and a first account, login
    returns the buffer and caches the two, in the session and, where none
    was cached before, in the API object. *)
Theorem login_reads_the_capture_buffer (lib : pylib) (site : portal)
    (api : api_state) :
  browser_started site = true ->
  sign_in_reached site = true ->
  login_frame_found site = true ->
  login_form_found site = true ->
  my_account_reached site = true ->
  let u := utility api in
  let xhrs := login_captures site ∪ u_xhrs u in
  (xhrs !! URL_ME = None ->
   snd (utility_login lib site u) = Err KeyError /\
   snd (login lib site api) = Err KeyError) /\
  (forall uid,
     captured_user_id lib xhrs = Ok uid ->
     xhrs !! URL_ACCOUNT_LIST = None ->
     snd (utility_login lib site u) = Err KeyError /\
     snd (login lib site api) = Err KeyError) /\
  (forall uid acct,
     captured_user_id lib xhrs = Ok uid ->
     captured_first_account lib xhrs = Ok acct ->
     let u' := {| u_user_id := uid; u_account := acct;
                  u_forecast := u_forecast u; u_xhrs := xhrs |} in
     utility_login lib site u = (u', Ok xhrs) /\
     login lib site api
     = ({| account := if truthy (account api) then account api else acct;
           customer_id :=
             if truthy (customer_id api) then customer_id api else uid;
           utility := u' |}, Ok tt)).
Proof.
  intros H1 H2 H3 H4 H5 u xhrs.
  assert (Hlogin : utility_login lib site u =
            match captured_user_id lib xhrs with
            | Err e => (get_xhrs (login_captures site) u, Err e)
            | Ok uid =>
                match captured_first_account lib xhrs with
                | Err e => ({| u_user_id := uid; u_account := u_account u;
                               u_forecast := u_forecast u; u_xhrs := xhrs |},
                            Err e)
                | Ok acct => ({| u_user_id := uid; u_account := acct;
                                 u_forecast := u_forecast u; u_xhrs := xhrs |},
                              Ok xhrs)
                end
            end).
  { unfold utility_login. rewrite H1, H2, H3, H4, H5. reflexivity. }
  unfold login. fold u. rewrite Hlogin.
  split; [|split].
  - intros Hme. unfold captured_user_id, captured_json. rewrite Hme.
    split; reflexivity.
  - intros uid Hid Hacc. rewrite Hid.
    unfold captured_first_account, captured_json. rewrite Hacc.
    split; reflexivity.
  - intros uid acct Hid Hacc. rewrite Hid, Hacc. split; reflexivity.
Qed.

(** The amended statement at [Cases.household]: user 7 and the first
    account are cached. *)
Lemma login_witness :
  login (Sample.lib Cases.household_bodies) Cases.household new_api
  = ({| account := JObj [("accountNumber", JStr "12345678-001 5")];
        customer_id := JInt 7;
        utility :=
          {| u_user_id := JInt 7;
             u_account := JObj [("accountNumber", JStr "12345678-001 5")];
             u_forecast := JObj [];
             u_xhrs := login_captures Cases.household ∪ ∅ |} |}, Ok tt).
Proof.
  refine (proj2 (proj2 (proj2 (login_reads_the_capture_buffer
            (Sample.lib Cases.household_bodies) Cases.household new_api
            eq_refl eq_refl eq_refl eq_refl eq_refl)) (JInt 7)
            (JObj [("accountNumber", JStr "12345678-001 5")]) _ _));
    vm_compute; reflexivity.
Defined.

(** ** Account identifiers *)

(** [get_account] gives the account number with its spaces replaced. *)
Lemma get_account_replaces_spaces (lib : pylib) (site : portal)
    (api : api_state) (a : Account) :
  snd (get_account lib site api) = Ok a ->
  exists number,
    uuid a = JStr number /\
    utility_account_id a = JStr (Str.replace " " "_" number).
Proof.
  unfold get_account. destruct (_get_account lib site api) as [api1 r].
  simpl. intros H. bind_inv H. injection H as <-. simpl.
  rewrite E0 in E1. injection E1 as <-.
  destruct a1; try discriminate. injection E2 as <-. eauto.
Qed.

(** C9.  The code at an account number with a space in it: after login,
    [get_account] gives the identifier with the space replaced, and the
    statistics are filed under it; the [Account] inside the [Forecast]
    that [get_forecast] returns carries the account number as it is. *)
Theorem forecast_account_id_keeps_spaces :
  exists api f a calls,
    login (Sample.lib Cases.household_bodies) Cases.household new_api = (api, Ok tt) /\
    snd (get_forecast (Sample.lib Cases.household_bodies) Cases.household
                      Cases.today api) = Ok [f] /\
    snd (get_account (Sample.lib Cases.household_bodies) Cases.household api) = Ok a /\
    uuid a = JStr "12345678-001 5" /\
    uuid (forecast_account f) = JStr "12345678-001 5" /\
    utility_account_id a = JStr "12345678-001_5" /\
    utility_account_id (forecast_account f) = JStr "12345678-001 5" /\
    utility_account_id (forecast_account f) <> utility_account_id a /\
    _insert_statistics (Sample.lib Cases.household_bodies) Cases.DOMAIN "kWh"
      utc_timestamp Cases.household Cases.household_store api = Ok calls /\
    map (fun call => statistic_id (fst call)) calls
    = [ "rocky_mountain_power:elec_12345678-001_5_energy_cost";
        "rocky_mountain_power:elec_12345678-001_5_energy_consumption" ].
Proof.
  eexists _, _, _, _. split; [vm_compute; reflexivity|].
  split; [vm_compute; reflexivity|]. split; [vm_compute; reflexivity|].
  do 4 (split; [reflexivity|]). split; [discriminate|].
  split; [vm_compute; reflexivity|]. reflexivity.
Qed.

(** ** First run *)





(** ** Incremental run *)

(** What an incremental run over a fetch that is not empty reads back
    and sends: the last timestamp and the prior sums are those of the
    first rows of the reply for the period that starts with the first
    read. *)
Lemma _insert_statistics_incremental (lib : pylib)
    (DOMAIN KILO_WATT_HOUR : string) (timestamp : datetime -> Q)
    (site : portal) (store : recorder) (api : api_state)
    (a : Account) (account_id : string) (first : CostRead) (rest : list CostRead) :
  snd (get_account lib site api) = Ok a ->
  utility_account_id a = JStr account_id ->
  last_statistics store (consumption_statistic_id_of DOMAIN account_id) <> [] ->
  _async_get_recent_cost_reads lib site = Ok (first :: rest) ->
  let stats := statistics_during_period store (start_time first) in
  let cost_id := cost_statistic_id_of DOMAIN account_id in
  let consumption_id := consumption_statistic_id_of DOMAIN account_id in
  let run := _insert_statistics lib DOMAIN KILO_WATT_HOUR timestamp site store api in
  (forall e, first_row stats cost_id = Err e ->
             prior_state lib site store cost_id consumption_id = Err e /\
             run = Err e) /\
  (forall cost_row e,
     first_row stats cost_id = Ok cost_row ->
     first_row stats consumption_id = Err e ->
     prior_state lib site store cost_id consumption_id = Err e /\ run = Err e) /\
  (forall cost_row consumption_row,
     first_row stats cost_id = Ok cost_row ->
     first_row stats consumption_id = Ok consumption_row ->
     prior_state lib site store cost_id consumption_id
     = Ok (Some (first :: rest, row_sum cost_row, row_sum consumption_row,
                 Some (row_start cost_row))) /\
     run = Ok [ (cost_metadata_of DOMAIN account_id,
                 fst (statistics_loop timestamp (Some (row_start cost_row))
                        (first :: rest) (row_sum cost_row)
                        (row_sum consumption_row) [] []));
                (consumption_metadata_of DOMAIN KILO_WATT_HOUR account_id,
                 snd (statistics_loop timestamp (Some (row_start cost_row))
                        (first :: rest) (row_sum cost_row)
                        (row_sum consumption_row) [] [])) ]).
Proof.
  intros Ha Hid Hlast Hreads stats cost_id consumption_id run.
  destruct (last_statistics store (consumption_statistic_id_of DOMAIN account_id))
    as [|row rows] eqn:Elast; [contradiction|].
  assert (Hprior : prior_state lib site store cost_id consumption_id
                   = (c ← first_row stats cost_id;
                      n ← first_row stats consumption_id;
                      t ← first_row stats cost_id;
                      Ok (Some (first :: rest, row_sum c, row_sum n,
                                Some (row_start t))))).
  { unfold prior_state. fold consumption_id. unfold consumption_id at 1.
    rewrite Elast, Hreads. reflexivity. }
  assert (Hrun : run = (prior ← prior_state lib site store cost_id consumption_id;
                        match prior with
                        | None => Ok []
                        | Some (cost_reads, cost_sum, consumption_sum, last_stats_time) =>
                            let '(cost_statistics, consumption_statistics) :=
                              statistics_loop timestamp last_stats_time cost_reads
                                              cost_sum consumption_sum [] [] in
                            Ok [ (cost_metadata_of DOMAIN account_id, cost_statistics);
                                 (consumption_metadata_of DOMAIN KILO_WATT_HOUR account_id,
                                  consumption_statistics) ]
                        end)).
  { unfold run, _insert_statistics. rewrite Ha. cbn [mbind result_bind].
    rewrite Hid. reflexivity. }
  split; [|split].
  - intros e He. rewrite Hrun, Hprior, He. split; reflexivity.
  - intros cost_row e Hc Hn. rewrite Hrun, Hprior, Hc, Hn. split; reflexivity.
  - intros cost_row consumption_row Hc Hn. rewrite Hrun, Hprior, Hc, Hn.
    cbn [mbind result_bind]. split; [reflexivity|].
    destruct (statistics_loop timestamp (Some (row_start cost_row)) (first :: rest)
                (row_sum cost_row) (row_sum consumption_row) [] []).
    reflexivity.
Qed.

(** C1, as amended.  In an incremental merge over a fetch that is not
    empty, the last timestamp [T] and the prior sums are read from the
    reply of the store for the period that starts with the first fetched
    read: [T] is the start of the first row of the cost series in that
    reply and the prior sums are the sums of the first rows of the two
    series; when a series is missing from the reply or has no row, the
    merge raises and sends nothing.  Otherwise the reads that emit are
    exactly those whose start is strictly after [T]; a read at or before
    [T] emits nothing.  Each such read emits one point per series, in the
    order of the input, whose sum is the running sum before it plus its
    cost (respectively consumption), the first running sum being the
    prior one.  The emitted timestamps are the start times of these
    reads, so they are pairwise distinct whenever the start times of the
    input are. *)
Theorem incremental_walk_after_last_timestamp (lib : pylib)
    (DOMAIN KILO_WATT_HOUR : string) (timestamp : datetime -> Q)
    (site : portal) (store : recorder) (api : api_state)
    (a : Account) (account_id : string) (first : CostRead) (rest : list CostRead) :
  snd (get_account lib site api) = Ok a ->
  utility_account_id a = JStr account_id ->
  last_statistics store (consumption_statistic_id_of DOMAIN account_id) <> [] ->
  _async_get_recent_cost_reads lib site = Ok (first :: rest) ->
  let reads := first :: rest in
  let stats := statistics_during_period store (start_time first) in
  let cost_id := cost_statistic_id_of DOMAIN account_id in
  let consumption_id := consumption_statistic_id_of DOMAIN account_id in
  let run := _insert_statistics lib DOMAIN KILO_WATT_HOUR timestamp site store api in
  (forall e, first_row stats cost_id = Err e -> run = Err e) /\
  (forall cost_row e,
     first_row stats cost_id = Ok cost_row ->
     first_row stats consumption_id = Err e -> run = Err e) /\
  (forall cost_row consumption_row,
     first_row stats cost_id = Ok cost_row ->
     first_row stats consumption_id = Ok consumption_row ->
     let T := row_start cost_row in
     let S_cost := row_sum cost_row in
     let S_consumption := row_sum consumption_row in
     let included := not_stored timestamp (Some T) reads in
     prior_state lib site store cost_id consumption_id
     = Ok (Some (reads, S_cost, S_consumption, Some T)) /\
     exists cost_statistics consumption_statistics,
       run = Ok [ (cost_metadata_of DOMAIN account_id, cost_statistics);
                  (consumption_metadata_of DOMAIN KILO_WATT_HOUR account_id,
                   consumption_statistics) ] /\
       (forall r, In r included <->
                  In r reads /\ (T < timestamp (start_time r))%Q) /\
       (forall r, In r reads -> (timestamp (start_time r) <= T)%Q ->
                  ~ In r included) /\
       cost_statistics = spec_running_points provided_cost S_cost included /\
       consumption_statistics
       = spec_running_points consumption S_consumption included /\
       Forall (fun p => (T < timestamp (start p))%Q) cost_statistics /\
       Forall (fun p => (T < timestamp (start p))%Q) consumption_statistics /\
       (forall r rest', included = r :: rest' ->
          head cost_statistics
          = Some {| start := start_time r; state := provided_cost r;
                    sum := (S_cost + provided_cost r)%Q |} /\
          head consumption_statistics
          = Some {| start := start_time r; state := consumption r;
                    sum := (S_consumption + consumption r)%Q |}) /\
       map start cost_statistics = map start_time included /\
       map start consumption_statistics = map start_time included /\
       (List.NoDup (map start_time reads) ->
        List.NoDup (map start cost_statistics) /\
        List.NoDup (map start consumption_statistics))).
Proof.
  intros Ha Hid Hlast Hreads reads stats cost_id consumption_id run.
  destruct (_insert_statistics_incremental lib DOMAIN KILO_WATT_HOUR timestamp
              site store api a account_id first rest Ha Hid Hlast Hreads)
    as (Hcost & Hconsumption & Hboth).
  split; [|split].
  - intros e He. apply (Hcost e He).
  - intros cost_row e Hc Hn. apply (Hconsumption cost_row e Hc Hn).
  - intros cost_row consumption_row Hc Hn T S_cost S_consumption included.
    destruct (Hboth cost_row consumption_row Hc Hn) as [Hprior Hrun].
    split; [exact Hprior|].
    eexists _, _. split; [exact Hrun|].
    apply (statistics_loop_walk timestamp S_cost S_consumption T reads).
Qed.

(** C1, as stated, fails.  With the last persisted timestamp for [T]:
    the household's two series hold rows up to 2023-11-21 and the fetch
    holds the days that start on 2023-11-20 and 2023-11-21, both at or
    before [T], yet the day of 2023-11-21 emits a point, and its sum is
    not the last persisted sum plus its cost; a day later the fetch holds
    the day that starts on 2023-11-22, after [T], no row is in the period
    from it on, and the merge raises [KeyError] instead of including it.
    And since the recent fetch is the day reads followed by the hour
    reads, the day that starts on 2023-11-21 and the first hour of
    2023-11-21 start at the same instant: both are after 2023-11-20, so
    the walk emits that timestamp twice in each series. *)
Lemma last_persisted_timestamp_is_not_the_cutoff :
  (exists T S reads cost_metadata cost_point consumption_call,
     last_statistics Cases.after_cycle Cases.household_cost_id
       = [ {| row_start := T; row_sum := S |} ] /\
     _async_get_recent_cost_reads (Sample.lib Cases.household_bodies)
                                  Cases.household = Ok reads /\
     Forall (fun r => (utc_timestamp (start_time r) <= T)%Q) reads /\
     _insert_statistics (Sample.lib Cases.household_bodies) Cases.DOMAIN "kWh"
       utc_timestamp Cases.household Cases.after_cycle Cases.logged_in
       = Ok [ (cost_metadata, [cost_point]); consumption_call ] /\
     isoformat (start cost_point) = "2023-11-21T00:00:00" /\
     (utc_timestamp (start cost_point) <= T)%Q /\
     ~ (sum cost_point == S + state cost_point)%Q) /\
  (exists T S read,
     last_statistics Cases.after_cycle Cases.household_cost_id
       = [ {| row_start := T; row_sum := S |} ] /\
     _async_get_recent_cost_reads (Sample.lib Cases.later_bodies)
                                  Cases.household = Ok [read] /\
     (T < utc_timestamp (start_time read))%Q /\
     _insert_statistics (Sample.lib Cases.later_bodies) Cases.DOMAIN "kWh"
       utc_timestamp Cases.household Cases.after_cycle Cases.logged_in
       = Err KeyError) /\
  (exists day_read hour_read,
     _async_get_recent_cost_reads (Sample.lib Site.overlap_bodies) Site.overlap
       = Ok [day_read; hour_read] /\
     (Site.nov_20 < utc_timestamp (start_time day_read))%Q /\
     (Site.nov_20 < utc_timestamp (start_time hour_read))%Q /\
     map (fun p => isoformat (start p))
         (fst (statistics_loop utc_timestamp (Some Site.nov_20)
                 [day_read; hour_read] 100 200 [] []))
       = ["2023-11-21T00:00:00"; "2023-11-21T00:00:00"] /\
     ~ List.NoDup
         (map start
            (fst (statistics_loop utc_timestamp (Some Site.nov_20)
                    [day_read; hour_read] 100 200 [] []))) /\
     ~ List.NoDup
         (map start
            (snd (statistics_loop utc_timestamp (Some Site.nov_20)
                    [day_read; hour_read] 100 200 [] [])))).
Proof.
  split; [|split].
  - eexists _, _, _, _, _, _.
    split; [vm_compute; reflexivity|]. split; [vm_compute; reflexivity|].
    split; [repeat constructor; vm_compute; discriminate|].
    split; [vm_compute; reflexivity|]. split; [vm_compute; reflexivity|].
    split; [vm_compute; discriminate|].
    vm_compute. discriminate.
  - eexists _, _, _.
    split; [vm_compute; reflexivity|]. split; [vm_compute; reflexivity|].
    split; [reflexivity|]. vm_compute. reflexivity.
  - eexists _, _. split; [vm_compute; reflexivity|].
    split; [reflexivity|]. split; [reflexivity|].
    split; [vm_compute; reflexivity|].
    split; vm_compute; intros H; apply List.NoDup_cons_iff in H as [H _];
      apply H; left; reflexivity.
Qed.

(** The amended statement at the household over the recorder that
    holds rows of the 19th and the 20th: [T] is the 20th, the day of the
    21st emits, once, with the sum of the row of the 20th plus its
    consumption. *)
Lemma incremental_walk_witness :
  exists cost_statistics consumption_statistics,
    _insert_statistics (Sample.lib Cases.household_bodies) Cases.DOMAIN "kWh"
      utc_timestamp Cases.household Cases.before_cycle Cases.logged_in
    = Ok [ (cost_metadata_of Cases.DOMAIN "12345678-001_5", cost_statistics);
           (consumption_metadata_of Cases.DOMAIN "kWh" "12345678-001_5",
            consumption_statistics) ] /\
    map (fun p => isoformat (start p)) cost_statistics = ["2023-11-21T00:00:00"] /\
    List.NoDup (map start cost_statistics) /\
    map sum consumption_statistics = [((461 # 2) + (757 # 20))%Q].
Proof.
  pose proof (incremental_walk_after_last_timestamp
                (Sample.lib Cases.household_bodies) Cases.DOMAIN "kWh"
                utc_timestamp Cases.household Cases.before_cycle Cases.logged_in
                {| customer := {| customer_uuid := JInt 7 |};
                   uuid := JStr "12345678-001 5";
                   utility_account_id := JStr "12345678-001_5" |}
                "12345678-001_5"
                (Site.day_read 20 (61 # 2) 4) [Site.day_read 21 (757 # 20) 5]) as H.
  cbv zeta in H.
  destruct H as (_ & _ & H).
  - vm_compute. reflexivity.
  - reflexivity.
  - vm_compute. discriminate.
  - vm_compute. reflexivity.
  - destruct (H {| row_start := Cases.nov 20; row_sum := 104 |}
                {| row_start := Cases.nov 20; row_sum := 461 # 2 |})
      as (_ & cs & ns & Hrun & _ & _ & Hc & Hn & _ & _ & _ & _ & _ & Hnd).
    + vm_compute. reflexivity.
    + vm_compute. reflexivity.
    + exists cs, ns. split; [exact Hrun|].
      split; [rewrite Hc; vm_compute; reflexivity|].
      split; [|rewrite Hn; vm_compute; reflexivity].
      apply Hnd.
      repeat (apply List.NoDup_cons; [simpl; intuition discriminate|]).
      apply List.NoDup_nil.
Defined.

Lemma not_stored_nil (timestamp : datetime -> Q) (T : Q) (reads : list CostRead) :
  not_stored timestamp (Some T) reads = [] <->
  Forall (fun r => (timestamp (start_time r) <= T)%Q) reads.
Proof.
  split; [|apply not_stored_all_stored].
  intros Hnil. apply List.Forall_forall. intros r Hr.
  destruct (Qlt_le_dec T (timestamp (start_time r))) as [Hlt|Hle]; [|exact Hle].
  assert (Hin : In r (not_stored timestamp (Some T) reads))
    by (apply not_stored_In; split; assumption).
  rewrite Hnil in Hin. destruct Hin.
Qed.

Lemma spec_running_points_nil (value : CostRead -> Q) (running : Q)
    (reads : list CostRead) :
  spec_running_points value running reads = [] <-> reads = [].
Proof.
  split; [|intros ->; reflexivity].
  destruct reads; [reflexivity | discriminate].
Qed.

(** C7, as amended.  On an incremental run (the consumption series has
    a row): an empty recent fetch returns before anything is sent to the
    store.  Otherwise, with the first rows of the reply for the period
    that starts with the first fetched read, the run raises nothing and
    sends the two series, whose timestamps are the starts of the reads
    that start after the first row of the cost series.  So the run emits
    no point for either series exactly when every fetched read starts at
    or before that row; when that row is at the start of the first
    fetched read, as it is once the reads of a cycle are stored, every
    read that starts after the first one emits again. *)
Theorem incremental_rerun_emits_nothing (lib : pylib)
    (DOMAIN KILO_WATT_HOUR : string) (timestamp : datetime -> Q)
    (site : portal) (store : recorder) (api : api_state)
    (a : Account) (account_id : string) :
  snd (get_account lib site api) = Ok a ->
  utility_account_id a = JStr account_id ->
  last_statistics store (consumption_statistic_id_of DOMAIN account_id) <> [] ->
  (_async_get_recent_cost_reads lib site = Ok [] ->
   _insert_statistics lib DOMAIN KILO_WATT_HOUR timestamp site store api = Ok []) /\
  (forall first rest cost_row consumption_row,
     _async_get_recent_cost_reads lib site = Ok (first :: rest) ->
     first_row (statistics_during_period store (start_time first))
               (cost_statistic_id_of DOMAIN account_id) = Ok cost_row ->
     first_row (statistics_during_period store (start_time first))
               (consumption_statistic_id_of DOMAIN account_id) = Ok consumption_row ->
     exists cost_statistics consumption_statistics,
       _insert_statistics lib DOMAIN KILO_WATT_HOUR timestamp site store api
       = Ok [ (cost_metadata_of DOMAIN account_id, cost_statistics);
              (consumption_metadata_of DOMAIN KILO_WATT_HOUR account_id,
               consumption_statistics) ] /\
       map start cost_statistics
       = map start_time (not_stored timestamp (Some (row_start cost_row))
                                    (first :: rest)) /\
       map start consumption_statistics
       = map start_time (not_stored timestamp (Some (row_start cost_row))
                                    (first :: rest)) /\
       ((cost_statistics = [] /\ consumption_statistics = []) <->
        Forall (fun r => (timestamp (start_time r) <= row_start cost_row)%Q)
               (first :: rest)) /\
       ((row_start cost_row == timestamp (start_time first))%Q ->
        forall r, In r rest ->
                  (timestamp (start_time first) < timestamp (start_time r))%Q ->
                  In (start_time r) (map start cost_statistics) /\
                  In (start_time r) (map start consumption_statistics))).
Proof.
  intros Ha Hid Hlast.
  split.
  - intros Hempty.
    destruct (last_statistics store (consumption_statistic_id_of DOMAIN account_id))
      as [|row rows] eqn:Elast; [contradiction|].
    unfold _insert_statistics. rewrite Ha. cbn [mbind result_bind].
    rewrite Hid. cbn [mbind result_bind as_str]. unfold prior_state.
    rewrite Elast, Hempty. reflexivity.
  - intros first rest cost_row consumption_row Hreads Hc Hn.
    destruct (_insert_statistics_incremental lib DOMAIN KILO_WATT_HOUR timestamp
                site store api a account_id first rest Ha Hid Hlast Hreads)
      as (_ & _ & Hboth).
    destruct (Hboth cost_row consumption_row Hc Hn) as [_ Hrun].
    rewrite statistics_loop_points in Hrun. cbn [fst snd app] in Hrun.
    eexists _, _. split; [exact Hrun|].
    rewrite !spec_running_points_start.
    split; [reflexivity|]. split; [reflexivity|]. split.
    + rewrite !spec_running_points_nil, <- not_stored_nil. tauto.
    + intros Hrow r Hr Hlt.
      assert (Hin : In (start_time r)
                       (map start_time
                            (not_stored timestamp (Some (row_start cost_row))
                                        (first :: rest)))).
      { apply in_map. apply not_stored_In. split; [right; exact Hr|].
        rewrite Hrow. exact Hlt. }
      split; exact Hin.
Qed.

(** C7, as stated, fails on a second cycle over the same fetch.  The
    household's recorder holds rows of the 19th and the 20th; a cycle
    over the days that start on the 20th and the 21st sends one point
    for each series, of the 21st.  Once these are stored the last
    persisted timestamp is the 21st and both fetched days are at or
    before it, yet the same cycle sends the point of the 21st again. *)
Lemma rerun_emits_again :
  exists cost_metadata consumption_metadata cost_point consumption_point reads,
    _insert_statistics (Sample.lib Cases.household_bodies) Cases.DOMAIN "kWh"
      utc_timestamp Cases.household Cases.before_cycle Cases.logged_in
    = Ok [ (cost_metadata, [cost_point]);
           (consumption_metadata, [consumption_point]) ] /\
    Cases.after_cycle
    = Cases.holding
        (Cases.household_series
           (Cases.persist Cases.cost_rows_before [cost_point])
           (Cases.persist Cases.consumption_rows_before [consumption_point])) /\
    last_statistics Cases.after_cycle Cases.household_consumption_id
    = [ {| row_start := utc_timestamp (start consumption_point);
           row_sum := sum consumption_point |} ] /\
    isoformat (start consumption_point) = "2023-11-21T00:00:00" /\
    _async_get_recent_cost_reads (Sample.lib Cases.household_bodies)
                                 Cases.household = Ok reads /\
    Forall (fun r => (utc_timestamp (start_time r)
                      <= utc_timestamp (start consumption_point))%Q) reads /\
    _insert_statistics (Sample.lib Cases.household_bodies) Cases.DOMAIN "kWh"
      utc_timestamp Cases.household Cases.after_cycle Cases.logged_in
    = Ok [ (cost_metadata, [cost_point]);
           (consumption_metadata, [consumption_point]) ].
Proof.
  eexists _, _, _, _, _.
  split; [vm_compute; reflexivity|]. split; [reflexivity|].
  split; [vm_compute; reflexivity|]. split; [vm_compute; reflexivity|].
  split; [vm_compute; reflexivity|].
  split; [repeat constructor; vm_compute; discriminate|].
  vm_compute. reflexivity.
Qed.

(** The amended statement at the household: over the recorder whose
    only rows are of the 22nd both fetched days are at or before the
    first row and nothing is emitted; over the recorder that holds the
    points of a cycle the first row is at the start of the first fetched
    day and the day of the 21st is emitted again. *)
Lemma incremental_rerun_witness :
  _insert_statistics (Sample.lib Cases.household_bodies) Cases.DOMAIN "kWh"
    utc_timestamp Cases.household Cases.only_the_22nd Cases.logged_in
  = Ok [ (cost_metadata_of Cases.DOMAIN "12345678-001_5", []);
         (consumption_metadata_of Cases.DOMAIN "kWh" "12345678-001_5", []) ] /\
  exists cost_statistics consumption_statistics,
    _insert_statistics (Sample.lib Cases.household_bodies) Cases.DOMAIN "kWh"
      utc_timestamp Cases.household Cases.after_cycle Cases.logged_in
    = Ok [ (cost_metadata_of Cases.DOMAIN "12345678-001_5", cost_statistics);
           (consumption_metadata_of Cases.DOMAIN "kWh" "12345678-001_5",
            consumption_statistics) ] /\
    In (mk_datetime (ymd2ord 2023 11 21) 0) (map start cost_statistics) /\
    In (mk_datetime (ymd2ord 2023 11 21) 0) (map start consumption_statistics).
Proof.
  split.
  - destruct (incremental_rerun_emits_nothing
                (Sample.lib Cases.household_bodies) Cases.DOMAIN "kWh"
                utc_timestamp Cases.household Cases.only_the_22nd Cases.logged_in
                {| customer := {| customer_uuid := JInt 7 |};
                   uuid := JStr "12345678-001 5";
                   utility_account_id := JStr "12345678-001_5" |}
                "12345678-001_5") as [_ H];
      [vm_compute; reflexivity | reflexivity | vm_compute; discriminate |].
    destruct (H (Site.day_read 20 (61 # 2) 4) [Site.day_read 21 (757 # 20) 5]
                {| row_start := Cases.nov 22; row_sum := 120 |}
                {| row_start := Cases.nov 22; row_sum := 900 |})
      as (cs & ns & Hrun & _ & _ & Hnone & _);
      [vm_compute; reflexivity ..|].
    destruct (proj2 Hnone) as [-> ->]; [|exact Hrun].
    repeat constructor; vm_compute; discriminate.
  - destruct (incremental_rerun_emits_nothing
                (Sample.lib Cases.household_bodies) Cases.DOMAIN "kWh"
                utc_timestamp Cases.household Cases.after_cycle Cases.logged_in
                {| customer := {| customer_uuid := JInt 7 |};
                   uuid := JStr "12345678-001 5";
                   utility_account_id := JStr "12345678-001_5" |}
                "12345678-001_5") as [_ H];
      [vm_compute; reflexivity | reflexivity | vm_compute; discriminate |].
    destruct (H (Site.day_read 20 (61 # 2) 4) [Site.day_read 21 (757 # 20) 5]
                {| row_start := Cases.nov 20; row_sum := 104 |}
                {| row_start := Cases.nov 20; row_sum := 461 # 2 |})
      as (cs & ns & Hrun & _ & _ & _ & Hagain);
      [vm_compute; reflexivity ..|].
    exists cs, ns. split; [exact Hrun|].
    apply (Hagain ltac:(vm_compute; reflexivity)
                  (Site.day_read 21 (757 # 20) 5) ltac:(left; reflexivity)).
    reflexivity.
Defined.

(** * Further properties *)

(** ** Trimming *)

(** X1.  The trimming loop of [get_cost_reads] never drops a read that
    has a cost or a consumption: the reads with a value are the same
    before and after, in the same order; what it returns is a prefix of
    its input; and trimming a trimmed list changes nothing. *)
Theorem trimming_keeps_every_value (l : list CostRead) :
  List.filter has_value (remove_last_zero_entries l) = List.filter has_value l /\
  (exists dropped, l = (remove_last_zero_entries l ++ dropped)%list) /\
  (length (remove_last_zero_entries l) <= length l)%nat /\
  remove_last_zero_entries (remove_last_zero_entries l)
  = remove_last_zero_entries l.
Proof.
  destruct (remove_last_zero_entries_split l) as (zeros & Hl & Hz & Hk).
  assert (Hnone : List.filter has_value zeros = []).
  { clear Hl. induction Hz as [|z zeros Hzero _ IH]; simpl; [reflexivity|].
    apply has_value_false in Hzero. rewrite Hzero. exact IH. }
  split; [|split; [|split]].
  - rewrite Hl at 2. rewrite List.filter_app, Hnone, app_nil_r. reflexivity.
  - exists zeros. exact Hl.
  - rewrite Hl at 2. rewrite length_app. lia.
  - destruct Hk as [-> | (init & item & -> & Hv)]; [reflexivity|].
    rewrite remove_last_zero_entries_snoc.
    apply has_value_true in Hv. rewrite Hv. reflexivity.
Qed.

(** ** The walk, again *)

Lemma spec_running_points_cumulative (value : CostRead -> Q) (reads : list CostRead) :
  forall running, cumulative running (spec_running_points value running reads).
Proof.
  induction reads as [|r rest IH]; intros running; simpl; [exact I|].
  split; [reflexivity | apply IH].
Qed.

(** X2.  Whatever the prior sums and the last timestamp, the two series
    that the walk of [_insert_statistics] emits are aligned (the same
    timestamps in the same order, hence equally many points), and each
    is cumulative: the sum of a point is the sum of the point before it
    (the prior sum for the first) plus its own state. *)
Theorem walk_series_are_aligned_and_cumulative (timestamp : datetime -> Q)
    (last_stats_time : option Q) (reads : list CostRead)
    (cost_sum consumption_sum : Q) :
  let out := statistics_loop timestamp last_stats_time reads
                             cost_sum consumption_sum [] [] in
  map start (fst out) = map start (snd out) /\
  length (fst out) = length (snd out) /\
  cumulative cost_sum (fst out) /\
  cumulative consumption_sum (snd out).
Proof.
  intros out. unfold out. rewrite statistics_loop_points. simpl.
  rewrite !spec_running_points_start, !spec_running_points_length.
  repeat split; apply spec_running_points_cumulative.
Qed.

Lemma spec_running_points_app (value : CostRead -> Q) (r1 r2 : list CostRead) :
  forall running,
    spec_running_points value running (r1 ++ r2)
    = (spec_running_points value running r1
       ++ spec_running_points value (sum_after value running r1) r2)%list.
Proof.
  induction r1 as [|r rest IH]; intros running; simpl; [reflexivity|].
  rewrite IH. reflexivity.
Qed.

Lemma last_cons_default {A : Type} (l : list A) :
  forall a d, List.last (a :: l) d = List.last l a.
Proof.
  induction l as [|b l IH]; intros a d; [reflexivity|].
  change (List.last (b :: l) d = List.last (b :: l) a).
  rewrite !IH. reflexivity.
Qed.

Lemma spec_running_points_last (value : CostRead -> Q) (reads : list CostRead) :
  forall running,
    List.last (map sum (spec_running_points value running reads)) running
    = sum_after value running reads.
Proof.
  induction reads as [|r rest IH]; intros running; [reflexivity|].
  cbn [spec_running_points map sum].
  rewrite last_cons_default. apply IH.
Qed.

(** X3.  Walking the day reads followed by the hour reads is walking the
    day reads and then continuing over the hour reads: the second part
    starts from the sums the first part ended with, which are the sums of
    its last points (the prior sums if it emitted nothing), and appends
    to what the first part emitted. *)
Theorem walk_of_concatenation (timestamp : datetime -> Q)
    (last_stats_time : option Q) (first_part second_part : list CostRead)
    (cost_sum consumption_sum : Q) :
  let out := statistics_loop timestamp last_stats_time first_part
                             cost_sum consumption_sum [] [] in
  statistics_loop timestamp last_stats_time (first_part ++ second_part)
                  cost_sum consumption_sum [] []
  = statistics_loop timestamp last_stats_time second_part
      (List.last (map sum (fst out)) cost_sum)
      (List.last (map sum (snd out)) consumption_sum)
      (fst out) (snd out).
Proof.
  intros out. unfold out. rewrite !statistics_loop_points. simpl.
  rewrite !spec_running_points_last.
  unfold not_stored. rewrite List.filter_app, !spec_running_points_app.
  reflexivity.
Qed.

(** ** The calls to the statistics store *)

Lemma list_ascii_of_append (a b : string) :
  list_ascii_of_string (a +:+ b)
  = (list_ascii_of_string a ++ list_ascii_of_string b)%list.
Proof.
  induction a as [|c a IH]; simpl; [reflexivity|]. rewrite IH. reflexivity.
Qed.

Lemma list_ascii_inj (a b : string) :
  list_ascii_of_string a = list_ascii_of_string b -> a = b.
Proof.
  intros H. rewrite <- (string_of_list_ascii_of_string a),
              <- (string_of_list_ascii_of_string b), H. reflexivity.
Qed.

Lemma statistic_id_inj (DOMAIN suffix a b : string) :
  DOMAIN +:+ ":" +:+ Str.join "_" ["elec"; a] +:+ suffix
  = DOMAIN +:+ ":" +:+ Str.join "_" ["elec"; b] +:+ suffix ->
  a = b.
Proof.
  intros H. apply (f_equal list_ascii_of_string) in H.
  cbn [Str.join] in H. rewrite !list_ascii_of_append in H.
  do 2 apply app_inv_head in H. apply app_inv_tail in H.
  do 2 apply app_inv_head in H.
  apply list_ascii_inj, H.
Qed.

(** X4.  The series of two accounts never share a statistic id, and the
    cost series never shares its id with a consumption series, whatever
    the accounts. *)
Theorem statistic_ids_tell_series_apart (DOMAIN a b : string) :
  a <> b ->
  cost_statistic_id_of DOMAIN a <> cost_statistic_id_of DOMAIN b /\
  consumption_statistic_id_of DOMAIN a <> consumption_statistic_id_of DOMAIN b /\
  cost_statistic_id_of DOMAIN a <> consumption_statistic_id_of DOMAIN b /\
  cost_statistic_id_of DOMAIN a <> consumption_statistic_id_of DOMAIN a.
Proof.
  intros Hab.
  assert (Hx : forall x y, cost_statistic_id_of DOMAIN x
                           <> consumption_statistic_id_of DOMAIN y).
  { intros x y H. unfold cost_statistic_id_of, consumption_statistic_id_of in H.
    apply (f_equal list_ascii_of_string) in H.
    cbn [Str.join] in H. rewrite !list_ascii_of_append in H.
    do 2 apply app_inv_head in H.
    change (list_ascii_of_string "_energy_cost")
      with (list_ascii_of_string "_energy_cos" ++ ["t"%char])%list in H.
    change (list_ascii_of_string "_energy_consumption")
      with (list_ascii_of_string "_energy_consumptio" ++ ["n"%char])%list in H.
    rewrite !app_assoc in H. apply app_inj_tail in H as [_ H]. discriminate H. }
  split; [|split; [|split]].
  - intros H. apply Hab. eapply statistic_id_inj, H.
  - intros H. apply Hab. eapply statistic_id_inj, H.
  - apply Hx.
  - apply Hx.
Qed.

(** The statement at two account numbers. *)
Lemma statistic_ids_witness :
  cost_statistic_id_of Cases.DOMAIN "12345678-001_5"
  <> cost_statistic_id_of Cases.DOMAIN "12345678-002_3".
Proof.
  apply (statistic_ids_tell_series_apart Cases.DOMAIN
           "12345678-001_5" "12345678-002_3").
  discriminate.
Defined.

(** X5.  Whenever [_insert_statistics] returns, it has either made no
    call to the store (an incremental run whose recent fetch is empty),
    or exactly two: the cost series first, then the consumption series,
    each with a running sum and no mean, the domain as source, no unit
    for the cost and the energy unit for the consumption, both filed
    under the identifier that [get_account] gives, and both with the same
    timestamps. *)
Theorem store_calls_come_in_pairs (lib : pylib) (DOMAIN KILO_WATT_HOUR : string)
    (timestamp : datetime -> Q) (site : portal) (store : recorder)
    (api : api_state) (calls : list store_call) :
  _insert_statistics lib DOMAIN KILO_WATT_HOUR timestamp site store api = Ok calls ->
  exists a account_id,
    snd (get_account lib site api) = Ok a /\
    utility_account_id a = JStr account_id /\
    ((calls = [] /\
      last_statistics store (consumption_statistic_id_of DOMAIN account_id) <> [] /\
      _async_get_recent_cost_reads lib site = Ok []) \/
     (exists cost_statistics consumption_statistics,
        calls = [ (cost_metadata_of DOMAIN account_id, cost_statistics);
                  (consumption_metadata_of DOMAIN KILO_WATT_HOUR account_id,
                   consumption_statistics) ] /\
        map start cost_statistics = map start consumption_statistics)).
Proof.
  unfold _insert_statistics. intros H.
  destruct (snd (get_account lib site api)) as [a|e]; [|discriminate H].
  cbn [mbind result_bind] in H.
  destruct (utility_account_id a) as [| | | |account_id| |] eqn:Eid;
    try discriminate H.
  cbn [mbind result_bind as_str] in H.
  exists a, account_id. split; [reflexivity|]. split; [exact Eid|].
  destruct (prior_state lib site store (cost_statistic_id_of DOMAIN account_id)
              (consumption_statistic_id_of DOMAIN account_id))
    as [[[[[reads c] n] t]|]|e] eqn:Ep; [| |discriminate H];
    cbn [mbind result_bind] in H.
  - right. rewrite statistics_loop_points in H. injection H as <-.
    eexists _, _. split; [reflexivity|].
    rewrite !spec_running_points_start. reflexivity.
  - left. injection H as <-. split; [reflexivity|].
    unfold prior_state in Ep.
    destruct (last_statistics store (consumption_statistic_id_of DOMAIN account_id))
      as [|row rows].
    + destruct (_async_get_all_cost_reads lib site); discriminate Ep.
    + split; [discriminate|].
      destruct (_async_get_recent_cost_reads lib site) as [[|first rest]|e];
        [reflexivity | | discriminate Ep].
      cbn [mbind result_bind] in Ep.
      destruct (first_row _ (cost_statistic_id_of DOMAIN account_id));
        [|discriminate Ep].
      cbn [mbind result_bind] in Ep.
      destruct (first_row _ (consumption_statistic_id_of DOMAIN account_id));
        discriminate Ep.
Qed.

(** The statement at the household: two calls, filed under the account
    number with its space replaced. *)
Lemma store_calls_witness :
  exists cost_statistics consumption_statistics,
    _insert_statistics (Sample.lib Cases.household_bodies) Cases.DOMAIN "kWh"
      utc_timestamp Cases.household Cases.household_store Cases.logged_in
    = Ok [ (cost_metadata_of Cases.DOMAIN "12345678-001_5", cost_statistics);
           (consumption_metadata_of Cases.DOMAIN "kWh" "12345678-001_5",
            consumption_statistics) ].
Proof.
  pose (calls := [ (cost_metadata_of Cases.DOMAIN "12345678-001_5",
                    @nil StatisticData);
                   (consumption_metadata_of Cases.DOMAIN "kWh" "12345678-001_5",
                    @nil StatisticData) ]).
  assert (Hrun : _insert_statistics (Sample.lib Cases.household_bodies)
                   Cases.DOMAIN "kWh" utc_timestamp Cases.household
                   Cases.household_store Cases.logged_in = Ok calls)
    by (vm_compute; reflexivity).
  destruct (store_calls_come_in_pairs _ _ _ _ _ _ _ _ Hrun)
    as (a & account_id & Ha & Hid & [(Hnil & _) | (cs & ns & Hcalls & _)]).
  - discriminate Hnil.
  - vm_compute in Ha. injection Ha as <-. injection Hid as <-.
    exists cs, ns. rewrite Hrun, Hcalls. reflexivity.
Defined.

(** X6.  An incremental run whose recent fetch is not empty needs a row
    of both series in the reply of [statistics_during_period]: when the
    cost series or the consumption series is missing from the reply,
    [_insert_statistics] raises [KeyError], and when its list of rows is
    empty, [IndexError]; nothing is sent to the store. *)
Theorem incremental_run_needs_both_series (lib : pylib)
    (DOMAIN KILO_WATT_HOUR : string) (timestamp : datetime -> Q)
    (site : portal) (store : recorder) (api : api_state)
    (a : Account) (account_id : string) (first : CostRead) (rest : list CostRead) :
  snd (get_account lib site api) = Ok a ->
  utility_account_id a = JStr account_id ->
  last_statistics store (consumption_statistic_id_of DOMAIN account_id) <> [] ->
  _async_get_recent_cost_reads lib site = Ok (first :: rest) ->
  let stats := statistics_during_period store (start_time first) in
  let run := _insert_statistics lib DOMAIN KILO_WATT_HOUR timestamp site store api in
  (stats !! cost_statistic_id_of DOMAIN account_id = None -> run = Err KeyError) /\
  (stats !! cost_statistic_id_of DOMAIN account_id = Some [] ->
   run = Err IndexError) /\
  (forall row rows,
     stats !! cost_statistic_id_of DOMAIN account_id = Some (row :: rows) ->
     (stats !! consumption_statistic_id_of DOMAIN account_id = None ->
      run = Err KeyError) /\
     (stats !! consumption_statistic_id_of DOMAIN account_id = Some [] ->
      run = Err IndexError)).
Proof.
  intros Ha Hid Hlast Hreads stats run.
  assert (Hrun : run =
            (c ← first_row stats (cost_statistic_id_of DOMAIN account_id);
             n ← first_row stats (consumption_statistic_id_of DOMAIN account_id);
             t ← first_row stats (cost_statistic_id_of DOMAIN account_id);
             let '(cs, ns) :=
               statistics_loop timestamp (Some (row_start t)) (first :: rest)
                               (row_sum c) (row_sum n) [] [] in
             Ok [ (cost_metadata_of DOMAIN account_id, cs);
                  (consumption_metadata_of DOMAIN KILO_WATT_HOUR account_id, ns) ])).
  { unfold run, _insert_statistics. rewrite Ha.
    cbn [mbind result_bind]. rewrite Hid. cbn [mbind result_bind as_str].
    unfold prior_state.
    destruct (last_statistics store (consumption_statistic_id_of DOMAIN account_id))
      as [|row rows]; [contradiction|].
    rewrite Hreads. cbn [mbind result_bind]. fold stats.
    destruct (first_row stats (cost_statistic_id_of DOMAIN account_id)) as [c|e];
      [|reflexivity].
    cbn [mbind result_bind].
    destruct (first_row stats (consumption_statistic_id_of DOMAIN account_id))
      as [n|e]; reflexivity. }
  rewrite Hrun. unfold first_row.
  split; [|split].
  - intros ->. reflexivity.
  - intros ->. reflexivity.
  - intros row rows ->. split; intros ->; reflexivity.
Qed.

(** The statement at the household and a recorder that answers the
    period query with nothing. *)
Lemma incremental_run_needs_both_series_witness :
  _insert_statistics (Sample.lib Cases.household_bodies) Cases.DOMAIN "kWh"
    utc_timestamp Cases.household Cases.silent_store Cases.logged_in
  = Err KeyError.
Proof.
  edestruct (incremental_run_needs_both_series (Sample.lib Cases.household_bodies)
               Cases.DOMAIN "kWh" utc_timestamp Cases.household
               Cases.silent_store Cases.logged_in) as [H _].
  - vm_compute. reflexivity.
  - reflexivity.
  - vm_compute. discriminate.
  - vm_compute. reflexivity.
  - apply H. reflexivity.
Defined.

(** ** Accounts *)

Lemma replace_space_cons (c : ascii) (s : string) :
  Str.replace " " "_" (String c s)
  = String (if Ascii.eqb " " c then "_"%char else c) (Str.replace " " "_" s).
Proof.
  unfold Str.replace. cbn [Str.replace_from Str.starts_with].
  destruct (Ascii.eqb " " c); destruct s; reflexivity.
Qed.

Lemma contains_space_cons (c : ascii) (s : string) :
  contains " " (String c s) = Ascii.eqb " " c || contains " " s.
Proof.
  cbn [contains Str.starts_with]. destruct (Ascii.eqb " " c); destruct s; reflexivity.
Qed.

Lemma replace_space_facts (s : string) :
  contains " " (Str.replace " " "_" s) = false /\
  String.length (Str.replace " " "_" s) = String.length s /\
  (contains " " s = false -> Str.replace " " "_" s = s).
Proof.
  induction s as [|c s (IH1 & IH2 & IH3)]; [repeat split|].
  rewrite replace_space_cons, !contains_space_cons.
  destruct (Ascii.eqb " " c) eqn:E.
  - repeat split; [exact IH1 | simpl; congruence | discriminate].
  - rewrite E. repeat split; [exact IH1 | simpl; congruence |].
    simpl. intros H. rewrite (IH3 H). reflexivity.
Qed.

Lemma replace_space_get (s : string) : spaces_replaced s (Str.replace " " "_" s).
Proof.
  unfold spaces_replaced.
  induction s as [|c s IH]; intros i; [destruct i; reflexivity|].
  rewrite replace_space_cons.
  destruct i as [|i]; cbn [String.get].
  - rewrite (Ascii.eqb_sym c " "). reflexivity.
  - apply IH.
Qed.

Lemma _get_account_account (lib : pylib) (site : portal) (api : api_state)
    (acct : json) :
  snd (_get_account lib site api) = Ok acct ->
  account (fst (_get_account lib site api)) = acct.
Proof.
  unfold _get_account.
  destruct (truthy (account api)) eqn:Et; [simpl; congruence|].
  destruct (login lib site api) as [api1 [[]|e]]; [|simpl; discriminate].
  match goal with |- context [if ?b then _ else _] => destruct b end;
    simpl; congruence.
Qed.

(** X7.  What [get_account] gives is read from the cached account, the
    one that [_get_account] returns: [uuid] is its [accountNumber] as it
    is, and [utility_account_id] is that number with each space turned
    into an underscore, so it has no space, is as long as the number and
    is the number itself when that has no space; the customer is the
    cached customer. *)
Theorem get_account_key_has_no_space (lib : pylib) (site : portal)
    (api : api_state) (a : Account) :
  snd (get_account lib site api) = Ok a ->
  exists acct number key,
    snd (_get_account lib site api) = Ok acct /\
    account (fst (get_account lib site api)) = acct /\
    getitem acct "accountNumber" = Ok (JStr number) /\
    customer_uuid (customer a) = customer_id (fst (get_account lib site api)) /\
    uuid a = JStr number /\
    utility_account_id a = JStr key /\
    spaces_replaced number key /\
    contains " " key = false /\
    String.length key = String.length number /\
    (contains " " number = false -> key = number).
Proof.
  intros H.
  pose proof (_get_account_account lib site api) as Hcache.
  unfold get_account in *.
  destruct (_get_account lib site api) as [api1 r]. simpl in *.
  destruct r as [acct|e]; [|discriminate].
  cbn [mbind result_bind] in H.
  destruct (getitem acct "accountNumber") as [number|e] eqn:En; [|discriminate].
  cbn [mbind result_bind] in H.
  destruct number as [| | | |number| |]; try discriminate.
  cbn [mbind result_bind replace_spaces] in H. injection H as <-.
  exists acct, number, (Str.replace " " "_" number). simpl.
  split; [reflexivity|]. split; [apply Hcache; reflexivity|].
  split; [exact En|]. split; [reflexivity|]. split; [reflexivity|].
  split; [reflexivity|]. split; [apply replace_space_get|].
  apply replace_space_facts.
Qed.

(** The statement at the household, whose account number has a space. *)
Lemma get_account_key_witness :
  exists a,
    snd (get_account (Sample.lib Cases.household_bodies) Cases.household
                     Cases.logged_in) = Ok a /\
    getitem (account Cases.logged_in) "accountNumber" = Ok (JStr "12345678-001 5") /\
    uuid a = JStr "12345678-001 5" /\
    utility_account_id a = JStr "12345678-001_5" /\
    exists key, utility_account_id a = JStr key /\ contains " " key = false.
Proof.
  assert (H : snd (get_account (Sample.lib Cases.household_bodies)
                     Cases.household Cases.logged_in)
              = Ok {| customer := {| customer_uuid := JInt 7 |};
                      uuid := JStr "12345678-001 5";
                      utility_account_id := JStr "12345678-001_5" |})
    by (vm_compute; reflexivity).
  destruct (get_account_key_has_no_space _ _ _ _ H)
    as (acct & number & key & _ & _ & _ & _ & _ & Hk & _ & Hnone & _).
  eexists. split; [exact H|].
  split; [vm_compute; reflexivity|]. split; [reflexivity|].
  split; [reflexivity|]. exists key. split; [exact Hk | exact Hnone].
Defined.

(** X8.  An account that [_get_account] returns is never empty and is
    cached: asking again, on any portal, returns the same account
    without going back to the site. *)
Theorem _get_account_caches (lib : pylib) (site : portal) (api api' : api_state)
    (acct : json) :
  _get_account lib site api = (api', Ok acct) ->
  truthy acct = true /\
  account api' = acct /\
  forall site', _get_account lib site' api' = (api', Ok acct).
Proof.
  unfold _get_account at 1.
  destruct (truthy (account api)) eqn:Et.
  - intros [= <- <-]. split; [exact Et|]. split; [reflexivity|].
    intros site'. unfold _get_account. rewrite Et. reflexivity.
  - destruct (login lib site api) as [api1 [[]|e]]; [|discriminate].
    cbn [account].
    destruct (truthy (u_account (utility api1))) eqn:Eu; [|discriminate].
    intros [= <- <-]. split; [exact Eu|]. split; [reflexivity|].
    intros site'. unfold _get_account. cbn [account]. rewrite Eu. reflexivity.
Qed.

(** The statement at the household, asked again on a portal that cannot
    be reached. *)
Lemma _get_account_witness :
  exists api' acct,
    _get_account (Sample.lib Cases.household_bodies) Cases.household new_api
      = (api', Ok acct) /\
    _get_account (Sample.lib Cases.household_bodies) Cases.no_identity api'
      = (api', Ok acct).
Proof.
  eexists _, _.
  assert (H : _get_account (Sample.lib Cases.household_bodies) Cases.household
                new_api = (Cases.logged_in,
                           Ok (JObj [("accountNumber", JStr "12345678-001 5")])))
    by (vm_compute; reflexivity).
  split; [exact H|].
  apply (_get_account_caches _ _ _ _ _ H).
Defined.

(** ** Forecasts *)

Lemma get_forecast_cases (lib : pylib) (site : portal) (today : Z)
    (api : api_state) (fs : list Forecast) :
  snd (get_forecast lib site today api) = Ok fs ->
  fs = [] \/
  exists f, fs = [f] /\
            current_date f = today /\
            customer_uuid (customer (forecast_account f)) = customer_id api /\
            getitem (account api) "accountNumber" = Ok (uuid (forecast_account f)).
Proof.
  unfold get_forecast.
  destruct (utility_get_forecast lib site (utility api)) as [u r].
  cbn [snd account customer_id]. intros H.
  destruct r as [body|e]; [|discriminate H]. cbn [mbind result_bind] in H.
  destruct (truthy (u_forecast u)); [|injection H as <-; left; reflexivity].
  right. bind_inv H. injection H as <-. eexists. split; [reflexivity|].
  cbn. auto.
Qed.

(** X9.  [get_forecast] returns at most one forecast, dated today and
    owned by the cached customer and account.  When the energy usage
    page cannot be reached, the exception of that step is what
    [get_forecast] raises, and the cached account and customer stay as
    they were.  When the meter response has no
    [getMeterTypeResponseBody], there is no forecast and no error. *)
Theorem get_forecast_gives_at_most_one (lib : pylib) (site : portal)
    (today : Z) (api : api_state) :
  (forall fs,
     snd (get_forecast lib site today api) = Ok fs ->
     (length fs <= 1)%nat /\
     Forall (fun f =>
               current_date f = today /\
               customer_uuid (customer (forecast_account f)) = customer_id api /\
               getitem (account api) "accountNumber"
                 = Ok (uuid (forecast_account f))) fs) /\
  (forall e,
     energy_usage_reached site = Err e ->
     snd (get_forecast lib site today api) = Err e /\
     account (fst (get_forecast lib site today api)) = account api /\
     customer_id (fst (get_forecast lib site today api)) = customer_id api /\
     utility (fst (get_forecast lib site today api)) = utility api) /\
  (forall fields,
     energy_usage_reached site = Ok tt ->
     captured_json lib (energy_usage_captures site ∪ u_xhrs (utility api))
                   URL_METER_TYPE = Ok (JObj fields) ->
     assoc "getMeterTypeResponseBody" fields = None ->
     snd (get_forecast lib site today api) = Ok []).
Proof.
  split; [|split].
  - intros fs H. apply get_forecast_cases in H as [-> | (f & -> & H)].
    + split; [simpl; lia | constructor].
    + split; [simpl; lia | constructor; [exact H | constructor]].
  - intros e He. unfold get_forecast, utility_get_forecast. rewrite He.
    repeat split.
  - intros fields Hpage Hjson Hkey.
    unfold get_forecast, utility_get_forecast. rewrite Hpage.
    cbn [get_xhrs u_xhrs]. rewrite Hjson.
    cbn [mbind result_bind dict_get]. rewrite Hkey. reflexivity.
Qed.

(** The statement at the household (one forecast) and at a portal whose
    energy usage page shows another title. *)
Lemma get_forecast_witness :
  (exists f,
     snd (get_forecast (Sample.lib Cases.household_bodies) Cases.household
                       Cases.today Cases.logged_in) = Ok [f] /\
     current_date f = Cases.today) /\
  snd (get_forecast (Sample.lib Cases.household_bodies) Cases.wrong_title
                    Cases.today Cases.logged_in) = Err CannotConnect.
Proof.
  split.
  - destruct (get_forecast (Sample.lib Cases.household_bodies) Cases.household
                Cases.today Cases.logged_in) as [api' [fs|e]] eqn:E;
      [|vm_compute in E; discriminate E].
    pose proof (proj1 (get_forecast_gives_at_most_one
                         (Sample.lib Cases.household_bodies) Cases.household
                         Cases.today Cases.logged_in) fs) as H.
    rewrite E in H. destruct (H eq_refl) as [Hlen Hall].
    vm_compute in E. injection E as _ <-.
    eexists. split; [reflexivity|].
    inversion Hall as [|f fs' (Hdate & _) _]. exact Hdate.
  - apply (proj1 (proj2 (get_forecast_gives_at_most_one
                           (Sample.lib Cases.household_bodies) Cases.wrong_title
                           Cases.today Cases.logged_in)) CannotConnect).
    reflexivity.
Defined.

(** ** Failed logins *)

Lemma utility_login_early (lib : pylib) (site : portal) (u : utility_state) :
  browser_started site = true ->
  (sign_in_reached site = false ->
   utility_login lib site u = (u, Err CannotConnect)) /\
  (sign_in_reached site = true -> login_frame_found site = true ->
   login_form_found site = true -> my_account_reached site = false ->
   utility_login lib site u = (u, Err InvalidAuth)).
Proof.
  intros Hb. unfold utility_login. rewrite Hb. split.
  - intros ->. reflexivity.
  - intros -> -> -> ->. reflexivity.
Qed.

Lemma login_missing_identity (lib : pylib) (site : portal) (api : api_state) :
  browser_started site = true -> sign_in_reached site = true ->
  login_frame_found site = true -> login_form_found site = true ->
  my_account_reached site = true ->
  (login_captures site ∪ u_xhrs (utility api)) !! URL_ME = None ->
  snd (login lib site api) = Err KeyError.
Proof.
  intros H1 H2 H3 H4 H5 Hme. unfold login, utility_login.
  rewrite H1, H2, H3, H4, H5. cbn [negb get_xhrs u_xhrs].
  unfold captured_user_id, captured_json. rewrite Hme. reflexivity.
Qed.

(** X10.  [_validate_login] reports no error exactly when the login
    succeeds.  A page that never shows "Sign in" is reported as
    [cannot_connect], a page that never shows "My account" after the
    form is sent as [invalid_auth]; a login that reaches "My account"
    without the identity response in the capture buffer is reported as
    neither: its [KeyError] leaves [_validate_login]. *)
Theorem validate_login_reports (lib : pylib) (site : portal) :
  browser_started site = true ->
  (_validate_login lib site = Ok ∅ <-> snd (login lib site new_api) = Ok tt) /\
  (sign_in_reached site = false ->
   _validate_login lib site = Ok {[ "base" := "cannot_connect" ]}) /\
  (sign_in_reached site = true -> login_frame_found site = true ->
   login_form_found site = true -> my_account_reached site = false ->
   _validate_login lib site = Ok {[ "base" := "invalid_auth" ]}) /\
  (sign_in_reached site = true -> login_frame_found site = true ->
   login_form_found site = true -> my_account_reached site = true ->
   login_captures site !! URL_ME = None ->
   _validate_login lib site = Err KeyError).
Proof.
  intros Hb.
  destruct (utility_login_early lib site new_utility Hb) as [Hcc Hia].
  split; [|split; [|split]].
  - unfold _validate_login.
    destruct (snd (login lib site new_api)) as [[]|e]; [split; reflexivity|].
    split; [|discriminate].
    destruct e; intros H; try discriminate H; injection H as H; exfalso;
      apply (f_equal (lookup "base")) in H;
      rewrite lookup_singleton_eq, lookup_empty in H; discriminate H.
  - intros Hs. unfold _validate_login, login. cbn [utility new_api].
    rewrite (Hcc Hs). reflexivity.
  - intros H2 H3 H4 H5. unfold _validate_login, login. cbn [utility new_api].
    rewrite (Hia H2 H3 H4 H5). reflexivity.
  - intros H2 H3 H4 H5 Hme. unfold _validate_login.
    rewrite (login_missing_identity lib site new_api Hb H2 H3 H4 H5);
      [reflexivity|].
    cbn [utility new_api u_xhrs new_utility].
    rewrite lookup_union, Hme, lookup_empty. reflexivity.
Qed.

(** The statement at a rejected password, at a login without the
    identity response and at the household. *)
Lemma validate_login_witness :
  _validate_login (Sample.lib Cases.household_bodies) Cases.rejected
    = Ok {[ "base" := "invalid_auth" ]} /\
  _validate_login (Sample.lib Cases.household_bodies) Cases.no_identity
    = Err KeyError /\
  _validate_login (Sample.lib Cases.household_bodies) Cases.household = Ok ∅.
Proof.
  split; [|split].
  - apply (validate_login_reports (Sample.lib Cases.household_bodies)
             Cases.rejected eq_refl); reflexivity.
  - apply (validate_login_reports (Sample.lib Cases.household_bodies)
             Cases.no_identity eq_refl); reflexivity.
  - apply (validate_login_reports (Sample.lib Cases.household_bodies)
             Cases.household eq_refl).
    vm_compute. reflexivity.
Defined.

(** ** The update cycle *)

(** X11.  In [_async_update_data], a login that raises, or a forecast
    fetch that raises, ends the cycle before any call to the statistics
    store and before any data is returned: an [InvalidAuth] of the login
    leaves as [ConfigEntryAuthFailed], any other exception as itself.  So
    a portal that never shows "My account" gives [ConfigEntryAuthFailed]
    and one that never shows "Sign in" gives [CannotConnect], both with
    the cached account untouched and the session ended once. *)
Theorem update_cycle_stops_at_failures (lib : pylib)
    (DOMAIN KILO_WATT_HOUR : string) (timestamp : datetime -> Q)
    (site : portal) (store : recorder) (today : Z) (api : api_state) :
  let cycle := _async_update_data lib DOMAIN KILO_WATT_HOUR timestamp
                                  site store today api in
  (forall e,
     snd (login lib site api) = Err e ->
     cycle_store_calls cycle = [] /\
     cycle_api cycle = fst (login lib site api) /\
     cycle_result cycle
     = UpdateFailed match e with
                    | InvalidAuth => ConfigEntryAuthFailed
                    | _ => Propagated e
                    end) /\
  (forall e,
     snd (login lib site api) = Ok tt ->
     snd (get_forecast lib site today (fst (login lib site api))) = Err e ->
     cycle_store_calls cycle = [] /\
     cycle_result cycle = UpdateFailed (Propagated e)) /\
  (browser_started site = true -> sign_in_reached site = true ->
   login_frame_found site = true -> login_form_found site = true ->
   my_account_reached site = false ->
   cycle_result cycle = UpdateFailed ConfigEntryAuthFailed /\
   cycle_store_calls cycle = [] /\
   cycle_sessions_ended cycle = 1%nat /\
   account (cycle_api cycle) = account api /\
   customer_id (cycle_api cycle) = customer_id api) /\
  (browser_started site = true -> sign_in_reached site = false ->
   cycle_result cycle = UpdateFailed (Propagated CannotConnect) /\
   cycle_store_calls cycle = [] /\
   cycle_sessions_ended cycle = 1%nat /\
   account (cycle_api cycle) = account api /\
   customer_id (cycle_api cycle) = customer_id api).
Proof.
  intros cycle. unfold cycle, _async_update_data.
  split; [|split; [|split]].
  - intros e He. destruct (login lib site api) as [api1 r].
    cbn [snd fst] in *. subst r. destruct e; repeat split.
  - intros e Hl Hf. destruct (login lib site api) as [api1 r].
    cbn [snd fst] in *. subst r.
    destruct (get_forecast lib site today api1) as [api2 r].
    cbn [snd] in Hf. subst r. repeat split.
  - intros H1 H2 H3 H4 H5. unfold login.
    rewrite (proj2 (utility_login_early lib site (utility api) H1) H2 H3 H4 H5).
    repeat split.
  - intros H1 H2. unfold login.
    rewrite (proj1 (utility_login_early lib site (utility api) H1) H2).
    repeat split.
Qed.

(** The statement at a rejected password: no store call, and
    [ConfigEntryAuthFailed]. *)
Lemma update_cycle_witness :
  cycle_result (_async_update_data (Sample.lib Cases.household_bodies)
                  Cases.DOMAIN "kWh" utc_timestamp Cases.rejected
                  Cases.household_store Cases.today new_api)
    = UpdateFailed ConfigEntryAuthFailed /\
  cycle_store_calls (_async_update_data (Sample.lib Cases.household_bodies)
                       Cases.DOMAIN "kWh" utc_timestamp Cases.rejected
                       Cases.household_store Cases.today new_api) = [].
Proof.
  destruct (update_cycle_stops_at_failures (Sample.lib Cases.household_bodies)
              Cases.DOMAIN "kWh" utc_timestamp Cases.rejected
              Cases.household_store Cases.today new_api)
    as (_ & _ & H & _).
  destruct (H eq_refl eq_refl eq_refl eq_refl eq_refl) as (Hr & Hc & _).
  split; assumption.
Defined.

(** X12.  When [_async_update_data] returns data, the statistics were
    inserted first: the calls made to the store are those of
    [_insert_statistics] on the session that fetched the forecast, and
    the data holds at most one forecast, under the identifier of the
    account inside it. *)
Theorem update_cycle_returns_after_statistics (lib : pylib)
    (DOMAIN KILO_WATT_HOUR : string) (timestamp : datetime -> Q)
    (site : portal) (store : recorder) (today : Z) (api : api_state)
    (data : list (json * Forecast)) :
  let cycle := _async_update_data lib DOMAIN KILO_WATT_HOUR timestamp
                                  site store today api in
  cycle_result cycle = UpdateData data ->
  snd (login lib site api) = Ok tt /\
  (length data <= 1)%nat /\
  Forall (fun kv => fst kv = utility_account_id (forecast_account (snd kv))) data /\
  snd (get_forecast lib site today (fst (login lib site api))) = Ok (map snd data) /\
  _insert_statistics lib DOMAIN KILO_WATT_HOUR timestamp site store
    (fst (get_forecast lib site today (fst (login lib site api))))
  = Ok (cycle_store_calls cycle).
Proof.
  intros cycle. unfold cycle, _async_update_data.
  destruct (login lib site api) as [api1 [[]|e]]; cbn [fst snd];
    [|destruct e; discriminate].
  destruct (get_forecast lib site today api1) as [api2 [fs|e]] eqn:Ef;
    cbn [fst snd]; [|discriminate].
  destruct (_insert_statistics lib DOMAIN KILO_WATT_HOUR timestamp site store api2)
    as [calls|e]; [|discriminate].
  cbn [cycle_result cycle_store_calls].
  assert (Hfs : snd (get_forecast lib site today api1) = Ok fs)
    by (rewrite Ef; reflexivity).
  apply get_forecast_cases in Hfs.
  destruct Hfs as [-> | (f & -> & _)]; cbn [forecasts_by_account map_result].
  - intros [= <-]. repeat split; [simpl; lia | constructor].
  - cbn [mbind result_bind].
    destruct (hashable (utility_account_id (forecast_account f))); [|discriminate].
    cbn [mbind result_bind]. intros [= <-].
    repeat split; [simpl; lia | constructor; [reflexivity | constructor]].
Qed.

(** The statement at the household. *)
Lemma update_cycle_data_witness :
  exists f calls,
    cycle_result (_async_update_data (Sample.lib Cases.household_bodies)
                    Cases.DOMAIN "kWh" utc_timestamp Cases.household
                    Cases.household_store Cases.today new_api)
      = UpdateData [(JStr "12345678-001 5", f)] /\
    _insert_statistics (Sample.lib Cases.household_bodies) Cases.DOMAIN "kWh"
      utc_timestamp Cases.household Cases.household_store
      (fst (get_forecast (Sample.lib Cases.household_bodies) Cases.household
              Cases.today
              (fst (login (Sample.lib Cases.household_bodies) Cases.household
                          new_api))))
      = Ok calls /\
    length calls = 2%nat.
Proof.
  eexists _, _.
  assert (H : cycle_result (_async_update_data (Sample.lib Cases.household_bodies)
                    Cases.DOMAIN "kWh" utc_timestamp Cases.household
                    Cases.household_store Cases.today new_api)
              = UpdateData [(JStr "12345678-001 5", _)])
    by (vm_compute; reflexivity).
  split; [exact H|].
  destruct (update_cycle_returns_after_statistics _ _ _ _ _ _ _ _ _ H)
    as (_ & _ & _ & _ & Hcalls).
  split; [exact Hcalls|]. vm_compute. reflexivity.
Defined.

(** ** The capture buffer *)

Lemma collect_xhrs_app (response_body : string -> option string)
    (pre post : list response_log) :
  forall xhrs : gmap string string,
    collect_xhrs response_body (pre ++ post) xhrs
    = collect_xhrs response_body post (collect_xhrs response_body pre xhrs).
Proof.
  induction pre as [|log pre IH]; intros xhrs; simpl; [reflexivity|].
  destruct (log_filter log); [|apply IH].
  destruct (response_body (log_requestId log)); apply IH.
Qed.

Lemma collect_xhrs_untouched (response_body : string -> option string)
    (url : string) (logs : list response_log) :
  Forall (fun log => captures response_body url log = false) logs ->
  forall xhrs : gmap string string,
    collect_xhrs response_body logs xhrs !! url = xhrs !! url.
Proof.
  induction 1 as [|log logs Hlog _ IH]; intros xhrs; simpl; [reflexivity|].
  unfold captures in Hlog.
  destruct (log_filter log); [|apply IH].
  destruct (response_body (log_requestId log)) as [body|]; [|apply IH].
  rewrite IH. simpl in Hlog. rewrite andb_true_r in Hlog.
  apply String.eqb_neq in Hlog. apply lookup_insert_ne, Hlog.
Qed.

(** X13.  [get_xhrs] only adds to the capture buffer: a URL that was in
    the buffer is still in it afterwards, with the same body unless the
    log holds a JSON response for that URL whose body could be fetched;
    messages that are not responses, responses that are not JSON and
    responses whose body cannot be fetched change nothing; and the cached
    user, account and forecast are not touched. *)
Theorem get_xhrs_only_adds (response_body : string -> option string)
    (logs : list response_log) (u : utility_state) (url : string) :
  let u' := get_xhrs_of_log response_body logs u in
  (is_Some (u_xhrs u !! url) -> is_Some (u_xhrs u' !! url)) /\
  (Forall (fun log => captures response_body url log = false) logs ->
   u_xhrs u' !! url = u_xhrs u !! url) /\
  (Forall (fun log => log_filter log = false
                      \/ response_body (log_requestId log) = None) logs ->
   u_xhrs u' = u_xhrs u) /\
  u_user_id u' = u_user_id u /\ u_account u' = u_account u /\
  u_forecast u' = u_forecast u.
Proof.
  intros u'. unfold u', get_xhrs_of_log, get_xhrs. cbn [u_xhrs u_user_id u_account u_forecast].
  split; [|split; [|split; [|repeat split]]].
  - intros [body Hbody]. rewrite lookup_union.
    rewrite Hbody. destruct (collect_xhrs response_body logs ∅ !! url); eauto.
  - intros Hnone. rewrite lookup_union, (collect_xhrs_untouched _ _ _ Hnone).
    rewrite lookup_empty. destruct (u_xhrs u !! url); reflexivity.
  - intros Hnone. apply map_eq. intros k.
    rewrite lookup_union, (collect_xhrs_untouched _ k).
    + rewrite lookup_empty. destruct (u_xhrs u !! k); reflexivity.
    + eapply List.Forall_impl; [|exact Hnone]. intros log Hlog. unfold captures.
      destruct Hlog as [-> | ->]; [reflexivity|].
      apply andb_false_r.
Qed.

(** X14.  After [get_xhrs], a URL holds the body of the last JSON
    response of the log for that URL whose body could be fetched,
    whatever the buffer held for it before. *)
Theorem get_xhrs_keeps_the_last_response (response_body : string -> option string)
    (pre post : list response_log) (log : response_log) (body : string)
    (u : utility_state) :
  log_filter log = true ->
  response_body (log_requestId log) = Some body ->
  Forall (fun later => captures response_body (log_url log) later = false) post ->
  u_xhrs (get_xhrs_of_log response_body (pre ++ log :: post) u) !! log_url log
  = Some body.
Proof.
  intros Hf Hb Hpost. unfold get_xhrs_of_log, get_xhrs. cbn [u_xhrs].
  rewrite lookup_union, collect_xhrs_app. cbn [collect_xhrs].
  rewrite Hf, Hb, (collect_xhrs_untouched _ _ _ Hpost), lookup_insert_eq.
  destruct (u_xhrs u !! log_url log); reflexivity.
Qed.

(** The two statements at [Cases.performance_log]: the day view holds the
    body of its second response, the identity response is still there
    and the image is not captured. *)
Lemma get_xhrs_witness :
  let u' := get_xhrs_of_log Cases.bodies_by_request Cases.performance_log
                            Cases.session_with_identity in
  u_xhrs u' !! URL_ME = Some "me" /\
  u_xhrs u' !! "https://csapps.rockymountainpower.net/logo.png" = None.
Proof.
  intros u'. split.
  - unfold u'.
    rewrite (proj1 (proj2 (get_xhrs_only_adds Cases.bodies_by_request
                             Cases.performance_log
                             Cases.session_with_identity URL_ME))).
    + reflexivity.
    + repeat constructor.
  - unfold u'.
    rewrite (proj1 (proj2 (get_xhrs_only_adds Cases.bodies_by_request
                             Cases.performance_log Cases.session_with_identity
                             "https://csapps.rockymountainpower.net/logo.png"))).
    + reflexivity.
    + repeat constructor.
Defined.

Lemma get_xhrs_last_witness :
  u_xhrs (get_xhrs_of_log Cases.bodies_by_request Cases.performance_log
                          Cases.session_with_identity) !! Cases.day_url
  = Some "october".
Proof.
  apply (get_xhrs_keeps_the_last_response Cases.bodies_by_request
           (firstn 2 Cases.performance_log) (skipn 3 Cases.performance_log)
           {| log_method := "Network.responseReceived";
              log_mimeType := "application/json";
              log_url := Cases.day_url; log_requestId := "41.7" |}
           "october" Cases.session_with_identity).
  - reflexivity.
  - reflexivity.
  - repeat constructor.
Defined.

(** ** Answers of an unexpected shape *)

Lemma page_loop_once (lib : pylib) (entries : json -> result (list usage_entry))
    (prev : nat -> previous_outcome) (k : nat) (body : string) :
  page_loop lib entries prev 1 k body [] = loads lib body ≫= entries.
Proof.
  simpl. destruct (loads lib body) as [details|e]; [|reflexivity]. simpl.
  destruct (entries details); reflexivity.
Qed.

(** X15.  An answer without line items gives no reads and no error, at
    each resolution: the three nested lookups fall back on an empty
    value when the body key, the list key or the item key is missing. *)
Theorem answer_without_items_gives_no_reads (lib : pylib) (site : portal)
    (body : string) (details : json) (k1 k2 k3 : string) :
  loads lib body = Ok details ->
  ((exists fields, details = JObj fields /\ assoc k1 fields = None) \/
   (exists fields f1,
      details = JObj fields /\ assoc k1 fields = Some (JObj f1) /\
      assoc k2 f1 = None) \/
   (exists fields f1 f2,
      details = JObj fields /\ assoc k1 fields = Some (JObj f1) /\
      assoc k2 f1 = Some (JObj f2) /\ assoc k3 f2 = None)) ->
  line_items details k1 k2 k3 = Ok [] /\
  (k1 = "getUsageHistoryAndGraphDataV1ResponseBody" -> k2 = "usageHistory" ->
   k3 = "usageHistoryLineItem" -> monthly site = Ok body ->
   forall period, get_cost_reads lib site MONTH period = Ok []) /\
  (k1 = "getUsageForDateRangeResponseBody" -> k2 = "dailyUsageList" ->
   k3 = "usgHistoryLineItem" -> opened (daily site) = Ok body ->
   get_cost_reads lib site DAY 1 = Ok []) /\
  (k1 = "getIntervalUsageForDateResponseBody" -> k2 = "response" ->
   k3 = "intervalDataResponse" -> opened (hourly site) = Ok body ->
   get_cost_reads lib site HOUR 1 = Ok []).
Proof.
  intros Hload Hmissing.
  assert (Hitems : line_items details k1 k2 k3 = Ok []).
  { unfold line_items.
    destruct Hmissing as [(fields & -> & H1)
                         | [(fields & f1 & -> & H1 & H2)
                           | (fields & f1 & f2 & -> & H1 & H2 & H3)]];
      cbn [dict_get mbind result_bind]; rewrite H1; cbn [dict_get mbind result_bind assoc];
      try rewrite H2; cbn [dict_get mbind result_bind assoc];
      try rewrite H3; reflexivity. }
  split; [exact Hitems|]. split; [|split].
  - intros -> -> -> Hsite period.
    unfold get_cost_reads, _get_dated_data, get_usage_by_month, month_entries.
    rewrite Hsite. cbn [mbind result_bind]. rewrite Hload.
    cbn [mbind result_bind]. rewrite Hitems. reflexivity.
  - intros -> -> -> Hsite.
    unfold get_cost_reads, _get_dated_data, get_usage_by_day.
    rewrite Hsite. cbn [mbind result_bind].
    change (Z.to_nat 1) with 1%nat. rewrite page_loop_once, Hload.
    cbn [mbind result_bind]. unfold day_entries. rewrite Hitems. reflexivity.
  - intros -> -> -> Hsite.
    unfold get_cost_reads, _get_dated_data, get_usage_by_hour.
    rewrite Hsite. cbn [mbind result_bind].
    change (Z.to_nat 1) with 1%nat. rewrite page_loop_once, Hload.
    cbn [mbind result_bind]. unfold hour_entries. rewrite Hitems. reflexivity.
Qed.

(** The statement at an answer that only holds a return status. *)
Lemma answer_without_items_witness :
  get_cost_reads (Sample.lib Cases.odd_bodies) (Cases.answers "nothing") MONTH 1
    = Ok [] /\
  get_cost_reads (Sample.lib Cases.odd_bodies) (Cases.answers "nothing") DAY 1
    = Ok [].
Proof.
  split.
  - destruct (answer_without_items_gives_no_reads (Sample.lib Cases.odd_bodies)
                (Cases.answers "nothing") "nothing"
                (JObj [("operationResult", JObj [("returnStatus", JInt 1)])])
                "getUsageHistoryAndGraphDataV1ResponseBody" "usageHistory"
                "usageHistoryLineItem" eq_refl) as (_ & H & _).
    + left. eexists. split; reflexivity.
    + apply H; reflexivity.
  - destruct (answer_without_items_gives_no_reads (Sample.lib Cases.odd_bodies)
                (Cases.answers "nothing") "nothing"
                (JObj [("operationResult", JObj [("returnStatus", JInt 1)])])
                "getUsageForDateRangeResponseBody" "dailyUsageList"
                "usgHistoryLineItem" eq_refl) as (_ & _ & H & _).
    + left. eexists. split; reflexivity.
    + apply H; reflexivity.
Defined.

(** X16.  Line items that are not a list raise instead of being read:
    when the item key holds one object (or a string, a number, a boolean
    or null) in place of the list, the fetch raises [TypeError] at each
    resolution; and when the body key holds anything but an object,
    [AttributeError]. *)
Theorem line_items_must_be_a_list (lib : pylib) (details : json)
    (k1 k2 k3 : string) :
  (forall a b c,
     dict_get details k1 (JObj []) = Ok a ->
     dict_get a k2 (JObj []) = Ok b ->
     dict_get b k3 (JArr []) = Ok c ->
     not_a_list c = true ->
     (items ← line_items details k1 k2 k3; map_result (month_entry lib) items)
       = Err TypeError /\
     (items ← line_items details k1 k2 k3; map_result (day_entry lib) items)
       = Err TypeError /\
     (items ← line_items details k1 k2 k3; map_result (hour_entry lib) items)
       = Err TypeError) /\
  (forall fields v,
     details = JObj fields -> assoc k1 fields = Some v ->
     match v with JObj _ => False | _ => True end ->
     line_items details k1 k2 k3 = Err AttributeError).
Proof.
  split.
  - intros a b c Ha Hb Hc Hnot. unfold line_items. rewrite Ha.
    cbn [mbind result_bind]. rewrite Hb. cbn [mbind result_bind]. rewrite Hc.
    cbn [mbind result_bind].
    destruct c as [| | | |[|ch s]|items|[|[k v] rest]]; try discriminate Hnot;
      try (repeat split; reflexivity).
  - intros fields v -> Hv Hshape. unfold line_items. cbn [dict_get]. rewrite Hv.
    cbn [mbind result_bind]. destruct v; try reflexivity. contradiction.
Qed.

(** The statement at a monthly answer whose only line item is sent as an
    object. *)
Lemma line_items_witness :
  get_usage_by_month (Sample.lib Cases.odd_bodies) (Cases.answers "one-month")
  = Err TypeError.
Proof.
  unfold get_usage_by_month, month_entries.
  change (monthly (Cases.answers "one-month")) with (@Ok string "one-month").
  cbn [mbind result_bind].
  change (loads (Sample.lib Cases.odd_bodies) "one-month")
    with (Ok (JObj [("getUsageHistoryAndGraphDataV1ResponseBody",
            JObj [("usageHistory",
                   JObj [("usageHistoryLineItem",
                          Site.month_item "2023-11-14" "$143" 30 (JFloat 1124))])])])).
  cbn [mbind result_bind].
  eapply (proj1 (line_items_must_be_a_list (Sample.lib Cases.odd_bodies) _ _ _ _));
    reflexivity.
Defined.

Lemma parse_amount_not_a_string (lib : pylib) (fields : list (string * json))
    (key : string) (v : json) :
  assoc key fields = Some v -> not_a_string v = true ->
  parse_amount lib (JObj fields) key = Err AttributeError.
Proof.
  intros Hv Hnot. unfold parse_amount. cbn [dict_get]. rewrite Hv.
  cbn [mbind result_bind]. destruct v; try reflexivity. discriminate Hnot.
Qed.

(** X17.  What a line item must hold.  At month and day resolution the
    end date is required ([KeyError] without it) while the quantity is
    not (a missing quantity is read as 0); a currency field that is
    present but is not a string (a number, null) is not taken as the
    cost: it makes the entry, and with it the fetch, raise.  At hour
    resolution the read date is required and a missing usage is read
    as 0. *)
Theorem line_item_fields (lib : pylib) (fields : list (string * json)) :
  let d := JObj fields in
  (assoc "usagePeriodEndDate" fields = None ->
   month_entry lib d = Err KeyError /\ day_entry lib d = Err KeyError) /\
  (assoc "readDate" fields = None -> hour_entry lib d = Err KeyError) /\
  (forall e, assoc "kwhUsageQuantity" fields = None ->
             month_entry lib d = Ok e \/ day_entry lib d = Ok e ->
             usage e = 0%Q) /\
  (forall e, assoc "usage" fields = None -> hour_entry lib d = Ok e ->
             usage e = 0%Q) /\
  (forall v e, assoc "invoiceAmount" fields = Some v -> not_a_string v = true ->
               month_entry lib d <> Ok e) /\
  (forall v e, assoc "dollerAmount" fields = Some v -> not_a_string v = true ->
               day_entry lib d <> Ok e).
Proof.
  intros d. unfold d.
  split; [|split; [|split; [|split; [|split]]]].
  - intros H. unfold month_entry, day_entry. cbn [getitem]. rewrite H.
    split; reflexivity.
  - intros H. unfold hour_entry. cbn [getitem]. rewrite H. reflexivity.
  - intros e Hq [H | H]; [unfold month_entry in H | unfold day_entry in H];
      bind_inv H; injection H as <-; cbn [usage];
      match goal with
      | Eq : dict_get _ "kwhUsageQuantity" _ = Ok ?q, Ef : py_float _ ?q = Ok ?u
        |- ?u = _ =>
          cbn [dict_get] in Eq; rewrite Hq in Eq; injection Eq as <-;
          injection Ef as <-; reflexivity
      end.
  - intros e Hq H. unfold hour_entry in H. bind_inv H. injection H as <-.
    cbn [usage].
    match goal with
    | Eq : dict_get _ "usage" _ = Ok ?q, Ef : py_float _ ?q = Ok ?u |- ?u = _ =>
        cbn [dict_get] in Eq; rewrite Hq in Eq; injection Eq as <-;
        injection Ef as <-; reflexivity
    end.
  - intros v e Hv Hnot H. apply month_entry_Ok in H as (n & _ & _ & H).
    rewrite (parse_amount_not_a_string lib _ _ _ Hv Hnot) in H. discriminate H.
  - intros v e Hv Hnot H. apply day_entry_Ok in H as (_ & H).
    rewrite (parse_amount_not_a_string lib _ _ _ Hv Hnot) in H. discriminate H.
Qed.

(** The statement at a bill without a quantity (read as 0) and at a bill
    whose amount is a number (the fetch raises). *)
Lemma line_item_fields_witness :
  (exists e,
     get_usage_by_month (Sample.lib Cases.odd_bodies) (Cases.answers "no-quantity")
       = Ok [e] /\ usage e = 0%Q) /\
  get_usage_by_month (Sample.lib Cases.odd_bodies) (Cases.answers "number-amount")
    = Err AttributeError.
Proof.
  split.
  - destruct (month_entry (Sample.lib Cases.odd_bodies)
                (JObj [("usagePeriodEndDate", JStr "2023-11-14");
                       ("elapsedDays", JInt 30); ("invoiceAmount", JStr "$143")]))
      as [e|err] eqn:E; [|vm_compute in E; discriminate E].
    exists e. split.
    + unfold get_usage_by_month, month_entries.
      change (monthly (Cases.answers "no-quantity")) with (@Ok string "no-quantity").
      cbn [mbind result_bind]. vm_compute in E. injection E as <-.
      vm_compute. reflexivity.
    + apply (proj1 (proj2 (proj2 (line_item_fields (Sample.lib Cases.odd_bodies)
               [("usagePeriodEndDate", JStr "2023-11-14");
                ("elapsedDays", JInt 30); ("invoiceAmount", JStr "$143")]))) e);
        [reflexivity | left; exact E].
  - destruct (get_usage_by_month (Sample.lib Cases.odd_bodies)
                (Cases.answers "number-amount")) as [es|err] eqn:E;
      [|vm_compute in E; injection E as <-; reflexivity].
    exfalso. vm_compute in E. discriminate E.
Defined.

(** ** Pagination, again *)

(** X18.  When the portal has as many pages as periods are asked for,
    [get_usage_by_day] and [get_usage_by_hour] return the entries of
    exactly that many pages, newest page first, and PREVIOUS is not used
    after the last one. *)
Theorem pagination_reads_the_pages_asked_for (lib : pylib) (site : portal)
    (period : Z) (body : string) (first : list usage_entry)
    (more : list (list usage_entry)) :
  period = Z.of_nat (S (length more)) ->
  (opened (daily site) = Ok body ->
   pages_follow lib (day_entries lib) (previous (daily site)) 0 body first more ->
   get_usage_by_day lib site period = Ok (first ++ concat more)%list) /\
  (opened (hourly site) = Ok body ->
   pages_follow lib (hour_entries lib) (previous (hourly site)) 0 body first more ->
   get_usage_by_hour lib site period = Ok (first ++ concat more)%list).
Proof.
  intros Hperiod.
  assert (Hnat : Z.to_nat period = (length more + 1)%nat) by lia.
  split; intros Ho Hp.
  - unfold get_usage_by_day. rewrite Ho, Hnat. cbn [mbind result_bind].
    rewrite (page_loop_after_pages lib _ _ 0 more first 0%nat body [] Hp).
    reflexivity.
  - unfold get_usage_by_hour. rewrite Ho, Hnat. cbn [mbind result_bind].
    rewrite (page_loop_after_pages lib _ _ 0 more first 0%nat body [] Hp).
    reflexivity.
Qed.

(** The statement at two months of [Cases.two_months]: the days of
    November, then those of October. *)
Lemma pagination_full_witness :
  get_usage_by_day (Sample.lib Cases.covered_bodies) Cases.two_months 2
  = Ok (Cases.november ++ concat [Cases.october])%list.
Proof.
  apply (pagination_reads_the_pages_asked_for (Sample.lib Cases.covered_bodies)
           Cases.two_months 2 "november" Cases.november [Cases.october]).
  - reflexivity.
  - reflexivity.
  - split; [vm_compute; reflexivity|].
    exists "october". split; [reflexivity|].
    split; [vm_compute; reflexivity | exact I].
Defined.

(** X19.  What ends a pagination with an exception: when more periods
    are asked for than pages were read and the PREVIOUS control is not
    on the page, [IndexError]; when its click fails otherwise, the
    exception of the click; when the next page loads but cannot be
    decoded or read, the exception of that page.  In each case the
    entries already collected are lost. *)
Theorem pagination_errors_lose_the_pages (lib : pylib)
    (entries : json -> result (list usage_entry)) (prev : nat -> previous_outcome)
    (remaining : nat) (body : string) (first : list usage_entry)
    (more : list (list usage_entry)) :
  (S (length more) < remaining)%nat ->
  pages_follow lib entries prev 0 body first more ->
  (prev (length more) = PrevMissing ->
   page_loop lib entries prev remaining 0 body [] = Err IndexError) /\
  (prev (length more) = PrevClickFailed ->
   page_loop lib entries prev remaining 0 body [] = Err WebDriverException) /\
  (forall body' e,
     prev (length more) = PrevLoaded body' ->
     loads lib body' ≫= entries = Err e ->
     page_loop lib entries prev remaining 0 body [] = Err e).
Proof.
  intros Hlen Hp.
  destruct remaining as [|r]; [lia|].
  destruct (r - length more)%nat as [|extra] eqn:Ex; [lia|].
  replace (S r) with (length more + S (S extra))%nat by lia.
  rewrite (page_loop_after_pages lib entries prev (S extra) more first 0%nat
             body [] Hp).
  cbn zeta. cbn [Nat.add].
  split; [|split].
  - intros ->. reflexivity.
  - intros ->. reflexivity.
  - intros body' e -> He. cbn [page_loop].
    destruct (loads lib body') as [details|e']; cbn [mbind result_bind] in *;
      [|exact He].
    rewrite He. reflexivity.
Qed.

(** The statement at three months asked of [Cases.two_months] (PREVIOUS
    is gone from the second page) and of [Cases.broken_second_page]. *)
Lemma pagination_errors_witness :
  get_usage_by_day (Sample.lib Cases.covered_bodies) Cases.two_months 3
    = Err IndexError /\
  get_usage_by_day (Sample.lib Cases.covered_bodies) Cases.broken_second_page 3
    = Err ValueError.
Proof.
  unfold get_usage_by_day.
  change (opened (daily Cases.two_months)) with (@Ok string "november").
  change (opened (daily Cases.broken_second_page)) with (@Ok string "november").
  cbn [mbind result_bind]. change (Z.to_nat 3) with 3%nat.
  split.
  - destruct (pagination_errors_lose_the_pages (Sample.lib Cases.covered_bodies)
                (day_entries (Sample.lib Cases.covered_bodies))
                (previous (daily Cases.two_months)) 3 "november"
                Cases.november [Cases.october]) as (H & _ & _).
    + simpl. lia.
    + split; [vm_compute; reflexivity|].
      exists "october". split; [reflexivity|].
      split; [vm_compute; reflexivity | exact I].
    + apply H. reflexivity.
  - destruct (pagination_errors_lose_the_pages (Sample.lib Cases.covered_bodies)
                (day_entries (Sample.lib Cases.covered_bodies))
                (previous (daily Cases.broken_second_page)) 3 "november"
                Cases.november []) as (_ & _ & H).
    + simpl. lia.
    + split; [vm_compute; reflexivity | exact I].
    + apply (H "garbled" ValueError); [reflexivity | vm_compute; reflexivity].
Defined.

Lemma page_loop_ceiling (lib : pylib) (entries : json -> result (list usage_entry))
    (prev prev' : nat -> previous_outcome) (remaining : nat) :
  forall k body usage,
    (forall j, (k <= j)%nat -> (j + 1 < k + remaining)%nat -> prev j = prev' j) ->
    page_loop lib entries prev remaining k body usage
    = page_loop lib entries prev' remaining k body usage.
Proof.
  induction remaining as [|togo IH]; intros k body usage Hagree; [reflexivity|].
  cbn [page_loop].
  destruct (loads lib body) as [details|e]; [|reflexivity].
  cbn [mbind result_bind].
  destruct (entries details) as [items|e]; [|reflexivity].
  cbn [mbind result_bind].
  destruct togo as [|togo']; [reflexivity|].
  rewrite <- (Hagree k) by lia.
  destruct (prev k); try reflexivity.
  apply IH. intros j Hk Hj. apply Hagree; lia.
Qed.

(** X20.  The number of periods is a ceiling: [get_usage_by_day] and
    [get_usage_by_hour] read nothing when it is zero or negative (they
    return the empty list once the view is open), and what they return
    does not depend on what PREVIOUS would do from the page that
    completes the count on. *)
Theorem pagination_never_goes_past_the_count (lib : pylib)
    (entries : json -> result (list usage_entry))
    (prev prev' : nat -> previous_outcome) (period : Z) (body : string) :
  (period <= 0 ->
   page_loop lib entries prev (Z.to_nat period) 0 body [] = Ok []) /\
  ((forall k, Z.of_nat k + 1 < period -> prev k = prev' k) ->
   page_loop lib entries prev (Z.to_nat period) 0 body []
   = page_loop lib entries prev' (Z.to_nat period) 0 body []) /\
  (forall site, period <= 0 ->
     (opened (daily site) = Ok body -> get_usage_by_day lib site period = Ok []) /\
     (opened (hourly site) = Ok body -> get_usage_by_hour lib site period = Ok [])).
Proof.
  split; [|split].
  - intros H. replace (Z.to_nat period) with 0%nat by lia. reflexivity.
  - intros Hagree. apply page_loop_ceiling. intros j _ Hj.
    apply Hagree. lia.
  - intros site H. unfold get_usage_by_day, get_usage_by_hour.
    replace (Z.to_nat period) with 0%nat by lia.
    split; intros ->; reflexivity.
Qed.

(** The statement at one month asked of two portals that differ in what
    PREVIOUS does. *)
Lemma pagination_ceiling_witness :
  get_usage_by_day (Sample.lib Cases.covered_bodies) Cases.two_months 1
  = get_usage_by_day (Sample.lib Cases.covered_bodies) Cases.covered_after_one 1.
Proof.
  unfold get_usage_by_day.
  change (opened (daily Cases.two_months)) with (@Ok string "november").
  change (opened (daily Cases.covered_after_one)) with (@Ok string "november").
  cbn [mbind result_bind].
  destruct (pagination_never_goes_past_the_count
              (Sample.lib Cases.covered_bodies)
              (day_entries (Sample.lib Cases.covered_bodies))
              (previous (daily Cases.two_months))
              (previous (daily Cases.covered_after_one)) 1 "november")
    as (_ & H & _).
  apply H. intros k Hk. lia.
Defined.
